(** * Fund front-end scripts: a shallow embedding and its verified properties

    The repository holds two browser scripts.  [src/unnamed/part_000] wires
    four forms (fund list, fund detail, optimisation, back-test) to an HTTP
    API and renders the answers as a list, a JSON dump and two charts;
    [src/app/static/js/main.js] wires one form to [/api/optimize] and renders
    a table of percentages.

    The scripts are modelled as state transformers over the part of the page
    they read and write.  JavaScript values and the string and number
    builtins the scripts call are in [JS], exceptions and try/catch in
    [Eff], the Chart.js registry in [Chart], the answers of the server in
    [Net]; the scripts themselves in [App] (part_000) and [Main] (main.js).
    A handler is run from the event to its end, the answer to its request
    being given; handlers of different events are not interleaved.  [Obs]
    holds what the statements of the second part observe. *)

From Stdlib Require Import ZArith String Ascii List Bool Lia SpecFloat.
From stdpp Require Import base option list strings pretty.
From Equations Require Import Equations.

Set Warnings "-register-all".
Local Open Scope string_scope.
Local Open Scope list_scope.

(** ** JavaScript values and builtins *)

Module JS.

(** Values that reach the scripts: the results of [response.json()]
    (JSON values) and [undefined], which property reads produce.  A number
    is an IEEE-754 binary64.  A string is kept as its UTF-8 bytes: the
    scripts concatenate strings, compare them and split them on an ASCII
    comma, all of which agree with JavaScript's UTF-16 view; where a string
    is indexed, [code_units] gives that view.  An object is the list of its
    own properties in enumeration order, as the JSON parser leaves it (keys
    pairwise distinct). *)
Inductive jsval : Type :=
| JUndefined
| JNull
| JBool (b : bool)
| JNum (x : spec_float)
| JStr (s : string)
| JArr (items : list jsval)
| JObj (props : list (string * jsval)).

Inductive js_error : Type :=
| NetworkError     (* fetch rejected *)
| SyntaxError      (* response.json() on a body that is not JSON *)
| TypeError        (* property read on null/undefined, call of a non-function,
                      an object without a primitive value *)
| RangeError       (* an array grown beyond 2^32 - 1 elements *)
| CanvasInUse.     (* Chart.js: the canvas already carries a live chart *)

(** The result of evaluating a builtin: a value or an exception. *)
Inductive result (A : Type) : Type :=
| Done (a : A)
| Raise (e : js_error).
Arguments Done {A} a.
Arguments Raise {A} e.

(** What the scripts use without defining it: the host's number printer
    (Number::toString, whose last digit the language leaves to the
    implementation), its two readers of numbers, [parseFloat] and
    StringToNumber (the conversion [weight * 100] and [i < length] apply to
    a string), and whether the Chart constructor refuses a canvas that
    already carries a live chart (Chart.js from version 3 throws; earlier
    versions stack the charts). *)
Class Host : Type := {
  Number_toString : spec_float -> string;
  parseFloat : string -> spec_float;
  StringToNumber : string -> spec_float;
  Chart_guards_canvas : bool
}.

Definition dquote : string := String (ascii_of_nat 34) EmptyString.
Definition backslash : string := String (ascii_of_nat 92) EmptyString.
Definition newline : string := String (ascii_of_nat 10) EmptyString.

(** [o[k]] for an own property of a parsed object. *)
Fixpoint lookup_prop (k : string) (props : list (string * jsval)) : jsval :=
  match props with
  | [] => JUndefined
  | (k', v) :: rest => if String.eqb k' k then v else lookup_prop k rest
  end.

(** [v.k] for the property names the scripts read ([data], [weights],
    [portfolio_value], [fund_code], [fund_name], [fund_type], [manager],
    [date], [value]); none of them is inherited from a prototype, so the read
    is [undefined] on every primitive and array, and throws on
    null/undefined. *)
Definition get_prop (v : jsval) (k : string) : result jsval :=
  match v with
  | JUndefined | JNull => Raise TypeError
  | JObj props => Done (lookup_prop k props)
  | _ => Done JUndefined
  end.

(** *** Strings *)

(** [s.split(',')]: the pieces between the commas of [s], left to right;
    [cur] is the piece being scanned. *)
Fixpoint split_from (cur s : string) : list string :=
  match s with
  | EmptyString => [cur]
  | String c rest =>
      if Ascii.eqb c "," then cur :: split_from EmptyString rest
      else split_from (cur +:+ String c EmptyString) rest
  end.

Definition split_comma (s : string) : list string := split_from EmptyString s.

(** [pieces.join(sep)] *)
Fixpoint join (sep : string) (pieces : list string) : string :=
  match pieces with
  | [] => EmptyString
  | [p] => p
  | p :: rest => p +:+ sep +:+ join sep rest
  end.

Definition hex_digit (n : N) : string :=
  String (ascii_of_N (if (n <? 10)%N then 48 + n else 87 + n)) EmptyString.

(** QuoteJSONString on one character: the two-character escapes, [\u00xx]
    for the other control characters, everything else unchanged. *)
Definition quote_char (c : ascii) : string :=
  let n := N_of_ascii c in
  if (n =? 34)%N then backslash +:+ dquote
  else if (n =? 92)%N then backslash +:+ backslash
  else if (n =? 8)%N then backslash +:+ "b"
  else if (n =? 9)%N then backslash +:+ "t"
  else if (n =? 10)%N then backslash +:+ "n"
  else if (n =? 12)%N then backslash +:+ "f"
  else if (n =? 13)%N then backslash +:+ "r"
  else if (n <? 32)%N then
    backslash +:+ "u00" +:+ hex_digit (n / 16) +:+ hex_digit (n mod 16)
  else String c EmptyString.

Fixpoint quote_body (s : string) : string :=
  match s with
  | EmptyString => EmptyString
  | String c rest => quote_char c +:+ quote_body rest
  end.

Definition quote (s : string) : string := dquote +:+ quote_body s +:+ dquote.

(** The three bytes that stand for the code unit [u], from 0x800 up. *)
Definition three_bytes (u : N) : string :=
  String (ascii_of_N (224 + u / 4096))
    (String (ascii_of_N (128 + (u / 64) mod 64))
       (String (ascii_of_N (128 + u mod 64)) EmptyString)).

Definition low_six (c : ascii) : N := N_of_ascii c mod 64.

(** [s[0], s[1], ...]: the UTF-16 code units of [s], each as a string of
    its own.  A character of one, two or three bytes is one unit; a
    character of four bytes is two units, the halves of its surrogate
    pair, which are written in three bytes each as any other unit from
    0x800 up.  ([s.length] is the length of this list.) *)
Fixpoint code_units (s : string) : list string :=
  match s with
  | EmptyString => []
  | String a r1 =>
      let n := N_of_ascii a in
      if (n <? 192)%N then String a EmptyString :: code_units r1
      else
        match r1 with
        | EmptyString => [String a EmptyString]
        | String b r2 =>
            if (n <? 224)%N
            then String a (String b EmptyString) :: code_units r2
            else
              match r2 with
              | EmptyString => [String a (String b EmptyString)]
              | String c r3 =>
                  if (n <? 240)%N
                  then String a (String b (String c EmptyString))
                         :: code_units r3
                  else
                    match r3 with
                    | EmptyString =>
                        [String a (String b (String c EmptyString))]
                    | String d r4 =>
                        let point :=
                          ((n mod 8) * 262144 + low_six b * 4096
                           + low_six c * 64 + low_six d)%N in
                        let v := (point - 65536)%N in
                        three_bytes (55296 + v / 1024)
                          :: three_bytes (56320 + v mod 1024)
                          :: code_units r4
                    end
              end
        end
  end.

(** *** Numbers *)

Definition is_finite (x : spec_float) : bool :=
  match x with S754_zero _ | S754_finite _ _ _ => true | _ => false end.

Definition Number_of_Z (n : Z) : spec_float :=
  match n with
  | Z0 => S754_zero false
  | Zpos p => S754_finite false p 0
  | Zneg p => S754_finite true p 0
  end.

(** [x * y] on Numbers: binary64 multiplication, round to nearest even. *)
Definition Number_mul (x y : spec_float) : spec_float := SFmul 53 1024 x y.

(** The integer [n] for which [n / 100] is closest to [m * 2^e]; of two
    equally close the larger (Number.prototype.toFixed, step 10.a). *)
Definition nearest_hundredths (m : positive) (e : Z) : Z :=
  if (0 <=? e)%Z then (Zpos m * 2 ^ e * 100)%Z
  else ((200 * Zpos m + 2 ^ (- e)) / 2 ^ (1 - e))%Z.

(** The decimal digits of [n >= 0] with a point before the last two, padded
    with zeros to three digits at least. *)
Definition fixed2_digits (n : Z) : string :=
  pretty (n / 100)%Z +:+ "."
    +:+ pretty ((n mod 100) / 10)%Z +:+ pretty (n mod 10)%Z.

(** [(10^21 <= m * 2^e)] *)
Definition at_least_1e21 (m : positive) (e : Z) : bool :=
  if (0 <=? e)%Z then (10 ^ 21 <=? Zpos m * 2 ^ e)%Z
  else (10 ^ 21 * 2 ^ (- e) <=? Zpos m)%Z.

(** [x.toFixed(2)] *)
Definition toFixed2 `{Host} (x : spec_float) : string :=
  match x with
  | S754_nan => "NaN"
  | S754_infinity false => "Infinity"
  | S754_infinity true => "-Infinity"
  | S754_zero _ => "0.00"
  | S754_finite s m e =>
      if at_least_1e21 m e then Number_toString x
      else (if s then "-" else "") +:+ fixed2_digits (nearest_hundredths m e)
  end.

(** *** Conversion to text *)

(** Whether the object has an own property named [k]. *)
Definition has_own (k : string) (props : list (string * jsval)) : bool :=
  existsb (fun kv => String.eqb (fst kv) k) props.

(** ToString, as ToPrimitive and [join] apply it.  An array is the
    comma-joined texts of its elements, null and undefined among them
    giving the empty text.  A parsed object inherits [toString] and prints
    as [[object Object]], unless it has an own property of that name: the
    parser never makes that a function, [valueOf] gives back the object,
    and the conversion throws. *)
Fixpoint ToString `{Host} (v : jsval) : result string :=
  match v with
  | JUndefined => Done "undefined"
  | JNull => Done "null"
  | JBool b => Done (if b then "true" else "false")
  | JNum x => Done (Number_toString x)
  | JStr s => Done s
  | JArr items =>
      (fix texts (l : list jsval) (done : list string) : result string :=
         match l with
         | [] => Done (join "," (rev done))
         | JUndefined :: rest | JNull :: rest =>
             texts rest (EmptyString :: done)
         | x :: rest =>
             match ToString x with
             | Done t => texts rest (t :: done)
             | Raise e => Raise e
             end
         end) items []
  | JObj props =>
      if has_own "toString" props then Raise TypeError
      else Done "[object Object]"
  end.

(** The text an element gets when [v] is assigned to its [textContent]:
    null and undefined empty it, any other value gives its ToString. *)
Definition textContent_of `{Host} (v : jsval) : result string :=
  match v with
  | JUndefined | JNull => Done EmptyString
  | _ => ToString v
  end.

(** SerializeJSONProperty with a gap of two spaces; [None] is [undefined]
    (the value is left out of an object and printed [null] in an array). *)
Fixpoint serialize `{Host} (indent : string) (v : jsval) : option string :=
  let inner := indent +:+ "  " in
  let wrap (opening closing : string) (parts : list string) : string :=
    match parts with
    | [] => opening +:+ closing
    | _ => opening +:+ newline +:+ inner
           +:+ join ("," +:+ newline +:+ inner) parts
           +:+ newline +:+ indent +:+ closing
    end in
  match v with
  | JUndefined => None
  | JNull => Some "null"
  | JBool b => Some (if b then "true" else "false")
  | JNum x => Some (if is_finite x then Number_toString x else "null")
  | JStr s => Some (quote s)
  | JArr items =>
      Some (wrap "[" "]"
        ((fix elements (l : list jsval) : list string :=
            match l with
            | [] => []
            | x :: rest =>
                match serialize inner x with
                | Some t => t
                | None => "null"
                end :: elements rest
            end) items))
  | JObj props =>
      Some (wrap "{" "}"
        ((fix members (l : list (string * jsval)) : list string :=
            match l with
            | [] => []
            | (k, x) :: rest =>
                match serialize inner x with
                | Some t => (quote k +:+ ": " +:+ t) :: members rest
                | None => members rest
                end
            end) props))
  end.

(** [JSON.stringify(v, null, 2)] *)
Definition JSON_stringify `{Host} (v : jsval) : option string :=
  serialize EmptyString v.

(** Assigning [JSON.stringify(...)] to [textContent]: [undefined] empties
    the element. *)
Definition text_of (o : option string) : string :=
  match o with Some s => s | None => EmptyString end.

(** *** Own enumerable properties *)

Definition indices {A} (l : list A) : list string :=
  map (fun i : nat => pretty i) (seq 0 (length l)).

(** [Object.entries(v)]: the own enumerable properties; those of a
    string are its code units under their indices. *)
Definition Object_entries (v : jsval) : result (list (string * jsval)) :=
  match v with
  | JUndefined | JNull => Raise TypeError
  | JObj props => Done props
  | JArr items => Done (zip (indices items) items)
  | JBool _ | JNum _ => Done []
  | JStr s =>
      let units := map JStr (code_units s) in
      Done (zip (indices units) units)
  end.

(** [Object.keys(v)] *)
Definition Object_keys (v : jsval) : result (list string) :=
  match Object_entries v with
  | Done es => Done (map fst es)
  | Raise e => Raise e
  end.

(** [Object.values(v)] *)
Definition Object_values (v : jsval) : result (list jsval) :=
  match Object_entries v with
  | Done es => Done (map snd es)
  | Raise e => Raise e
  end.

(** ToNumber, on the operand of [weight * 100] and on the bound of
    [i < original.length].  An array is read through its text; an object
    that prints as [[object Object]] is not a number. *)
Definition ToNumber `{Host} (v : jsval) : result spec_float :=
  match v with
  | JUndefined => Done S754_nan
  | JNull => Done (S754_zero false)
  | JBool b => Done (if b then Number_of_Z 1 else S754_zero false)
  | JNum x => Done x
  | JStr s => Done (StringToNumber s)
  | JArr _ =>
      match ToString v with
      | Done t => Done (StringToNumber t)
      | Raise e => Raise e
      end
  | JObj props =>
      if has_own "toString" props then Raise TypeError else Done S754_nan
  end.

(** How many of the indices [0, 1, 2, ...] are below [x]; [None] when all
    are. *)
Definition indices_below (x : spec_float) : option Z :=
  match x with
  | S754_infinity false => None
  | S754_finite false m e =>
      Some (if (0 <=? e)%Z then Zpos m * 2 ^ e
            else (Zpos m + 2 ^ (- e) - 1) / 2 ^ (- e))%Z
  | _ => Some 0%Z
  end.

End JS.

(** ** Effects: page state, exceptions, try/catch *)

Module Eff.
Import JS.

Section Monad.
Context {S : Type}.

(** How a piece of script ends on a page state: normally with a value, or
    with an exception after the state changes made so far. *)
Inductive outcome (A : Type) : Type :=
| Ok (a : A) (s : S)
| Thrown (e : js_error) (s : S).

Definition M (A : Type) : Type := S -> outcome A.

Definition ret {A} (a : A) : M A := fun s => Ok A a s.

Definition bind {A B} (m : M A) (k : A -> M B) : M B := fun s =>
  match m s with
  | Ok _ a s' => k a s'
  | Thrown _ e s' => Thrown B e s'
  end.

Definition throw {A} (e : js_error) : M A := fun s => Thrown A e s.

Definition lift {A} (r : result A) : M A := fun s =>
  match r with
  | Done a => Ok A a s
  | Raise e => Thrown A e s
  end.

Definition gets {A} (f : S -> A) : M A := fun s => Ok A (f s) s.

Definition modify (f : S -> S) : M unit := fun s => Ok unit tt (f s).

(** [try { body } catch (error) { handler(error) }] *)
Definition try_catch {A} (body : M A) (handler : js_error -> M A) : M A :=
  fun s =>
    match body s with
    | Thrown _ e s' => handler e s'
    | r => r
    end.

(** [try { body } finally { cleanup }] *)
Definition try_finally {A} (body : M A) (cleanup : M unit) : M A := fun s =>
  match body s with
  | Ok _ a s' =>
      match cleanup s' with
      | Ok _ _ s'' => Ok A a s''
      | Thrown _ e s'' => Thrown A e s''
      end
  | Thrown _ e s' =>
      match cleanup s' with
      | Ok _ _ s'' => Thrown A e s''
      | Thrown _ e' s'' => Thrown A e' s''
      end
  end.

(** [items.forEach(f)] *)
Fixpoint for_each {A} (f : A -> M unit) (items : list A) : M unit :=
  match items with
  | [] => ret tt
  | x :: rest => bind (f x) (fun _ => for_each f rest)
  end.

(** [items.map(f)] for an [f] that may throw *)
Fixpoint map_m {A B} (f : A -> M B) (items : list A) : M (list B) :=
  match items with
  | [] => ret []
  | x :: rest =>
      bind (f x) (fun y => bind (map_m f rest) (fun ys => ret (y :: ys)))
  end.
End Monad.

Arguments outcome : clear implicits.
Arguments M : clear implicits.
Arguments Ok {S A} a s.
Arguments Thrown {S A} e s.

Declare Scope js_scope.
Delimit Scope js_scope with js.
Notation "'let*' x ':=' m 'in' k" := (bind m (fun x => k))
  (at level 10, x name, m at level 100, k at level 200) : js_scope.
Notation "m ';;' k" := (bind m (fun _ => k))
  (at level 100, k at level 200, right associativity) : js_scope.

(** The state in which a run ends. *)
Definition final {S A} (r : outcome S A) : S :=
  match r with
  | Ok _ s | Thrown _ s => s
  end.

End Eff.

(** ** Chart.js instances *)

Module Chart.
Import JS.

Inductive chart_type : Type := bar | line.

(** The part of the configuration object the scripts compute. *)
Record config : Type := Config {
  type : chart_type;
  labels : list jsval;
  dataset_label : string;
  data : list jsval
}.

(** An instance made by [new Chart(ctx, config)]; [canvas] is the id of the
    element whose context was passed. *)
Record instance : Type := Instance {
  canvas : string;
  cfg : config;
  destroyed : bool
}.

(** Every instance constructed since the page was loaded, oldest first; an
    instance is referred to by its position. *)
Abbreviation registry := (list instance).

Definition on_canvas (c : string) (i : instance) : bool :=
  String.eqb (canvas i) c.

Definition is_live (c : string) (i : instance) : bool :=
  on_canvas c i && negb (destroyed i).

(** The undisposed instances bound to canvas [c]. *)
Definition live (c : string) (r : registry) : list instance :=
  List.filter (is_live c) r.

(** [new Chart(ctx, config)]: the extended registry and the new instance's
    position, unless the library guards the canvas and it is taken. *)
Definition construct `{Host} (c : string) (k : config) (r : registry)
  : result (nat * registry) :=
  if Chart_guards_canvas && negb (Nat.eqb (length (live c r)) 0)
  then Raise CanvasInUse
  else Done (length r, r ++ [Instance c k false]).

Definition dispose (i : instance) : instance :=
  Instance (canvas i) (cfg i) true.

(** [r[id].destroy()] *)
Definition destroy (id : nat) (r : registry) : registry :=
  alter dispose id r.

End Chart.

(** ** The network, as the scripts see it *)

Module Net.
Import JS Eff.

(** A call of [fetch]: the method, the URL and, for a POST, the object
    whose JSON text is the body. *)
Inductive request : Type :=
| GET (url : string)
| POST (url : string) (body : jsval).

(** What comes back: the promise rejects, or a response arrives with some
    status and a body that is JSON text ([Some]) or is not ([None]). *)
Inductive fetch_outcome : Type :=
| NetworkFailure
| Responded (status : Z) (body : option jsval).

Inductive console_entry : Type :=
| Log (args : list jsval)      (* console.log(...) *)
| ErrorLog (e : js_error).     (* console.error('Error:', error) *)

(** [await response.json()] for the response in [net]; [await fetch(...)]
    has rejected before when there is none.  The status is not looked at. *)
Definition response_json {S} (net : fetch_outcome) : M S jsval :=
  match net with
  | NetworkFailure => throw NetworkError
  | Responded _ (Some v) => ret v
  | Responded _ None => throw SyntaxError
  end.

End Net.

(** ** part_000: the four forms *)

Module App.
Import JS Eff Chart Net.
Local Open Scope js_scope.

Definition API_BASE_URL : string := "http://127.0.0.1:8000".
Definition MAX_FUNDS_TO_SHOW : nat := 10.
Definition sampleInterval : nat := 7.

Definition view_more : string := "查看更多".
Definition collapse : string := "收起".
Definition show_full : string := "展开完整信息".
Definition show_summary : string := "收起完整信息".

(** A toggle control: [style.display], [textContent] and its click
    listeners in the order of registration, each given by what its closure
    captured. *)
Record button (C : Type) : Type := Button {
  display : string;
  text : string;
  listeners : list C
}.
Arguments Button {C} display text listeners.
Arguments display {C} b.
Arguments text {C} b.
Arguments listeners {C} b.

(** The page as far as part_000 reads and writes it. *)
Record page : Type := Page {
  fundList : list string;                  (* text of each li of #fundList *)
  toggleFundList : button (list jsval);    (* closure: funds *)
  fundInfoContent : string;
  toggleFundInfo : button (jsval * jsval); (* closure: summary, fullInfo *)
  optimizeResultContent : string;
  backtestResultContent : string;
  backtestLoading : string;                (* style.display *)
  charts : registry;
  optimizeChartInstance : option nat;
  console : list console_entry;            (* what the script has logged *)
  network : list request
}.

Definition with_fundList (f : list string -> list string) (p : page) :=
  Page (f (fundList p)) (toggleFundList p) (fundInfoContent p)
    (toggleFundInfo p) (optimizeResultContent p) (backtestResultContent p)
    (backtestLoading p) (charts p) (optimizeChartInstance p) (console p)
    (network p).

Definition with_toggleFundList
  (f : button (list jsval) -> button (list jsval)) (p : page) :=
  Page (fundList p) (f (toggleFundList p)) (fundInfoContent p)
    (toggleFundInfo p) (optimizeResultContent p) (backtestResultContent p)
    (backtestLoading p) (charts p) (optimizeChartInstance p) (console p)
    (network p).

Definition with_fundInfoContent (s : string) (p : page) :=
  Page (fundList p) (toggleFundList p) s
    (toggleFundInfo p) (optimizeResultContent p) (backtestResultContent p)
    (backtestLoading p) (charts p) (optimizeChartInstance p) (console p)
    (network p).

Definition with_toggleFundInfo
  (f : button (jsval * jsval) -> button (jsval * jsval)) (p : page) :=
  Page (fundList p) (toggleFundList p) (fundInfoContent p)
    (f (toggleFundInfo p)) (optimizeResultContent p) (backtestResultContent p)
    (backtestLoading p) (charts p) (optimizeChartInstance p) (console p)
    (network p).

Definition with_optimizeResultContent (s : string) (p : page) :=
  Page (fundList p) (toggleFundList p) (fundInfoContent p)
    (toggleFundInfo p) s (backtestResultContent p)
    (backtestLoading p) (charts p) (optimizeChartInstance p) (console p)
    (network p).

Definition with_backtestResultContent (s : string) (p : page) :=
  Page (fundList p) (toggleFundList p) (fundInfoContent p)
    (toggleFundInfo p) (optimizeResultContent p) s
    (backtestLoading p) (charts p) (optimizeChartInstance p) (console p)
    (network p).

Definition with_backtestLoading (s : string) (p : page) :=
  Page (fundList p) (toggleFundList p) (fundInfoContent p)
    (toggleFundInfo p) (optimizeResultContent p) (backtestResultContent p)
    s (charts p) (optimizeChartInstance p) (console p)
    (network p).

Definition with_charts (r : registry) (p : page) :=
  Page (fundList p) (toggleFundList p) (fundInfoContent p)
    (toggleFundInfo p) (optimizeResultContent p) (backtestResultContent p)
    (backtestLoading p) r (optimizeChartInstance p) (console p)
    (network p).

Definition with_optimizeChartInstance (i : option nat) (p : page) :=
  Page (fundList p) (toggleFundList p) (fundInfoContent p)
    (toggleFundInfo p) (optimizeResultContent p) (backtestResultContent p)
    (backtestLoading p) (charts p) i (console p)
    (network p).

Definition with_console (f : list console_entry -> list console_entry)
  (p : page) :=
  Page (fundList p) (toggleFundList p) (fundInfoContent p)
    (toggleFundInfo p) (optimizeResultContent p) (backtestResultContent p)
    (backtestLoading p) (charts p) (optimizeChartInstance p) (f (console p))
    (network p).

Definition with_network (f : list request -> list request) (p : page) :=
  Page (fundList p) (toggleFundList p) (fundInfoContent p)
    (toggleFundInfo p) (optimizeResultContent p) (backtestResultContent p)
    (backtestLoading p) (charts p) (optimizeChartInstance p) (console p)
    (f (network p)).

Definition set_display {C} (s : string) (b : button C) : button C :=
  Button s (text b) (listeners b).
Definition set_text {C} (s : string) (b : button C) : button C :=
  Button (display b) s (listeners b).
Definition addEventListener {C} (c : C) (b : button C) : button C :=
  Button (display b) (text b) (listeners b ++ [c]).

(** The page when the script has been loaded and no event handled yet: the
    markup's own texts, no listener, no chart. *)
Definition loaded (items : list string) (label1 content label2 : string)
  : page :=
  Page items (Button "" label1 []) content (Button "" label2 [])
    "" "" "" [] None [] [].

Definition console_log (args : list jsval) : M page unit :=
  modify (with_console (fun c => c ++ [Log args])).
Definition console_error (e : js_error) : M page unit :=
  modify (with_console (fun c => c ++ [ErrorLog e])).

(** [await fetch(...)]: the request goes out; the answer is [net]. *)
Definition fetch (req : request) (net : fetch_outcome) : M page unit :=
  modify (with_network (fun n => n ++ [req])) ;;
  match net with
  | NetworkFailure => throw NetworkError
  | Responded _ _ => ret tt
  end.

(** [li.textContent = fund; fundList.appendChild(li)] *)
Definition append_item `{Host} (fund : jsval) : M page unit :=
  let* text := lift (textContent_of fund) in
  modify (with_fundList (fun l => l ++ [text])).

(** [displayedFunds.forEach((item, index) => { if (index >= MAX_FUNDS_TO_SHOW)
    item.remove(); })] over the items of the list, [index] being the position
    of the first of [items]. *)
Fixpoint remove_beyond (index : nat) (items : list string) : list string :=
  match items with
  | [] => []
  | item :: rest =>
      if (MAX_FUNDS_TO_SHOW <=? index)%nat then remove_beyond (S index) rest
      else item :: remove_beyond (S index) rest
  end.

(** The click listener that [displayFunds] registers; [funds] is the array
    its closure captured. *)
Definition toggleFundList_onclick `{Host} (funds : list jsval)
  : M page unit :=
  let* label := gets (fun p => text (toggleFundList p)) in
  if String.eqb label view_more then
    let remainingFunds := drop MAX_FUNDS_TO_SHOW funds in
    for_each append_item remainingFunds ;;
    modify (with_toggleFundList (set_text collapse))
  else
    modify (with_fundList (remove_beyond 0)) ;;
    modify (with_toggleFundList (set_text view_more)).

(** [displayFunds(funds)].  Only an array has both [slice] and a result
    with [forEach]; on anything else the call throws once the list has been
    emptied.  An item without a text ends the call where it stands. *)
Definition displayFunds `{Host} (funds : jsval) : M page unit :=
  modify (with_fundList (fun _ => [])) ;;
  match funds with
  | JArr items =>
      let initialFunds := take MAX_FUNDS_TO_SHOW items in
      for_each append_item initialFunds ;;
      if (MAX_FUNDS_TO_SHOW <? length items)%nat then
        modify (with_toggleFundList (set_display "block")) ;;
        modify (with_toggleFundList (set_text view_more)) ;;
        modify (with_toggleFundList (addEventListener items))
      else
        modify (with_toggleFundList (set_display "none"))
  | _ => throw TypeError
  end.

Definition fundForm_request (fundType : string) : request :=
  GET (API_BASE_URL +:+ "/funds"
       +:+ (if String.eqb fundType "" then ""
            else "?fund_type=" +:+ fundType)).

(** The handler of [fundForm]'s submit event, run up to its end with [net]
    as the answer to its request. *)
Definition fundForm_submit `{Host} (fundType : string) (net : fetch_outcome)
  : M page unit :=
  console_log [JStr "Fund form submit event triggered!"] ;;
  try_catch
    (fetch (fundForm_request fundType) net ;;
     let* result := response_json net in
     let* data := lift (get_prop result "data") in
     displayFunds data)
    console_error.

(** The [summary] object literal of [displayFundInfo]. *)
Definition summary_of (fundInfo : jsval) : M page jsval :=
  let* code := lift (get_prop fundInfo "fund_code") in
  let* name := lift (get_prop fundInfo "fund_name") in
  let* type := lift (get_prop fundInfo "fund_type") in
  let* manager := lift (get_prop fundInfo "manager") in
  ret (JObj [("基金代码", code); ("基金名称", name);
             ("基金类型", type); ("基金经理", manager)]).

(** The click listener that [displayFundInfo] registers. *)
Definition toggleFundInfo_onclick `{Host} (captured : jsval * jsval)
  : M page unit :=
  let '(summary, fullInfo) := captured in
  let* label := gets (fun p => text (toggleFundInfo p)) in
  if String.eqb label show_full then
    modify (with_fundInfoContent (text_of (JSON_stringify fullInfo))) ;;
    modify (with_toggleFundInfo (set_text show_summary))
  else
    modify (with_fundInfoContent (text_of (JSON_stringify summary))) ;;
    modify (with_toggleFundInfo (set_text show_full)).

(** [displayFundInfo(fundInfo)] *)
Definition displayFundInfo `{Host} (fundInfo : jsval) : M page unit :=
  let* summary := summary_of fundInfo in
  let fullInfo := fundInfo in
  modify (with_fundInfoContent (text_of (JSON_stringify summary))) ;;
  modify (with_toggleFundInfo (set_text show_full)) ;;
  modify (with_toggleFundInfo (addEventListener (summary, fullInfo))).

Definition fundInfoForm_request (fundCode : string) : request :=
  GET (API_BASE_URL +:+ "/fund/" +:+ fundCode).

(** The handler of [fundInfoForm]'s submit event. *)
Definition fundInfoForm_submit `{Host} (fundCode : string)
  (net : fetch_outcome) : M page unit :=
  try_catch
    (fetch (fundInfoForm_request fundCode) net ;;
     let* result := response_json net in
     let* data := lift (get_prop result "data") in
     displayFundInfo data)
    console_error.

(** [new Chart(ctx, config)] for the context of canvas [c] *)
Definition new_Chart `{Host} (c : string) (k : config) : M page nat :=
  fun p =>
    match construct c k (charts p) with
    | Done (id, r) => Ok id (with_charts r p)
    | Raise e => Thrown e p
    end.

(** [renderOptimizeChart(data)] *)
Definition renderOptimizeChart `{Host} (data : jsval) : M page unit :=
  let ctx := "optimizeChart" in
  let* existing := gets optimizeChartInstance in
  match existing with
  | Some id => modify (fun p => with_charts (destroy id (charts p)) p)
  | None => ret tt
  end ;;
  let* weights := lift (get_prop data "weights") in
  let* keys := lift (Object_keys weights) in
  let* values := lift (Object_values weights) in
  let* created := new_Chart ctx (Config bar (map JStr keys) "权重" values) in
  modify (with_optimizeChartInstance (Some created)).

(** The requests of the optimisation and back-test forms, from the values
    of their input fields. *)
Definition optimizeForm_request `{Host} (fundPool method riskAversion : string)
  : request :=
  let fundPool := split_comma fundPool in
  let riskAversion := parseFloat riskAversion in
  POST (API_BASE_URL +:+ "/optimize")
    (JObj [("fund_pool", JArr (map JStr fundPool));
           ("method", JStr method);
           ("risk_aversion", JNum riskAversion)]).

Definition backtestForm_request (fundPool startDate endDate : string)
  : request :=
  let fundPool := split_comma fundPool in
  POST (API_BASE_URL +:+ "/backtest")
    (JObj [("fund_pool", JArr (map JStr fundPool));
           ("start_date", JStr startDate);
           ("end_date", JStr endDate)]).

(** The handler of [optimizeForm]'s submit event. *)
Definition optimizeForm_submit `{Host} (fundPool method riskAversion : string)
  (net : fetch_outcome) : M page unit :=
  try_catch
    (fetch (optimizeForm_request fundPool method riskAversion) net ;;
     let* result := response_json net in
     let* data := lift (get_prop result "data") in
     modify (with_optimizeResultContent (text_of (JSON_stringify data))) ;;
     renderOptimizeChart data)
    console_error.

(** The sampling loop of [renderBacktestChart]:
    [for (let i = ...; i < original.length; i += sampleInterval)
       sampled.push(original[i])], entered with [i] and [sampled]. *)
Equations? sample_loop (original : list jsval) (i : nat)
  (sampled : list jsval) : list jsval by wf (length original - i) lt :=
  sample_loop original i sampled with decide (i < length original) := {
    | left _ =>
        sample_loop original (i + sampleInterval)
          (sampled ++ [default JUndefined (original !! i)]);
    | right _ => sampled }.
Proof. unfold sampleInterval. lia. Qed.

(** The most elements an array holds; the [push] that would make one more
    throws. *)
Definition max_array_length : Z := 2 ^ 32 - 1.

(** What the loop ranges over and what [.length] reads: the elements of an
    array; the code units of a string; nothing, with [length] undefined, on
    a number or a boolean.  An object is read as the loop reads it: its
    [length], whatever value it is, bounds [i] as a Number, and [original[i]]
    is the property named by the digits of [i].  When that bound lets the
    loop push more than an array holds, the loop ends in the RangeError of
    that [push]. *)
Definition array_view `{Host} (v : jsval) : result (list jsval * jsval) :=
  match v with
  | JUndefined | JNull => Raise TypeError
  | JArr items => Done (items, JNum (Number_of_Z (Z.of_nat (length items))))
  | JStr s =>
      let units := map JStr (code_units s) in
      Done (units, JNum (Number_of_Z (Z.of_nat (length units))))
  | JBool _ | JNum _ => Done ([], JUndefined)
  | JObj props =>
      let original_length := lookup_prop "length" props in
      match ToNumber original_length with
      | Done bound =>
          match indices_below bound with
          | Some n =>
              if (Z.of_nat sampleInterval * max_array_length <? n)%Z
              then Raise RangeError
              else
                Done (map (fun i : nat => lookup_prop (pretty i) props)
                        (seq 0 (Z.to_nat n)),
                      original_length)
          | None => Raise RangeError
          end
      | Raise e => Raise e
      end
  end.

(** [renderBacktestChart(data)] *)
Definition renderBacktestChart `{Host} (data : jsval) : M page unit :=
  let ctx := "backtestChart" in
  let* originalPortfolioValue := lift (get_prop data "portfolio_value") in
  let* view := lift (array_view originalPortfolioValue) in
  let '(original, original_length) := view in
  let sampledPortfolioValue := sample_loop original 0 [] in
  console_log [JStr "Original data length:"; original_length] ;;
  console_log [JStr "Sampled data length:";
               JNum (Number_of_Z (Z.of_nat (length sampledPortfolioValue)))] ;;
  let* dates :=
    map_m (fun entry => lift (get_prop entry "date")) sampledPortfolioValue in
  let* values :=
    map_m (fun entry => lift (get_prop entry "value")) sampledPortfolioValue in
  let* _ := new_Chart ctx (Config line dates "组合净值 (抽样)" values) in
  ret tt.

(** The handler of [backtestForm]'s submit event. *)
Definition backtestForm_submit `{Host} (fundPool startDate endDate : string)
  (net : fetch_outcome) : M page unit :=
  modify (with_backtestLoading "block") ;;
  try_finally
    (try_catch
       (fetch (backtestForm_request fundPool startDate endDate) net ;;
        let* result := response_json net in
        let* data := lift (get_prop result "data") in
        modify (with_backtestResultContent (text_of (JSON_stringify data))) ;;
        renderBacktestChart data)
       console_error)
    (modify (with_backtestLoading "none")).

(** An exception that leaves a listener is reported by the browser, to its
    own error log and to the window's error event, which the scripts do
    not listen to: the page stays as the listener left it. *)
Definition reported (e : js_error) : M page unit := ret tt.

(** An event dispatched to the listeners of a control: they run in the
    order of their registration, and one that throws does not keep the
    next from running. *)
Definition dispatch {C} (listener : C -> M page unit) (registered : list C)
  : M page unit :=
  for_each (fun c => try_catch (listener c) reported) registered.

(** A click event dispatched on a toggle. *)
Definition click_toggleFundList `{Host} : M page unit :=
  let* registered := gets (fun p => listeners (toggleFundList p)) in
  dispatch toggleFundList_onclick registered.

Definition click_toggleFundInfo `{Host} : M page unit :=
  let* registered := gets (fun p => listeners (toggleFundInfo p)) in
  dispatch toggleFundInfo_onclick registered.

(** A click by the user: a control whose [display] is [none] is not
    rendered and receives none. *)
Definition user_click_toggleFundList `{Host} : M page unit :=
  let* shown := gets (fun p => display (toggleFundList p)) in
  if String.eqb shown "none" then ret tt else click_toggleFundList.

(** What can happen to the page. *)
Inductive event : Type :=
| SubmitFundForm (fundType : string) (net : fetch_outcome)
| SubmitFundInfoForm (fundCode : string) (net : fetch_outcome)
| SubmitOptimizeForm (fundPool method riskAversion : string)
    (net : fetch_outcome)
| SubmitBacktestForm (fundPool startDate endDate : string)
    (net : fetch_outcome)
| ClickToggleFundList
| ClickToggleFundInfo.

Definition handle `{Host} (e : event) : M page unit :=
  match e with
  | SubmitFundForm fundType net => fundForm_submit fundType net
  | SubmitFundInfoForm fundCode net => fundInfoForm_submit fundCode net
  | SubmitOptimizeForm fundPool method riskAversion net =>
      optimizeForm_submit fundPool method riskAversion net
  | SubmitBacktestForm fundPool startDate endDate net =>
      backtestForm_submit fundPool startDate endDate net
  | ClickToggleFundList => user_click_toggleFundList
  | ClickToggleFundInfo => click_toggleFundInfo
  end.

(** The pages that a loaded page can become. *)
Inductive reachable `{Host} : page -> Prop :=
| reachable_loaded items label1 content label2 :
    reachable (loaded items label1 content label2)
| reachable_step p e p' :
    reachable p -> final (handle e p) = p' -> reachable p'.

End App.

(** ** main.js: the optimisation form and its table *)

Module Main.
Import JS Eff Net.
Local Open Scope js_scope.

Record page : Type := Page {
  results : string;                 (* innerHTML of #results *)
  console : list console_entry;
  network : list request
}.

Definition hundred : spec_float := Number_of_Z 100.

(** The loop of [displayResults] over the remaining [entries], [html] being
    the markup built so far. *)
Fixpoint rows_loop `{Host} (html : string) (entries : list (string * jsval))
  : M page string :=
  match entries with
  | [] => ret html
  | (code, weight) :: rest =>
      let* w := lift (ToNumber weight) in
      rows_loop
        (html +:+ "<tr><td>" +:+ code +:+ "</td><td>"
              +:+ toFixed2 (Number_mul w hundred) +:+ "%</td></tr>")
        rest
  end.

(** [displayResults(result)] *)
Definition displayResults `{Host} (result : jsval) : M page unit :=
  let html := "<h3>优化结果</h3>" in
  let html := html +:+ "<table class=" +:+ dquote +:+ "table" +:+ dquote
                   +:+ ">" in
  let html := html +:+ "<tr><th>基金代码</th><th>权重</th></tr>" in
  let* weights := lift (get_prop result "weights") in
  let* entries := lift (Object_entries weights) in
  let* html := rows_loop html entries in
  let html := html +:+ "</table>" in
  modify (fun p => Page html (console p) (network p)).

Definition optimizeForm_request (fundCodes startDate endDate : string)
  : request :=
  let fundCodes := split_comma fundCodes in
  POST "/api/optimize"
    (JObj [("fund_codes", JArr (map JStr fundCodes));
           ("start_date", JStr startDate);
           ("end_date", JStr endDate)]).

(** [await fetch(...)]: the request goes out; the answer is [net]. *)
Definition fetch (req : request) (net : fetch_outcome) : M page unit :=
  modify (fun p => Page (results p) (console p) (network p ++ [req])) ;;
  match net with
  | NetworkFailure => throw NetworkError
  | Responded _ _ => ret tt
  end.

Definition console_error (e : js_error) : M page unit :=
  modify (fun p => Page (results p) (console p ++ [ErrorLog e]) (network p)).

(** The handler of [optimizeForm]'s submit event, run up to its end with
    [net] as the answer to its request. *)
Definition optimizeForm_submit `{Host} (fundCodes startDate endDate : string)
  (net : fetch_outcome) : M page unit :=
  try_catch
    (fetch (optimizeForm_request fundCodes startDate endDate) net ;;
     let* result := response_json net in
     displayResults result)
    console_error.

End Main.

(** ** Observations used in the statements *)

Module Obs.
Import JS Eff Chart Net.

(** The fund pool carried by a request body (its first property). *)
Definition pool_of (req : request) : list jsval :=
  match req with
  | POST _ (JObj ((_, JArr pool) :: _)) => pool
  | _ => []
  end.

(** The element the sampling loop pushes from index [i]. *)
Definition picked (original : list jsval) (i : nat) : jsval :=
  default JUndefined (original !! i).

(** How many times the sampling loop's body runs when entered at [i]. *)
Definition rounds (len i : nat) : nat := (len - i + 6) / 7.

(** The chart registry and the script's reference into it. *)
Definition chart_state (p : App.page) : registry * option nat :=
  (App.charts p, App.optimizeChartInstance p).

(** An array of fund identifiers, as the fund-list endpoint answers. *)
Definition fund_ids (ids : list string) : jsval := JArr (map JStr ids).

(** The texts of the leading items that have one, and the exception of
    the first item that has none. *)
Fixpoint texts_until_error `{Host} (items : list jsval)
  : list string * option js_error :=
  match items with
  | [] => ([], None)
  | x :: rest =>
      match textContent_of x with
      | Done t =>
          let '(ts, failure) := texts_until_error rest in (t :: ts, failure)
      | Raise e => ([], Some e)
      end
  end.

Definition texts_of `{Host} (items : list jsval) : list string :=
  fst (texts_until_error items).

Definition failure_of `{Host} (items : list jsval) : option js_error :=
  snd (texts_until_error items).

(** The page after [displayFunds] on an array whose first ten items have
    texts. *)
Definition shown `{Host} (items : list jsval) (p : App.page) : App.page :=
  App.with_toggleFundList
    (fun b =>
       if (App.MAX_FUNDS_TO_SHOW <? length items)%nat
       then App.Button "block" App.view_more (App.listeners b ++ [items])
       else App.set_display "none" b)
    (App.with_fundList
       (fun _ => texts_of (take App.MAX_FUNDS_TO_SHOW items)) p).

(** What one run of the fund-list toggle's listener does to the page, the
    listener having captured [funds]: it appends the remaining items up to
    the first without a text, and changes the label when it got through
    them all. *)
Definition list_step `{Host} (funds : list jsval) (p : App.page) : App.page :=
  if String.eqb (App.text (App.toggleFundList p)) App.view_more then
    let remainingFunds := drop App.MAX_FUNDS_TO_SHOW funds in
    let appended :=
      App.with_fundList (fun l => l ++ texts_of remainingFunds) p in
    match failure_of remainingFunds with
    | None => App.with_toggleFundList (App.set_text App.collapse) appended
    | Some _ => appended
    end
  else
    App.with_toggleFundList (App.set_text App.view_more)
      (App.with_fundList (take App.MAX_FUNDS_TO_SHOW) p).

(** The summary object that [displayFundInfo] builds from a source object
    with the properties [props], and what its listener captures. *)
Definition summary_obj (props : list (string * jsval)) : jsval :=
  JObj [("基金代码", lookup_prop "fund_code" props);
        ("基金名称", lookup_prop "fund_name" props);
        ("基金类型", lookup_prop "fund_type" props);
        ("基金经理", lookup_prop "manager" props)].

Definition captured_by (props : list (string * jsval)) : jsval * jsval :=
  (summary_obj props, JObj props).

(** The page after [displayFundInfo] on a source object. *)
Definition informed `{Host} (props : list (string * jsval)) (p : App.page)
  : App.page :=
  App.with_toggleFundInfo
    (fun b =>
       App.Button (App.display b) App.show_full
         (App.listeners b ++ [captured_by props]))
    (App.with_fundInfoContent
       (text_of (JSON_stringify (summary_obj props))) p).

(** The label after one run of the fund-info listener. *)
Definition flip_label (label : string) : string :=
  if String.eqb label App.show_full then App.show_summary else App.show_full.

(** What one run of the fund-info toggle's listener does to the page, the
    listener having captured [summary] and [fullInfo]. *)
Definition info_step `{Host} (captured : jsval * jsval) (p : App.page)
  : App.page :=
  if String.eqb (App.text (App.toggleFundInfo p)) App.show_full then
    App.with_toggleFundInfo (App.set_text App.show_summary)
      (App.with_fundInfoContent (text_of (JSON_stringify (snd captured))) p)
  else
    App.with_toggleFundInfo (App.set_text App.show_full)
      (App.with_fundInfoContent (text_of (JSON_stringify (fst captured))) p).

(** [n] steps, one per listener, in the order of registration. *)
Definition steps {C} (step : C -> App.page -> App.page) (registered : list C)
  (p : App.page) : App.page :=
  fold_left (fun q c => step c q) registered p.

(** Every live chart on the optimisation canvas is the one the script
    refers to. *)
Definition tracked (p : App.page) : Prop :=
  forall id c,
    App.charts p !! id = Some c -> is_live "optimizeChart" c = true ->
    App.optimizeChartInstance p = Some id.

(** No live chart on canvas [c]. *)
Definition vacant (c : string) (r : registry) : Prop :=
  forall id i, r !! id = Some i -> is_live c i = false.

(** The registry once [renderOptimizeChart] has destroyed the instance it
    refers to, if any. *)
Definition disposed_existing (p : App.page) : registry :=
  match App.optimizeChartInstance p with
  | Some id => destroy id (App.charts p)
  | None => App.charts p
  end.

(** The bar chart drawn from the weights [w]. *)
Definition bar_chart (w : list (string * jsval)) : instance :=
  Instance "optimizeChart"
    (Config bar (map JStr (map fst w)) "权重" (map snd w)) false.

(** A back-test answer: the portfolio value as (date, value) samples. *)
Definition sample_point (point : string * spec_float) : jsval :=
  JObj [("date", JStr (fst point)); ("value", JNum (snd point))].

Definition backtest_data (points : list (string * spec_float)) : jsval :=
  JObj [("portfolio_value", JArr (map sample_point points))].

(** Every seventh of [points], from the first. *)
Definition every_seventh {A} (points : list A) : list A :=
  omap (fun k => points !! (7 * k)) (seq 0 ((length points + 6) / 7)).

(** The line chart drawn from the samples [points]. *)
Definition line_chart (points : list (string * spec_float)) : instance :=
  Instance "backtestChart"
    (Config line (map (fun pt => JStr (fst pt)) (every_seventh points))
       "组合净值 (抽样)"
       (map (fun pt => JNum (snd pt)) (every_seventh points)))
    false.

(** The two lines [renderBacktestChart] logs for [n] points. *)
Definition sampling_log (n : nat) : list console_entry :=
  [Log [JStr "Original data length:"; JNum (Number_of_Z (Z.of_nat n))];
   Log [JStr "Sampled data length:";
        JNum (Number_of_Z (Z.of_nat ((n + 6) / 7)))]].

(** The Number that the decimal [n / 10] denotes: the binary64 nearest to
    it, which the correctly rounded quotient of [n] by ten is. *)
Definition Number_of_tenths (n : Z) : spec_float :=
  SFdiv 53 1024 (Number_of_Z n) (Number_of_Z 10).

(** An optimisation answer with weight 0.6 for fund A and 0.4 for fund B. *)
Definition weights_A_B : jsval :=
  JObj [("weights", JObj [("A", JNum (Number_of_tenths 6));
                          ("B", JNum (Number_of_tenths 4))])].

(** The answers on which a handler cannot get a parsed body: the request
    failed, or the body is not JSON. *)
Definition transport_failure (net : fetch_outcome) : bool :=
  match net with
  | NetworkFailure | Responded _ None => true
  | Responded _ (Some _) => false
  end.

(** The exception such an answer raises in the handler. *)
Definition raised_by (net : fetch_outcome) : js_error :=
  match net with
  | NetworkFailure => NetworkError
  | Responded _ _ => SyntaxError
  end.

(** The request and the answer of a form submission. *)
Definition submission `{Host} (e : App.event)
  : option (request * fetch_outcome) :=
  match e with
  | App.SubmitFundForm fundType net =>
      Some (App.fundForm_request fundType, net)
  | App.SubmitFundInfoForm fundCode net =>
      Some (App.fundInfoForm_request fundCode, net)
  | App.SubmitOptimizeForm fundPool method riskAversion net =>
      Some (App.optimizeForm_request fundPool method riskAversion, net)
  | App.SubmitBacktestForm fundPool startDate endDate net =>
      Some (App.backtestForm_request fundPool startDate endDate, net)
  | App.ClickToggleFundList | App.ClickToggleFundInfo => None
  end.

(** What the page shows and what its controls do: everything but the
    console, the request log and the loading indicator. *)
Definition rendered (p : App.page) :=
  (App.fundList p, App.toggleFundList p, App.fundInfoContent p,
   App.toggleFundInfo p, App.optimizeResultContent p,
   App.backtestResultContent p, App.charts p, App.optimizeChartInstance p).

(** The same answer under another status. *)
Definition with_status (status : Z) (net : fetch_outcome) : fetch_outcome :=
  match net with
  | NetworkFailure => NetworkFailure
  | Responded _ body => Responded status body
  end.

Definition with_answer (f : fetch_outcome -> fetch_outcome) (e : App.event)
  : App.event :=
  match e with
  | App.SubmitFundForm fundType net => App.SubmitFundForm fundType (f net)
  | App.SubmitFundInfoForm fundCode net =>
      App.SubmitFundInfoForm fundCode (f net)
  | App.SubmitOptimizeForm fundPool method riskAversion net =>
      App.SubmitOptimizeForm fundPool method riskAversion (f net)
  | App.SubmitBacktestForm fundPool startDate endDate net =>
      App.SubmitBacktestForm fundPool startDate endDate (f net)
  | App.ClickToggleFundList => App.ClickToggleFundList
  | App.ClickToggleFundInfo => App.ClickToggleFundInfo
  end.

(** The loading indicator after a submission. *)
Definition loading_after (e : App.event) (p : App.page) : string :=
  match e with
  | App.SubmitBacktestForm _ _ _ _ => "none"
  | _ => App.backtestLoading p
  end.

(** A host to run the model on concrete pages: it prints a Number that is
    an integer below 2^53 in decimal, stands for any other by [NaN], reads
    every text as NaN, and has the constructor stack charts. *)
Definition print_integral (x : spec_float) : string :=
  match x with
  | S754_zero _ => "0"
  | S754_finite s m e =>
      let sign := if s then "-" else "" in
      if (0 <=? e)%Z then
        if (Zpos m * 2 ^ e <? 2 ^ 53)%Z
        then sign +:+ pretty (Zpos m * 2 ^ e)%Z else "NaN"
      else if (Zpos m mod 2 ^ (- e) =? 0)%Z
        then sign +:+ pretty (Zpos m / 2 ^ (- e))%Z else "NaN"
  | _ => "NaN"
  end.

Definition sample_host : Host :=
  {| Number_toString := print_integral;
     parseFloat := fun _ => S754_nan;
     StringToNumber := fun _ => S754_nan;
     Chart_guards_canvas := false |}.

(** What [renderOptimizeChart] does once the existing instance is gone. *)
Definition draw_bars `{Host} (data : jsval) : M App.page unit :=
  bind (lift (get_prop data "weights")) (fun weights =>
  bind (lift (Object_keys weights)) (fun keys =>
  bind (lift (Object_values weights)) (fun values =>
  bind (App.new_Chart "optimizeChart"
          (Config bar (map JStr keys) "权重" values)) (fun created =>
  modify (App.with_optimizeChartInstance (Some created)))))).

(** Sample data for concrete runs: a freshly loaded page with an empty list
    and empty texts, two long fund lists, a fund, a series of fifteen
    values, and the answer of a server that does not know the path. *)
Definition blank : App.page := App.loaded [] "" "" "".

Definition eleven : list string :=
  ["000001"; "000002"; "000003"; "000004"; "000005"; "000006";
   "000007"; "000008"; "000009"; "000010"; "000011"].

Definition twelve : list string :=
  ["110001"; "110002"; "110003"; "110004"; "110005"; "110006";
   "110007"; "110008"; "110009"; "110010"; "110011"; "110012"].

Definition a_fund : list (string * jsval) :=
  [("fund_code", JStr "000001"); ("fund_name", JStr "Alpha");
   ("fund_type", JStr "stock"); ("manager", JStr "Li");
   ("fee", JNum (Number_of_Z 2))].

Definition fifteen : list jsval :=
  map (fun k : nat => JStr (pretty k)) (seq 0 15).

Definition not_found : fetch_outcome :=
  Responded 404 (Some (JObj [("detail", JStr "Not Found")])).

(** [Q] holds of the state in which a run ends, normally or with an
    exception. *)
Definition ends {S A} (r : outcome S A) (Q : S -> Prop) : Prop :=
  match r with
  | Ok _ s | Thrown _ s => Q s
  end.

(** A piece of script that leaves the observation [f] of the state as it
    was, however it ends. *)
Definition keeps {S A X} (f : S -> X) (m : M S A) : Prop :=
  forall s, ends (m s) (fun s' => f s' = f s).

(** A piece of script that maintains [I], however it ends. *)
Definition maintains {S A} (I : S -> Prop) (m : M S A) : Prop :=
  forall s, I s -> ends (m s) I.

(** No exception leaves the run. *)
Definition caught {S A} (r : outcome S A) : Prop :=
  match r with
  | Thrown _ _ => False
  | _ => True
  end.

End Obs.

(** ** Further observations *)

Module More.
Import JS Eff Chart Net Obs.

(** A host whose Chart constructor refuses a canvas in use, as Chart.js
    does from version 3; otherwise as [sample_host]. *)
Definition guarding_host : Host :=
  {| Number_toString := print_integral;
     parseFloat := fun _ => S754_nan;
     StringToNumber := fun _ => S754_nan;
     Chart_guards_canvas := true |}.

(** The number of commas of a text, and whether it has none. *)
Fixpoint count_commas (s : string) : nat :=
  match s with
  | EmptyString => 0
  | String c rest =>
      (if Ascii.eqb c "," then 1 else 0) + count_commas rest
  end.

Definition comma_free (s : string) : Prop := count_commas s = 0.

(** The markup [displayResults] starts the table with, and the row it adds
    for a fund code with a Number for weight. *)
Definition table_header : string :=
  "<h3>优化结果</h3>"
  +:+ "<table class=" +:+ dquote +:+ "table" +:+ dquote +:+ ">"
  +:+ "<tr><th>基金代码</th><th>权重</th></tr>".

Definition table_row `{Host} (entry : string * spec_float) : string :=
  "<tr><td>" +:+ fst entry +:+ "</td><td>"
  +:+ toFixed2 (Number_mul (snd entry) Main.hundred) +:+ "%</td></tr>".

Fixpoint concat_all (parts : list string) : string :=
  match parts with
  | [] => EmptyString
  | part :: rest => part +:+ concat_all rest
  end.

(** Whether a property holds a value, that is, is not undefined. *)
Definition present (entry : string * jsval) : bool :=
  match snd entry with JUndefined => false | _ => true end.

(** The members of an object in its JSON text, those of undefined value
    left out, and the text around them (SerializeJSONObject). *)
Fixpoint object_members `{Host} (inner : string)
  (props : list (string * jsval)) : list string :=
  match props with
  | [] => []
  | (k, x) :: rest =>
      match serialize inner x with
      | Some t => (quote k +:+ ": " +:+ t) :: object_members inner rest
      | None => object_members inner rest
      end
  end.

Definition braces (indent : string) (parts : list string) : string :=
  match parts with
  | [] => "{" +:+ "}"
  | _ => "{" +:+ newline +:+ (indent +:+ "  ")
         +:+ join ("," +:+ newline +:+ indent +:+ "  ") parts
         +:+ newline +:+ indent +:+ "}"
  end.

(** A weights object whose weights are Numbers. *)
Definition numeric_weights (entries : list (string * spec_float)) : jsval :=
  JObj (map (fun entry => (fst entry, JNum (snd entry))) entries).

(** Neither an object with that property set, nor anything to read it
    from: [v.k] is undefined or null, or reading it throws. *)
Definition lacks (k : string) (v : jsval) : Prop :=
  match v with
  | JUndefined | JNull => True
  | JObj props =>
      lookup_prop k props = JUndefined \/ lookup_prop k props = JNull
  | _ => False
  end.

(** The page with the parts blanked that the handler of [e] writes: what
    is left is what the handler must leave alone. *)
Definition outside (e : App.event) (p : App.page) : App.page :=
  match e with
  | App.SubmitFundForm _ _ =>
      App.Page [] (App.Button "" "" []) (App.fundInfoContent p)
        (App.toggleFundInfo p) (App.optimizeResultContent p)
        (App.backtestResultContent p) (App.backtestLoading p)
        (App.charts p) (App.optimizeChartInstance p) [] []
  | App.SubmitFundInfoForm _ _ =>
      App.Page (App.fundList p) (App.toggleFundList p) ""
        (App.Button "" "" []) (App.optimizeResultContent p)
        (App.backtestResultContent p) (App.backtestLoading p)
        (App.charts p) (App.optimizeChartInstance p) [] []
  | App.SubmitOptimizeForm _ _ _ _ =>
      App.Page (App.fundList p) (App.toggleFundList p)
        (App.fundInfoContent p) (App.toggleFundInfo p) ""
        (App.backtestResultContent p) (App.backtestLoading p)
        [] None [] []
  | App.SubmitBacktestForm _ _ _ _ =>
      App.Page (App.fundList p) (App.toggleFundList p)
        (App.fundInfoContent p) (App.toggleFundInfo p)
        (App.optimizeResultContent p) "" ""
        [] (App.optimizeChartInstance p) [] []
  | App.ClickToggleFundList =>
      App.Page []
        (App.Button (App.display (App.toggleFundList p)) ""
           (App.listeners (App.toggleFundList p)))
        (App.fundInfoContent p) (App.toggleFundInfo p)
        (App.optimizeResultContent p) (App.backtestResultContent p)
        (App.backtestLoading p) (App.charts p) (App.optimizeChartInstance p)
        (App.console p) (App.network p)
  | App.ClickToggleFundInfo =>
      App.Page (App.fundList p) (App.toggleFundList p) ""
        (App.Button (App.display (App.toggleFundInfo p)) ""
           (App.listeners (App.toggleFundInfo p)))
        (App.optimizeResultContent p) (App.backtestResultContent p)
        (App.backtestLoading p) (App.charts p) (App.optimizeChartInstance p)
        (App.console p) (App.network p)
  end.

(** Further sample data: the properties of an error body, of a fund-list
    answer, of an optimisation answer and of a back-test answer. *)
Definition error_body : list (string * jsval) :=
  [("detail", JStr "Not Found")].

Definition funds_body : list (string * jsval) := [("data", fund_ids eleven)].

Definition weights_body : list (string * jsval) :=
  [("weights", numeric_weights [("A", Number_of_tenths 6)])].

(** An optimisation answer with weights, one without, and the submissions
    that get them. *)
Definition weights_answer : fetch_outcome :=
  Responded 200 (Some (JObj [("data", JObj weights_body)])).

Definition infeasible_body : list (string * jsval) :=
  [("data", JObj [("error", JStr "infeasible")])].

Definition optimize_ok : App.event :=
  App.SubmitOptimizeForm "000001" "mean_variance" "1" weights_answer.

(** The page after a sequence of events. *)
Definition after `{Host} (events : list App.event) (p : App.page)
  : App.page :=
  fold_left (fun q e => final (App.handle e q)) events p.

Definition one_sample : list (string * spec_float) :=
  [("2024-01-01", Number_of_Z 1)].

Definition backtest_body : list (string * jsval) :=
  [("data", backtest_data one_sample)].

Definition backtest_ok : App.event :=
  App.SubmitBacktestForm "000001" "2024-01-01" "2024-12-31"
    (Responded 200 (Some (JObj backtest_body))).

(** A piece of script whose end state is related by [R] to the state it
    started in, however it ends. *)
Definition relates {S A} (R : S -> S -> Prop) (m : M S A) : Prop :=
  forall s, ends (m s) (R s).

(** The listeners of both toggles in [p'] are those of [p], in the same
    order, with further ones after them. *)
Definition listeners_kept (p p' : App.page) : Prop :=
  (exists more,
     App.listeners (App.toggleFundList p')
     = App.listeners (App.toggleFundList p) ++ more)
  /\ (exists more,
        App.listeners (App.toggleFundInfo p')
        = App.listeners (App.toggleFundInfo p) ++ more).

(** The listeners of both toggles. *)
Definition all_listeners (p : App.page) :=
  (App.listeners (App.toggleFundList p), App.listeners (App.toggleFundInfo p)).

(** A piece of script that, started where [I] holds, ends where [I] holds
    again, in a state related by [R] to the one it started in. *)
Definition advances {S A} (I : S -> Prop) (R : S -> S -> Prop) (m : M S A)
  : Prop :=
  forall s, I s -> ends (m s) (fun s' => I s' /\ R s s').

(** The script's chart variable, when set, refers to an instance on the
    optimisation canvas. *)
Definition refers_to_bar_chart (p : App.page) : Prop :=
  forall id, App.optimizeChartInstance p = Some id ->
    exists c, App.charts p !! id = Some c /\ canvas c = "optimizeChart".

(** The live charts of the back-test canvas in [p'] are those of [p],
    followed by further ones. *)
Definition backtest_charts_kept (p p' : App.page) : Prop :=
  exists more,
    live "backtestChart" (App.charts p')
    = live "backtestChart" (App.charts p) ++ more.

(** The requests an event sends. *)
Definition sent_by `{Host} (e : App.event) : list request :=
  match submission e with
  | Some (req, _) => [req]
  | None => []
  end.

End More.

(** * Properties *)

(** ** Splitting the fund pool *)

Section Split.
Import JS Eff Net Obs.

Lemma split_from_not_nil (cur s : string) : split_from cur s <> [].
Proof.
  revert cur. induction s as [|c rest IH]; intros cur; simpl.
  - discriminate.
  - destruct (Ascii.eqb c ","); [discriminate | apply IH].
Qed.

Lemma append_cons (c : ascii) (a b : string) :
  String c a +:+ b = String c (a +:+ b).
Proof. reflexivity. Qed.

Lemma append_empty_r (s : string) : s +:+ "" = s.
Proof.
  induction s as [|x s IH]; [reflexivity |].
  rewrite append_cons, IH. reflexivity.
Qed.

Lemma append_assoc (a b c : string) : (a +:+ b) +:+ c = a +:+ (b +:+ c).
Proof.
  induction a as [|x a IH]; [reflexivity |].
  rewrite !append_cons, IH. reflexivity.
Qed.

Lemma join_cons (sep p : string) (rest : list string) :
  rest <> [] -> join sep (p :: rest) = p +:+ sep +:+ join sep rest.
Proof. destruct rest; [congruence | reflexivity]. Qed.

(** Joining the pieces with commas gives the text back: nothing but the
    commas is dropped. *)
Lemma join_split_from (cur s : string) :
  join "," (split_from cur s) = cur +:+ s.
Proof.
  revert cur. induction s as [|c rest IH]; intros cur; simpl.
  - symmetry. apply append_empty_r.
  - destruct (Ascii.eqb_spec c ",") as [->|_].
    + rewrite join_cons by apply split_from_not_nil.
      rewrite IH. reflexivity.
    + rewrite IH, append_assoc. reflexivity.
Qed.

End Split.

(** ** Down-sampling *)

Section Sampling.
Import JS Obs.

Lemma rounds_done (len i : nat) : len <= i -> rounds len i = 0.
Proof.
  intros Hle. unfold rounds. replace (len - i) with 0 by lia. reflexivity.
Qed.

Lemma rounds_more (len i : nat) :
  i < len -> rounds len i = S (rounds len (i + 7)).
Proof.
  intros Hlt. unfold rounds.
  destruct (le_lt_dec 7 (len - i)) as [Hfar|Hnear].
  - replace (len - i + 6) with ((len - (i + 7) + 6) + 1 * 7) by lia.
    rewrite Nat.div_add by lia. lia.
  - replace (len - (i + 7)) with 0 by lia.
    symmetry. apply Nat.div_unique with (r := len - i - 1); simpl; lia.
Qed.

Lemma sample_loop_spec (original : list jsval) (i : nat)
  (sampled : list jsval) :
  App.sample_loop original i sampled
  = sampled ++ map (fun k => picked original (i + 7 * k))
                   (seq 0 (rounds (length original) i)).
Proof.
  funelim (App.sample_loop original i sampled).
  - match goal with
    | IH : App.sample_loop _ _ _ = _ ++ _ |- _ => rewrite IH
    end.
    rewrite (rounds_more (length original) i) by assumption.
    rewrite <- app_assoc. f_equal. cbn [seq map app].
    f_equal; [unfold picked; f_equal; f_equal; lia |].
    rewrite <- seq_shift, map_map. apply map_ext.
    intros k. unfold App.sampleInterval. f_equal. lia.
  - rewrite rounds_done by lia. simpl. rewrite app_nil_r. reflexivity.
Qed.
End Sampling.

(** ** Frame rules for the effect monad *)

Section Frames.
Import JS Eff Obs.
Context {S X : Type} (f : S -> X).
Local Open Scope js_scope.

Lemma keeps_ret {A} (a : A) : keeps f (ret a).
Proof. intros s. reflexivity. Qed.

Lemma keeps_throw {A} (e : js_error) : keeps f (throw (A := A) e).
Proof. intros s. reflexivity. Qed.

Lemma keeps_lift {A} (r : result A) : keeps f (lift r).
Proof. intros s. destruct r; reflexivity. Qed.

Lemma keeps_gets {A} (g : S -> A) : keeps f (gets g).
Proof. intros s. reflexivity. Qed.

Lemma keeps_modify (g : S -> S) :
  (forall s, f (g s) = f s) -> keeps f (modify g).
Proof. intros Hg s. apply Hg. Qed.

Lemma keeps_bind {A B} (m : M S A) (k : A -> M S B) :
  keeps f m -> (forall a, keeps f (k a)) -> keeps f (bind m k).
Proof.
  intros Hm Hk s. specialize (Hm s). unfold bind.
  destruct (m s) as [a s'|e s']; simpl in *; [|assumption].
  specialize (Hk a s'). destruct (k a s'); simpl in *; congruence.
Qed.

Lemma keeps_try_catch {A} (body : M S A) (handler : js_error -> M S A) :
  keeps f body -> (forall e, keeps f (handler e)) ->
  keeps f (try_catch body handler).
Proof.
  intros Hb Hh s. specialize (Hb s). unfold try_catch.
  destruct (body s) as [a s'|e s']; simpl in *; [assumption|].
  specialize (Hh e s'). destruct (handler e s'); simpl in *; congruence.
Qed.

Lemma keeps_try_finally {A} (body : M S A) (cleanup : M S unit) :
  keeps f body -> keeps f cleanup -> keeps f (try_finally body cleanup).
Proof.
  intros Hb Hc s. specialize (Hb s). unfold try_finally.
  destruct (body s) as [a s'|e s']; simpl in *;
    specialize (Hc s'); destruct (cleanup s'); simpl in *; congruence.
Qed.

Lemma keeps_for_each {A} (g : A -> M S unit) (items : list A) :
  (forall a, keeps f (g a)) -> keeps f (for_each g items).
Proof.
  intros Hg. induction items as [|x rest IH]; simpl.
  - apply keeps_ret.
  - apply keeps_bind; [apply Hg | intros _; exact IH].
Qed.

Lemma keeps_map_m {A B} (g : A -> M S B) (items : list A) :
  (forall a, keeps f (g a)) -> keeps f (map_m g items).
Proof.
  intros Hg. induction items as [|x rest IH]; simpl.
  - apply keeps_ret.
  - apply keeps_bind; [apply Hg | intros y].
    apply keeps_bind; [exact IH | intros ys; apply keeps_ret].
Qed.

(** What depends on [f] alone is maintained by what keeps [f]. *)
Lemma keeps_maintains {A} (I : S -> Prop) (m : M S A) :
  (forall s s', f s' = f s -> I s -> I s') -> keeps f m -> maintains I m.
Proof.
  intros HI Hm s Hs. specialize (Hm s).
  destruct (m s); simpl in *; eauto.
Qed.
End Frames.

Section Maintenance.
Import JS Eff Obs.
Context {S : Type} (I : S -> Prop).

Lemma maintains_bind {A B} (m : M S A) (k : A -> M S B) :
  maintains I m -> (forall a, maintains I (k a)) -> maintains I (bind m k).
Proof.
  intros Hm Hk s Hs. specialize (Hm s Hs). unfold bind.
  destruct (m s) as [a s'|e s']; simpl in *; [|assumption].
  exact (Hk a s' Hm).
Qed.

Lemma maintains_try_catch {A} (body : M S A) (handler : js_error -> M S A) :
  maintains I body -> (forall e, maintains I (handler e)) ->
  maintains I (try_catch body handler).
Proof.
  intros Hb Hh s Hs. specialize (Hb s Hs). unfold try_catch.
  destruct (body s) as [a s'|e s']; simpl in *;
    [assumption|].
  exact (Hh e s' Hb).
Qed.

Lemma maintains_try_finally {A} (body : M S A) (cleanup : M S unit) :
  maintains I body -> maintains I cleanup ->
  maintains I (try_finally body cleanup).
Proof.
  intros Hb Hc s Hs. specialize (Hb s Hs). unfold try_finally.
  destruct (body s) as [a s'|e s']; simpl in *;
    specialize (Hc s' Hb); destruct (cleanup s'); simpl in *; auto.
Qed.

(** A try/catch whose handler does not throw lets no exception out. *)
Lemma try_catch_caught {A} (body : M S A) (handler : js_error -> M S A) :
  (forall e s, caught (handler e s)) ->
  forall s, caught (try_catch body handler s).
Proof.
  intros Hh s. unfold try_catch.
  destruct (body s) as [a s'|e s']; simpl; [exact Logic.I | apply Hh].
Qed.
End Maintenance.

(** ** What each part of part_000 leaves alone *)

Ltac frame_extra := fail.

Ltac frame_step :=
  first
    [ frame_extra
    | apply keeps_ret | apply keeps_throw | apply keeps_lift
    | apply keeps_gets
    | apply keeps_modify; intros []; reflexivity
    | apply keeps_bind; [| intros ?]
    | apply keeps_try_catch; [| intros ?]
    | apply keeps_try_finally
    | apply keeps_for_each; intros ?
    | apply keeps_map_m; intros ?
    | match goal with
      | |- Obs.keeps _ (match ?x with _ => _ end) => destruct x
      end ].

Ltac frame := repeat frame_step.

Section AppFrames.
Import JS Eff Chart Net Obs App.
Context `{Host}.

Lemma keeps_new_Chart {X} (f : page -> X) c k :
  (forall r p, f (with_charts r p) = f p) -> keeps f (new_Chart c k).
Proof.
  intros Hf p. unfold new_Chart.
  destruct (construct c k (charts p)) as [[id r]|e]; simpl; auto.
Qed.

Ltac frame_extra ::= apply keeps_new_Chart; intros ? []; reflexivity.

Lemma keeps_network_displayFunds v : keeps network (displayFunds v).
Proof. unfold displayFunds, append_item. frame. Qed.

Lemma keeps_network_displayFundInfo v : keeps network (displayFundInfo v).
Proof. unfold displayFundInfo, summary_of. frame. Qed.

Lemma keeps_network_renderOptimizeChart v :
  keeps network (renderOptimizeChart v).
Proof.
  unfold renderOptimizeChart. frame.
Qed.

Lemma keeps_network_renderBacktestChart v :
  keeps network (renderBacktestChart v).
Proof.
  unfold renderBacktestChart, console_log. frame.
Qed.

Lemma keeps_charts_fundForm fundType net :
  keeps chart_state (fundForm_submit fundType net).
Proof.
  unfold fundForm_submit, console_log, console_error, fetch, response_json,
    displayFunds, append_item.
  frame.
Qed.

Lemma keeps_charts_fundInfoForm fundCode net :
  keeps chart_state (fundInfoForm_submit fundCode net).
Proof.
  unfold fundInfoForm_submit, console_error, fetch, response_json,
    displayFundInfo, summary_of.
  frame.
Qed.

Lemma keeps_charts_click_list : keeps chart_state click_toggleFundList.
Proof.
  unfold click_toggleFundList, toggleFundList_onclick, append_item. frame.
Qed.

Lemma keeps_charts_user_click_list :
  keeps chart_state user_click_toggleFundList.
Proof.
  unfold user_click_toggleFundList. frame.
Qed.

Lemma keeps_charts_click_info : keeps chart_state click_toggleFundInfo.
Proof. unfold click_toggleFundInfo, toggleFundInfo_onclick. frame. Qed.
End AppFrames.

Ltac frame_extra ::= apply keeps_new_Chart; intros ? []; reflexivity.

(** ** The requests go out with a fund pool of one element at least *)

Section Requests.
Import JS Eff Chart Net Obs.
Context `{Host}.

Lemma app_fetch_first (req : request) (rest : M App.page unit) net p :
  keeps App.network rest ->
  ends (try_catch (bind (App.fetch req net) (fun _ => rest))
          App.console_error p)
    (fun p' => App.network p' = App.network p ++ [req]).
Proof.
  intros Hrest. unfold try_catch, bind, App.fetch, modify.
  destruct net as [|status body]; simpl.
  - destruct p; reflexivity.
  - specialize (Hrest (App.with_network (fun n => n ++ [req]) p)).
    destruct (rest _) as [[] q|e q]; simpl in *.
    + rewrite Hrest. destruct p; reflexivity.
    + destruct q, p; simpl in *. assumption.
Qed.

Lemma app_optimize_sends fundPool method riskAversion net p :
  ends (App.optimizeForm_submit fundPool method riskAversion net p)
    (fun p' => App.network p'
               = App.network p
                 ++ [App.optimizeForm_request fundPool method riskAversion]).
Proof.
  apply app_fetch_first. unfold response_json. frame.
Qed.

Lemma app_backtest_sends fundPool startDate endDate net p :
  ends (App.backtestForm_submit fundPool startDate endDate net p)
    (fun p' => App.network p'
               = App.network p
                 ++ [App.backtestForm_request fundPool startDate endDate]).
Proof.
  unfold App.backtestForm_submit.
  set (req := App.backtestForm_request fundPool startDate endDate).
  unfold bind at 1, modify at 1, try_finally.
  set (p1 := App.with_backtestLoading "block" p).
  match goal with
  | |- context [try_catch ?b ?h p1] =>
      pose proof (app_fetch_first req
        (bind (response_json net) (fun result =>
           bind (lift (get_prop result "data")) (fun data =>
             bind (modify (App.with_backtestResultContent
                             (text_of (JSON_stringify data))))
               (fun _ => App.renderBacktestChart data))))
        net p1) as Hsent;
      change (try_catch b h p1) with
        (try_catch
           (bind (App.fetch req net) (fun _ =>
              bind (response_json net) (fun result =>
                bind (lift (get_prop result "data")) (fun data =>
                  bind (modify (App.with_backtestResultContent
                                  (text_of (JSON_stringify data))))
                    (fun _ => App.renderBacktestChart data)))))
           App.console_error p1) in *
  end.
  match type of Hsent with
  | ?P -> _ =>
      assert (Hk : P)
        by (unfold response_json; frame)
  end.
  specialize (Hsent Hk).
  destruct (try_catch _ _ p1) as [[] q|e q]; simpl in *;
    destruct q, p; simpl in *; assumption.
Qed.

Lemma main_fetch_first (req : request) (rest : M Main.page unit) net p :
  keeps Main.network rest ->
  ends (try_catch (bind (Main.fetch req net) (fun _ => rest))
          Main.console_error p)
    (fun p' => Main.network p' = Main.network p ++ [req]).
Proof.
  intros Hrest. unfold try_catch, bind, Main.fetch, modify.
  destruct net as [|status body]; simpl; [reflexivity |].
  specialize (Hrest
    (Main.Page (Main.results p) (Main.console p) (Main.network p ++ [req]))).
  destruct (rest _) as [[] q|e q]; simpl in *; assumption.
Qed.

Lemma keeps_network_rows_loop entries :
  forall html, keeps Main.network (Main.rows_loop html entries).
Proof.
  induction entries as [|[code weight] rest IH]; intros html; simpl.
  - apply keeps_ret.
  - apply keeps_bind; [apply keeps_lift | intros w; apply IH].
Qed.

Lemma main_optimize_sends fundCodes startDate endDate net p :
  ends (Main.optimizeForm_submit fundCodes startDate endDate net p)
    (fun p' => Main.network p'
               = Main.network p
                 ++ [Main.optimizeForm_request fundCodes startDate endDate]).
Proof.
  apply main_fetch_first. unfold response_json, Main.displayResults.
  apply keeps_bind; [destruct net as [|? []]; frame | intros result].
  apply keeps_bind; [apply keeps_lift | intros weights].
  apply keeps_bind; [apply keeps_lift | intros entries].
  apply keeps_bind; [apply keeps_network_rows_loop | intros html].
  apply keeps_modify. reflexivity.
Qed.

(** C10.  [s.split(',')] is never the empty list (and joining its pieces
    with commas gives [s] back); on the empty string it is the one-element
    list holding the empty string.  Every optimisation and back-test
    request carries that list as its fund pool, so an empty input field
    sends the single empty fund code; and the request is issued whatever
    the answer turns out to be. *)
Theorem fund_pool_never_empty :
  (forall s, split_comma s <> [] /\ 1 <= length (split_comma s)
             /\ join "," (split_comma s) = s)
  /\ split_comma "" = [""]
  /\ (forall fundCodes startDate endDate net p,
        let req := Main.optimizeForm_request fundCodes startDate endDate in
        pool_of req = map JStr (split_comma fundCodes)
        /\ pool_of (Main.optimizeForm_request "" startDate endDate)
           = [JStr ""]
        /\ ends (Main.optimizeForm_submit fundCodes startDate endDate net p)
             (fun p' => Main.network p' = Main.network p ++ [req]))
  /\ (forall fundPool method riskAversion net p,
        let req := App.optimizeForm_request fundPool method riskAversion in
        pool_of req = map JStr (split_comma fundPool)
        /\ pool_of (App.optimizeForm_request "" method riskAversion)
           = [JStr ""]
        /\ ends (App.optimizeForm_submit fundPool method riskAversion net p)
             (fun p' => App.network p' = App.network p ++ [req]))
  /\ (forall fundPool startDate endDate net p,
        let req := App.backtestForm_request fundPool startDate endDate in
        pool_of req = map JStr (split_comma fundPool)
        /\ pool_of (App.backtestForm_request "" startDate endDate)
           = [JStr ""]
        /\ ends (App.backtestForm_submit fundPool startDate endDate net p)
             (fun p' => App.network p' = App.network p ++ [req])).
Proof.
  split; [|split; [reflexivity|]].
  - intros s. unfold split_comma. split; [apply split_from_not_nil|].
    split; [|apply join_split_from].
    pose proof (split_from_not_nil "" s) as Hne.
    destruct (split_from "" s); [congruence | simpl; lia].
  - repeat split; try reflexivity.
    + apply main_optimize_sends.
    + apply app_optimize_sends.
    + apply app_backtest_sends.
Qed.
End Requests.

(** ** Down-sampling: every seventh point *)

Section SamplingClaim.
Import JS Obs.

Lemma rounds_ceil (len : nat) :
  rounds len 0 = (len + 6) / 7
  /\ len <= 7 * rounds len 0 /\ 7 * rounds len 0 < len + 7.
Proof.
  unfold rounds. rewrite Nat.sub_0_r. split; [reflexivity|].
  pose proof (Nat.div_mod_eq (len + 6) 7) as Hdiv.
  pose proof (Nat.mod_upper_bound (len + 6) 7) as Hmod.
  lia.
Qed.

(** C3.  For an input of length [L] the sampling loop of
    [renderBacktestChart] returns the elements at indices 0, 7, 14, ... in
    order, and as many of them as the ceiling of [L / 7]: the least [c]
    with [L <= 7 c]. *)
Theorem downsample_every_seventh (original : list jsval) :
  let sampled := App.sample_loop original 0 [] in
  let L := length original in
  sampled = map (fun k => picked original (7 * k)) (seq 0 ((L + 6) / 7))
  /\ length sampled = (L + 6) / 7
  /\ L <= 7 * length sampled < L + 7
  /\ forall k, k < length sampled ->
       7 * k < L /\ sampled !! k = original !! (7 * k).
Proof.
  intros sampled L.
  destruct (rounds_ceil L) as (Hceil & Hlo & Hhi).
  assert (Hs : sampled
               = map (fun k => picked original (7 * k))
                     (seq 0 ((L + 6) / 7))).
  { unfold sampled. rewrite sample_loop_spec. simpl.
    fold L. rewrite Hceil. reflexivity. }
  assert (Hlen : length sampled = (L + 6) / 7)
    by (rewrite Hs, length_map, length_seq; reflexivity).
  split; [exact Hs|]. split; [exact Hlen|].
  rewrite Hlen, <- Hceil. split; [lia|].
  intros k Hk.
  assert (Hin : 7 * k < L) by lia.
  split; [exact Hin|].
  destruct (lookup_lt_is_Some_2 original (7 * k) Hin) as [x Hx].
  rewrite Hs, list_lookup_fmap, lookup_seq_lt by lia.
  cbv [fmap option_fmap option_map]. change (0 + k) with k.
  unfold picked. rewrite Hx. reflexivity.
Qed.
End SamplingClaim.

(** ** The fund list and its toggle *)

Section FundList.
Import JS Eff Chart Net Obs App.
Context `{Host}.

Lemma texts_until_error_ids (ids : list string) :
  texts_until_error (map JStr ids) = (ids, None).
Proof.
  induction ids as [|id rest IH]; [reflexivity|].
  cbn [map texts_until_error textContent_of ToString]. rewrite IH.
  reflexivity.
Qed.

Lemma texts_ids (ids : list string) : texts_of (map JStr ids) = ids.
Proof. unfold texts_of. rewrite texts_until_error_ids. reflexivity. Qed.

Lemma failure_ids (ids : list string) : failure_of (map JStr ids) = None.
Proof. unfold failure_of. rewrite texts_until_error_ids. reflexivity. Qed.

(** A list whose items all have a text keeps that under [take] and
    [drop]. *)
Lemma failure_take (n : nat) (items : list jsval) :
  failure_of items = None -> failure_of (take n items) = None.
Proof.
  unfold failure_of. revert n.
  induction items as [|x rest IH]; intros n Hall.
  - rewrite take_nil. reflexivity.
  - destruct n as [|n]; [reflexivity|].
    cbn [take texts_until_error] in *.
    destruct (textContent_of x) as [t|e]; [|discriminate Hall].
    specialize (IH n).
    destruct (texts_until_error rest) as [ts failure].
    destruct (texts_until_error (take n rest)) as [ts' failure'].
    simpl in *. auto.
Qed.

Lemma failure_drop (n : nat) (items : list jsval) :
  failure_of items = None -> failure_of (drop n items) = None.
Proof.
  unfold failure_of. revert n.
  induction items as [|x rest IH]; intros n Hall.
  - rewrite drop_nil. reflexivity.
  - destruct n as [|n]; [exact Hall|].
    cbn [drop texts_until_error] in *.
    destruct (textContent_of x) as [t|e]; [|discriminate Hall].
    apply IH.
    destruct (texts_until_error rest) as [ts failure]. exact Hall.
Qed.

Lemma length_texts_of (items : list jsval) :
  failure_of items = None -> length (texts_of items) = length items.
Proof.
  unfold failure_of, texts_of.
  induction items as [|x rest IH]; intros Hall; [reflexivity|].
  cbn [texts_until_error] in *.
  destruct (textContent_of x) as [t|e]; [|discriminate Hall].
  destruct (texts_until_error rest) as [ts failure].
  simpl in *. rewrite IH by exact Hall. reflexivity.
Qed.

(** The items are appended up to the first that has no text; that one's
    exception ends the loop. *)
Lemma for_each_append_item (items : list jsval) (p : page) :
  for_each append_item items p
  = match failure_of items with
    | None => Ok tt (with_fundList (fun l => l ++ texts_of items) p)
    | Some e => Thrown e (with_fundList (fun l => l ++ texts_of items) p)
    end.
Proof.
  unfold failure_of, texts_of.
  revert p. induction items as [|x rest IH]; intros p.
  - destruct p; unfold with_fundList; simpl.
    rewrite app_nil_r. reflexivity.
  - cbn [for_each texts_until_error].
    unfold bind at 1, append_item, bind, lift, modify.
    destruct (textContent_of x) as [t|e].
    + rewrite IH. destruct (texts_until_error rest) as [ts [e|]];
        destruct p; unfold with_fundList; simpl;
        rewrite <- app_assoc; reflexivity.
    + destruct p; unfold with_fundList; simpl.
      rewrite app_nil_r. reflexivity.
Qed.

Lemma remove_beyond_take (items : list string) (index : nat) :
  remove_beyond index items = take (MAX_FUNDS_TO_SHOW - index) items.
Proof.
  revert index. induction items as [|item rest IH]; intros index.
  - simpl. rewrite take_nil. reflexivity.
  - cbn [remove_beyond]. rewrite IH.
    destruct (Nat.leb_spec MAX_FUNDS_TO_SHOW index) as [Hle|Hlt].
    + replace (MAX_FUNDS_TO_SHOW - index) with 0 by lia.
      replace (MAX_FUNDS_TO_SHOW - S index) with 0 by lia. reflexivity.
    + replace (MAX_FUNDS_TO_SHOW - index)
        with (S (MAX_FUNDS_TO_SHOW - S index)) by lia.
      reflexivity.
Qed.

Lemma with_fundList_ext (f g : list string -> list string) (p : page) :
  (forall l, f l = g l) -> with_fundList f p = with_fundList g p.
Proof. intros Hfg. unfold with_fundList. rewrite Hfg. reflexivity. Qed.

(** One run of the listener is one step, whether it ends or throws. *)
Lemma toggleFundList_onclick_step (funds : list jsval) (p : page) :
  try_catch (toggleFundList_onclick funds) reported p
  = Ok tt (list_step funds p).
Proof.
  unfold try_catch, toggleFundList_onclick, list_step, bind, gets, modify.
  destruct (String.eqb (text (toggleFundList p)) view_more).
  - rewrite for_each_append_item.
    destruct (failure_of (drop MAX_FUNDS_TO_SHOW funds)); reflexivity.
  - rewrite (with_fundList_ext (remove_beyond 0) (take MAX_FUNDS_TO_SHOW));
      [reflexivity | intros l; apply remove_beyond_take].
Qed.

(** A dispatch whose listeners each make one step makes their steps in
    turn. *)
Lemma dispatch_steps {C} (listener : C -> M page unit)
  (step : C -> page -> page) (registered : list C) (p : page) :
  (forall c q, try_catch (listener c) reported q = Ok tt (step c q)) ->
  dispatch listener registered p = Ok tt (steps step registered p).
Proof.
  intros Hstep. unfold dispatch.
  revert p. induction registered as [|c rest IH]; intros p; simpl.
  - reflexivity.
  - unfold bind. rewrite Hstep. apply IH.
Qed.

Lemma for_each_list_steps (registered : list (list jsval)) (p : page) :
  dispatch toggleFundList_onclick registered p
  = Ok tt (steps list_step registered p).
Proof. apply dispatch_steps, toggleFundList_onclick_step. Qed.

(** A click runs one step per registered listener. *)
Lemma click_toggleFundList_steps (p : page) :
  click_toggleFundList p
  = Ok tt (steps list_step (listeners (toggleFundList p)) p).
Proof.
  unfold click_toggleFundList, bind, gets. apply for_each_list_steps.
Qed.

Lemma displayFunds_array (items : list jsval) (p : page) :
  failure_of items = None ->
  displayFunds (JArr items) p = Ok tt (shown items p).
Proof.
  intros Hall. unfold displayFunds, shown, bind, modify.
  rewrite for_each_append_item.
  rewrite (failure_take MAX_FUNDS_TO_SHOW items Hall).
  destruct (MAX_FUNDS_TO_SHOW <? length items)%nat;
    destruct p as [? []]; reflexivity.
Qed.
End FundList.

Section FundListClaims.
Import JS Eff Chart Net Obs App.
Context `{Host}.

Lemma shown_long (items : list jsval) (p : page) :
  MAX_FUNDS_TO_SHOW < length items ->
  shown items p
  = with_toggleFundList
      (fun b => Button "block" view_more (listeners b ++ [items]))
      (with_fundList
         (fun _ => texts_of (take MAX_FUNDS_TO_SHOW items)) p).
Proof.
  intros Hlong. unfold shown.
  apply Nat.ltb_lt in Hlong. rewrite Hlong. reflexivity.
Qed.

Lemma shown_short (items : list jsval) (p : page) :
  length items <= MAX_FUNDS_TO_SHOW ->
  shown items p
  = with_toggleFundList (set_display "none")
      (with_fundList (fun _ => texts_of items) p).
Proof.
  intros Hshort. unfold shown.
  rewrite take_ge by exact Hshort.
  apply Nat.ltb_ge in Hshort. rewrite Hshort. reflexivity.
Qed.

Lemma take_ids (n : nat) (ids : list string) :
  texts_of (take n (map JStr ids)) = take n ids.
Proof. rewrite <- fmap_take. apply texts_ids. Qed.

Lemma drop_ids (n : nat) (ids : list string) :
  texts_of (drop n (map JStr ids)) = drop n ids.
Proof. rewrite <- fmap_drop. apply texts_ids. Qed.

(** C6.  For a sequence of at most ten fund identifiers [displayFunds]
    hides the toggle control and renders exactly the identifiers given;
    it registers no listener, and a click by the user cannot reach the
    hidden control, so no toggle step is run. *)
Theorem short_list_hides_toggle (ids : list string) (p : page) :
  length ids <= MAX_FUNDS_TO_SHOW ->
  exists p',
    displayFunds (fund_ids ids) p = Ok tt p'
    /\ display (toggleFundList p') = "none"
    /\ fundList p' = ids
    /\ listeners (toggleFundList p') = listeners (toggleFundList p)
    /\ text (toggleFundList p') = text (toggleFundList p)
    /\ user_click_toggleFundList p' = Ok tt p'.
Proof.
  intros Hshort. unfold fund_ids.
  rewrite displayFunds_array by apply failure_ids.
  rewrite shown_short by (rewrite length_map; exact Hshort).
  eexists. split; [reflexivity|].
  rewrite texts_ids.
  destruct p as [fl [d t ls] ? ? ? ? ? ? ? ? ?]. repeat split.
Qed.

Lemma shown_long_facts (items : list jsval) (p : page) :
  MAX_FUNDS_TO_SHOW < length items ->
  fundList (shown items p)
  = texts_of (take MAX_FUNDS_TO_SHOW items)
  /\ display (toggleFundList (shown items p)) = "block"
  /\ text (toggleFundList (shown items p)) = view_more
  /\ listeners (toggleFundList (shown items p))
     = listeners (toggleFundList p) ++ [items].
Proof.
  intros Hlong. rewrite shown_long by exact Hlong.
  destruct p as [fl [d t ls] ? ? ? ? ? ? ? ? ?]. repeat split.
Qed.

Lemma list_step_expand (funds : list jsval) (q : page) :
  text (toggleFundList q) = view_more ->
  failure_of funds = None ->
  fundList (list_step funds q)
  = fundList q ++ texts_of (drop MAX_FUNDS_TO_SHOW funds)
  /\ text (toggleFundList (list_step funds q)) = collapse
  /\ display (toggleFundList (list_step funds q))
     = display (toggleFundList q)
  /\ listeners (toggleFundList (list_step funds q))
     = listeners (toggleFundList q).
Proof.
  intros Hlabel Hall. unfold list_step. rewrite Hlabel.
  rewrite (failure_drop MAX_FUNDS_TO_SHOW funds Hall).
  destruct q as [fl [d t ls] ? ? ? ? ? ? ? ? ?]. repeat split.
Qed.

Lemma list_step_collapse (funds : list jsval) (q : page) :
  text (toggleFundList q) = collapse ->
  fundList (list_step funds q) = take MAX_FUNDS_TO_SHOW (fundList q)
  /\ text (toggleFundList (list_step funds q)) = view_more
  /\ display (toggleFundList (list_step funds q))
     = display (toggleFundList q)
  /\ listeners (toggleFundList (list_step funds q))
     = listeners (toggleFundList q).
Proof.
  intros Hlabel. unfold list_step. rewrite Hlabel.
  destruct q as [fl [d t ls] ? ? ? ? ? ? ? ? ?]. repeat split.
Qed.

(** The first rendering of a long list since the page was loaded: ten
    items, then all on a click, then ten again on the next. *)
Lemma first_render_toggles (ids : list string) (p : page) :
  MAX_FUNDS_TO_SHOW < length ids ->
  listeners (toggleFundList p) = [] ->
  exists p1 p2 p3,
    displayFunds (fund_ids ids) p = Ok tt p1
    /\ fundList p1 = take MAX_FUNDS_TO_SHOW ids
    /\ display (toggleFundList p1) = "block"
    /\ text (toggleFundList p1) = view_more
    /\ click_toggleFundList p1 = Ok tt p2
    /\ fundList p2 = ids
    /\ text (toggleFundList p2) = collapse
    /\ click_toggleFundList p2 = Ok tt p3
    /\ fundList p3 = take MAX_FUNDS_TO_SHOW ids
    /\ text (toggleFundList p3) = view_more.
Proof.
  intros Hlong Hfresh. unfold fund_ids.
  set (items := map JStr ids).
  assert (Hitems : MAX_FUNDS_TO_SHOW < length items)
    by (unfold items; rewrite length_map; exact Hlong).
  set (p1 := shown items p).
  set (p2 := list_step items p1).
  set (p3 := list_step items p2).
  destruct (shown_long_facts items p Hitems) as (Hf1 & Hd1 & Ht1 & Hl1).
  fold p1 in Hf1, Hd1, Ht1, Hl1.
  rewrite Hfresh in Hl1. unfold items in Hf1. rewrite take_ids in Hf1.
  destruct (list_step_expand items p1 Ht1 (failure_ids ids)) as (Hf2 & Ht2 & _ & Hl2).
  fold p2 in Hf2, Ht2, Hl2.
  rewrite Hf1 in Hf2. unfold items in Hf2.
  rewrite drop_ids, take_drop in Hf2.
  destruct (list_step_collapse items p2 Ht2) as (Hf3 & Ht3 & _ & _).
  fold p3 in Hf3, Ht3. rewrite Hf2 in Hf3.
  exists p1, p2, p3. repeat split; try assumption.
  - apply displayFunds_array, failure_ids.
  - rewrite click_toggleFundList_steps, Hl1. reflexivity.
  - rewrite click_toggleFundList_steps, Hl2, Hl1. reflexivity.
Qed.

(** C2.  When a long list is rendered a second time the control carries
    two listeners, and one click runs both: the remaining items of the
    first list are appended and at once removed, so ten items stay
    rendered and the label is back to "view more"; the list of all [L]
    items is not shown. *)
Theorem second_render_toggle_dead (ids1 ids2 : list string) (p : page) :
  MAX_FUNDS_TO_SHOW < length ids1 ->
  MAX_FUNDS_TO_SHOW < length ids2 ->
  listeners (toggleFundList p) = [] ->
  exists p1 p2 p3,
    displayFunds (fund_ids ids1) p = Ok tt p1
    /\ displayFunds (fund_ids ids2) p1 = Ok tt p2
    /\ fundList p2 = take MAX_FUNDS_TO_SHOW ids2
    /\ text (toggleFundList p2) = view_more
    /\ click_toggleFundList p2 = Ok tt p3
    /\ fundList p3 = take MAX_FUNDS_TO_SHOW ids2
    /\ fundList p3 <> ids2
    /\ text (toggleFundList p3) = view_more.
Proof.
  intros Hlong1 Hlong2 Hfresh. unfold fund_ids.
  set (items1 := map JStr ids1). set (items2 := map JStr ids2).
  assert (Hitems1 : MAX_FUNDS_TO_SHOW < length items1)
    by (unfold items1; rewrite length_map; exact Hlong1).
  assert (Hitems2 : MAX_FUNDS_TO_SHOW < length items2)
    by (unfold items2; rewrite length_map; exact Hlong2).
  set (p1 := shown items1 p).
  set (p2 := shown items2 p1).
  set (q := list_step items1 p2).
  set (p3 := list_step items2 q).
  destruct (shown_long_facts items1 p Hitems1) as (_ & _ & _ & Hl1).
  fold p1 in Hl1. rewrite Hfresh in Hl1.
  destruct (shown_long_facts items2 p1 Hitems2) as (Hf2 & _ & Ht2 & Hl2).
  fold p2 in Hf2, Ht2, Hl2. rewrite Hl1 in Hl2.
  unfold items2 in Hf2. rewrite take_ids in Hf2.
  destruct (list_step_expand items1 p2 Ht2 (failure_ids ids1)) as (Hfq & Htq & _ & _).
  fold q in Hfq, Htq.
  destruct (list_step_collapse items2 q Htq) as (Hf3 & Ht3 & _ & _).
  fold p3 in Hf3, Ht3.
  assert (Hten : length (take MAX_FUNDS_TO_SHOW ids2) = MAX_FUNDS_TO_SHOW)
    by (rewrite length_take; lia).
  rewrite Hfq, Hf2, take_app_le, take_take in Hf3 by lia.
  rewrite Nat.min_id in Hf3.
  exists p1, p2, p3. repeat split; try assumption.
  - apply displayFunds_array, failure_ids.
  - apply displayFunds_array, failure_ids.
  - rewrite click_toggleFundList_steps, Hl2. reflexivity.
  - rewrite Hf3. intros Heq.
    apply (f_equal length) in Heq. rewrite Hten in Heq. lia.
Qed.
End FundListClaims.

(** ** The fund detail view and its toggle *)

Section FundInfo.
Import JS Eff Chart Net Obs App.
Context `{Host}.

Lemma displayFundInfo_object (props : list (string * jsval)) (p : page) :
  displayFundInfo (JObj props) p = Ok tt (informed props p).
Proof. destruct p as [? ? ? [d t ls] ? ? ? ? ? ? ?]. reflexivity. Qed.

Lemma informed_facts (props : list (string * jsval)) (p : page) :
  fundInfoContent (informed props p)
  = text_of (JSON_stringify (summary_obj props))
  /\ text (toggleFundInfo (informed props p)) = show_full
  /\ listeners (toggleFundInfo (informed props p))
     = listeners (toggleFundInfo p) ++ [captured_by props].
Proof. destruct p as [? ? ? [d t ls] ? ? ? ? ? ? ?]. repeat split. Qed.

Lemma toggleFundInfo_onclick_step (c : jsval * jsval) (p : page) :
  toggleFundInfo_onclick c p = Ok tt (info_step c p).
Proof.
  destruct c as [summary fullInfo].
  unfold toggleFundInfo_onclick, info_step, bind, gets, modify.
  destruct (String.eqb (text (toggleFundInfo p)) show_full); reflexivity.
Qed.

Lemma for_each_info_steps (registered : list (jsval * jsval)) (p : page) :
  dispatch toggleFundInfo_onclick registered p
  = Ok tt (steps info_step registered p).
Proof.
  apply dispatch_steps. intros c q. unfold try_catch.
  rewrite toggleFundInfo_onclick_step. reflexivity.
Qed.

(** A click runs one step per registered listener. *)
Lemma click_toggleFundInfo_steps (p : page) :
  click_toggleFundInfo p
  = Ok tt (steps info_step (listeners (toggleFundInfo p)) p).
Proof.
  unfold click_toggleFundInfo, bind, gets. apply for_each_info_steps.
Qed.

(** A step rewrites the content and the label and nothing else. *)
Lemma info_step_shape (c : jsval * jsval) (q : page) :
  info_step c q
  = with_toggleFundInfo
      (set_text (flip_label (text (toggleFundInfo q))))
      (with_fundInfoContent
         (text_of (JSON_stringify
            (if String.eqb (text (toggleFundInfo q)) show_full
             then snd c else fst c))) q).
Proof.
  unfold info_step, flip_label.
  destruct (String.eqb (text (toggleFundInfo q)) show_full); reflexivity.
Qed.

Lemma info_step_label (c : jsval * jsval) (q : page) :
  text (toggleFundInfo (info_step c q))
  = flip_label (text (toggleFundInfo q)).
Proof.
  rewrite info_step_shape.
  destruct q as [? ? ? [d t ls] ? ? ? ? ? ? ?]. reflexivity.
Qed.

Lemma info_step_listeners (c : jsval * jsval) (q : page) :
  listeners (toggleFundInfo (info_step c q)) = listeners (toggleFundInfo q).
Proof.
  rewrite info_step_shape.
  destruct q as [? ? ? [d t ls] ? ? ? ? ? ? ?]. reflexivity.
Qed.

Lemma info_step_content (c : jsval * jsval) (q : page) :
  fundInfoContent (info_step c q)
  = text_of (JSON_stringify
      (if String.eqb (text (toggleFundInfo q)) show_full
       then snd c else fst c)).
Proof.
  rewrite info_step_shape.
  destruct q as [? ? ? [d t ls] ? ? ? ? ? ? ?]. reflexivity.
Qed.

Lemma steps_snoc {C} (step : C -> page -> page) (old : list C) (c : C)
  (q : page) :
  steps step (old ++ [c]) q = step c (steps step old q).
Proof. unfold steps. rewrite fold_left_app. reflexivity. Qed.

Lemma steps_info_label (registered : list (jsval * jsval)) (q : page) :
  text (toggleFundInfo (steps info_step registered q))
  = Nat.iter (length registered) flip_label (text (toggleFundInfo q)).
Proof.
  induction registered as [|c old IH] using rev_ind; [reflexivity|].
  rewrite steps_snoc, info_step_label, IH, length_app. simpl.
  rewrite Nat.add_1_r. reflexivity.
Qed.

Lemma steps_info_listeners (registered : list (jsval * jsval)) (q : page) :
  listeners (toggleFundInfo (steps info_step registered q))
  = listeners (toggleFundInfo q).
Proof.
  induction registered as [|c old IH] using rev_ind; [reflexivity|].
  rewrite steps_snoc, info_step_listeners, IH. reflexivity.
Qed.

(** Steps touch the content and the label only. *)
Lemma steps_info_frame (registered : list (jsval * jsval)) (q : page) :
  exists label content,
    steps info_step registered q
    = with_toggleFundInfo (set_text label)
        (with_fundInfoContent content q).
Proof.
  induction registered as [|c old IH] using rev_ind.
  - exists (text (toggleFundInfo q)), (fundInfoContent q).
    destruct q as [? ? ? [d t ls] ? ? ? ? ? ? ?]. reflexivity.
  - destruct IH as (label & content & Hold).
    rewrite steps_snoc, Hold, info_step_shape.
    eexists _, _.
    destruct q as [? ? ? [d t ls] ? ? ? ? ? ? ?]. reflexivity.
Qed.

Lemma same_content_and_label (q q' : page) (label content : string) :
  q' = with_toggleFundInfo (set_text label)
         (with_fundInfoContent content q) ->
  text (toggleFundInfo q') = text (toggleFundInfo q) ->
  fundInfoContent q' = fundInfoContent q ->
  q' = q.
Proof.
  intros ->. destruct q as [? ? ? [d t ls] ? ? ? ? ? ? ?]. simpl.
  intros -> ->. reflexivity.
Qed.

Lemma flip_label_twice_full :
  forall n, Nat.iter (2 * n) flip_label show_full = show_full.
Proof.
  induction n as [|n IH]; [reflexivity|].
  replace (2 * S n) with (S (S (2 * n))) by lia.
  cbn [Nat.iter nat_rect]. fold (Nat.iter (2 * n) flip_label show_full).
  rewrite IH. reflexivity.
Qed.

Lemma flip_label_odd_summary :
  forall n, Nat.iter (S (2 * n)) flip_label show_full = show_summary.
Proof.
  intros n. cbn [Nat.iter nat_rect].
  fold (Nat.iter (2 * n) flip_label show_full).
  rewrite flip_label_twice_full. reflexivity.
Qed.
End FundInfo.

Section FundInfoClaims.
Import JS Eff Chart Net Obs App.
Context `{Host}.

(** Two clicks on the page that [displayFundInfo] leaves bring that very
    page back, however many listeners the control carries. *)
Lemma two_clicks_back (props : list (string * jsval)) (p : page) :
  let p1 := informed props p in
  let registered := listeners (toggleFundInfo p1) in
  steps info_step registered (steps info_step registered p1) = p1.
Proof.
  intros p1 registered.
  destruct (informed_facts props p) as (Hc1 & Ht1 & Hl1).
  fold p1 in Hc1, Ht1, Hl1.
  set (old := listeners (toggleFundInfo p)) in *.
  set (c := captured_by props) in *.
  set (p2 := steps info_step registered p1).
  assert (Ht2 : text (toggleFundInfo p2)
                = Nat.iter (S (length old)) flip_label show_full).
  { unfold p2. rewrite steps_info_label, Ht1. unfold registered.
    rewrite Hl1, length_app, Nat.add_1_r. reflexivity. }
  destruct (steps_info_frame registered p1) as (l2 & c2 & Hp2).
  fold p2 in Hp2.
  destruct (steps_info_frame registered p2) as (l3 & c3 & Hp3).
  apply (same_content_and_label p1 _ l3 c3).
  - rewrite Hp3, Hp2.
    destruct p1 as [? ? ? [d t ls] ? ? ? ? ? ? ?]. reflexivity.
  - rewrite steps_info_label, Ht2, Ht1. unfold registered.
    rewrite Hl1, length_app, Nat.add_1_r, <- Nat.iter_add.
    replace (S (length old) + S (length old))
      with (2 * S (length old)) by lia.
    apply flip_label_twice_full.
  - unfold registered at 1. rewrite Hl1, steps_snoc, info_step_content.
    rewrite steps_info_label, Ht2, <- Nat.iter_add.
    replace (length old + S (length old))
      with (S (2 * length old)) by lia.
    rewrite flip_label_odd_summary, Hc1. reflexivity.
Qed.

(** C4.  [displayFundInfo] on a source object shows the summary of its
    four fields under the label "show full"; two clicks of the toggle
    bring back the page as it was before the first, content and label
    included; and calling [displayFundInfo] again with another object,
    before or after a click, shows that object's summary under the label
    "show full". *)
Theorem fund_info_two_clicks_identity
  (props props' : list (string * jsval)) (p : page) :
  exists p1 p2,
    displayFundInfo (JObj props) p = Ok tt p1
    /\ fundInfoContent p1
       = text_of (JSON_stringify
           (JObj [("基金代码", lookup_prop "fund_code" props);
                  ("基金名称", lookup_prop "fund_name" props);
                  ("基金类型", lookup_prop "fund_type" props);
                  ("基金经理", lookup_prop "manager" props)]))
    /\ text (toggleFundInfo p1) = show_full
    /\ click_toggleFundInfo p1 = Ok tt p2
    /\ click_toggleFundInfo p2 = Ok tt p1
    /\ (exists q1,
          displayFundInfo (JObj props') p1 = Ok tt q1
          /\ fundInfoContent q1
             = text_of (JSON_stringify (summary_obj props'))
          /\ text (toggleFundInfo q1) = show_full)
    /\ (exists q2,
          displayFundInfo (JObj props') p2 = Ok tt q2
          /\ fundInfoContent q2
             = text_of (JSON_stringify (summary_obj props'))
          /\ text (toggleFundInfo q2) = show_full).
Proof.
  set (p1 := informed props p).
  set (p2 := steps info_step (listeners (toggleFundInfo p1)) p1).
  destruct (informed_facts props p) as (Hc1 & Ht1 & _).
  fold p1 in Hc1, Ht1.
  exists p1, p2.
  split; [apply displayFundInfo_object|].
  split; [exact Hc1|]. split; [exact Ht1|].
  split; [apply click_toggleFundInfo_steps|].
  split.
  - rewrite click_toggleFundInfo_steps. unfold p2 at 1.
    rewrite steps_info_listeners. f_equal. apply two_clicks_back.
  - split.
    + exists (informed props' p1).
      destruct (informed_facts props' p1) as (Hc & Ht & _).
      split; [apply displayFundInfo_object|]. split; assumption.
    + exists (informed props' p2).
      destruct (informed_facts props' p2) as (Hc & Ht & _).
      split; [apply displayFundInfo_object|]. split; assumption.
Qed.
End FundInfoClaims.

(** ** Listeners accumulate *)

Section Listeners.
Import JS Eff Chart Net Obs App.
Context `{Host}.

Lemma displayFundInfo_all (infos : list (list (string * jsval))) :
  forall p, exists p',
    for_each (fun props => displayFundInfo (JObj props)) infos p = Ok tt p'
    /\ listeners (toggleFundInfo p')
       = listeners (toggleFundInfo p) ++ map captured_by infos.
Proof.
  induction infos as [|props rest IH]; intros p.
  - exists p. split; [reflexivity|]. simpl. rewrite app_nil_r. reflexivity.
  - destruct (IH (informed props p)) as (p' & Hrun & Hls).
    exists p'. split.
    + cbn [for_each]. unfold bind. rewrite displayFundInfo_object.
      exact Hrun.
    + rewrite Hls.
      destruct (informed_facts props p) as (_ & _ & ->).
      rewrite <- app_assoc. reflexivity.
Qed.

Lemma displayFunds_all (pools : list (list string)) :
  Forall (fun ids => MAX_FUNDS_TO_SHOW < length ids) pools ->
  forall p, exists p',
    for_each (fun ids => displayFunds (fund_ids ids)) pools p = Ok tt p'
    /\ listeners (toggleFundList p')
       = listeners (toggleFundList p) ++ map (map JStr) pools.
Proof.
  induction 1 as [|ids rest Hlong _ IH]; intros p.
  - exists p. split; [reflexivity|]. simpl. rewrite app_nil_r. reflexivity.
  - destruct (IH (shown (map JStr ids) p)) as (p' & Hrun & Hls).
    exists p'. split.
    + cbn [for_each]. unfold bind, fund_ids.
      rewrite displayFunds_array by apply failure_ids.
      exact Hrun.
    + rewrite Hls.
      destruct (shown_long_facts (map JStr ids) p) as (_ & _ & _ & ->);
        [rewrite length_map; exact Hlong|].
      rewrite <- app_assoc. reflexivity.
Qed.

(** With two fund-info listeners a click expands and collapses at once. *)
Lemma info_second_click_back (props1 props2 : list (string * jsval))
  (p : page) :
  steps info_step [captured_by props1; captured_by props2]
    (informed props2 (informed props1 p))
  = informed props2 (informed props1 p).
Proof.
  destruct p as [? ? ? [d t ls] ? ? ? ? ? ? ?]. reflexivity.
Qed.

(** With two fund-list listeners a click appends and removes at once. *)
Lemma list_second_click_back (items1 items2 : list jsval) (p : page) :
  MAX_FUNDS_TO_SHOW < length items1 ->
  MAX_FUNDS_TO_SHOW < length items2 ->
  failure_of items1 = None ->
  failure_of items2 = None ->
  steps list_step [items1; items2] (shown items2 (shown items1 p))
  = shown items2 (shown items1 p).
Proof.
  intros Hlong1 Hlong2 Hall1 Hall2.
  rewrite !shown_long by assumption.
  destruct p as [fl [d t ls] ? ? ? ? ? ? ? ? ?].
  unfold steps, list_step, with_toggleFundList, with_fundList.
  cbn -[take drop MAX_FUNDS_TO_SHOW texts_of failure_of].
  rewrite (failure_drop MAX_FUNDS_TO_SHOW items1 Hall1).
  cbn -[take drop MAX_FUNDS_TO_SHOW texts_of failure_of].
  rewrite take_app_length';
    [reflexivity|].
  rewrite length_texts_of by (apply failure_take; exact Hall2).
  rewrite length_take; lia.
Qed.
End Listeners.

Section ListenerClaims.
Import JS Eff Chart Net Obs App.
Context `{Host}.

(** C9.  Each call of [displayFundInfo], and each call of [displayFunds]
    that shows the toggle, adds a click listener to the control and
    removes none.  After [n] calls on a freshly loaded page the control
    carries [n] listeners and one click runs [n] toggle steps, one per
    listener in the order of registration; after two calls one click
    leaves the page, content and label included, as it was. *)
Theorem listeners_accumulate
  (infos : list (list (string * jsval))) (pools : list (list string))
  (p : page) :
  listeners (toggleFundInfo p) = [] ->
  listeners (toggleFundList p) = [] ->
  Forall (fun ids => MAX_FUNDS_TO_SHOW < length ids) pools ->
  (exists p',
     for_each (fun props => displayFundInfo (JObj props)) infos p = Ok tt p'
     /\ listeners (toggleFundInfo p') = map captured_by infos
     /\ length (listeners (toggleFundInfo p')) = length infos
     /\ click_toggleFundInfo p'
        = Ok tt (steps info_step (map captured_by infos) p'))
  /\ (exists p',
        for_each (fun ids => displayFunds (fund_ids ids)) pools p = Ok tt p'
        /\ listeners (toggleFundList p') = map (map JStr) pools
        /\ length (listeners (toggleFundList p')) = length pools
        /\ click_toggleFundList p'
           = Ok tt (steps list_step (map (map JStr) pools) p'))
  /\ (forall props1 props2, exists p2,
        for_each (fun props => displayFundInfo (JObj props))
          [props1; props2] p = Ok tt p2
        /\ click_toggleFundInfo p2 = Ok tt p2)
  /\ (forall ids1 ids2,
        MAX_FUNDS_TO_SHOW < length ids1 ->
        MAX_FUNDS_TO_SHOW < length ids2 ->
        exists p2,
          for_each (fun ids => displayFunds (fund_ids ids))
            [ids1; ids2] p = Ok tt p2
          /\ click_toggleFundList p2 = Ok tt p2).
Proof.
  intros Hinfo Hlist Hlong. split; [|split; [|split]].
  - destruct (displayFundInfo_all infos p) as (p' & Hrun & Hls).
    rewrite Hinfo in Hls. simpl in Hls.
    exists p'. split; [exact Hrun|]. split; [exact Hls|].
    split; [rewrite Hls; apply length_map|].
    rewrite click_toggleFundInfo_steps, Hls. reflexivity.
  - destruct (displayFunds_all pools Hlong p) as (p' & Hrun & Hls).
    rewrite Hlist in Hls. simpl in Hls.
    exists p'. split; [exact Hrun|]. split; [exact Hls|].
    split; [rewrite Hls; apply length_map|].
    rewrite click_toggleFundList_steps, Hls. reflexivity.
  - intros props1 props2.
    exists (informed props2 (informed props1 p)). split.
    + cbn [for_each]. unfold bind. rewrite !displayFundInfo_object.
      reflexivity.
    + rewrite click_toggleFundInfo_steps.
      destruct (informed_facts props2 (informed props1 p)) as (_ & _ & ->).
      destruct (informed_facts props1 p) as (_ & _ & ->).
      rewrite Hinfo. cbn [app].
      rewrite info_second_click_back. reflexivity.
  - intros ids1 ids2 Hlong1 Hlong2.
    assert (Hitems1 : MAX_FUNDS_TO_SHOW < length (map JStr ids1))
      by (rewrite length_map; exact Hlong1).
    assert (Hitems2 : MAX_FUNDS_TO_SHOW < length (map JStr ids2))
      by (rewrite length_map; exact Hlong2).
    exists (shown (map JStr ids2) (shown (map JStr ids1) p)). split.
    + cbn [for_each]. unfold bind, fund_ids.
      rewrite !displayFunds_array by apply failure_ids.
      reflexivity.
    + rewrite click_toggleFundList_steps.
      destruct (shown_long_facts (map JStr ids2) (shown (map JStr ids1) p)
                  Hitems2) as (_ & _ & _ & ->).
      destruct (shown_long_facts (map JStr ids1) p Hitems1)
        as (_ & _ & _ & ->).
      rewrite Hlist. cbn [app].
      rewrite list_second_click_back
        by (assumption || apply failure_ids).
      reflexivity.
Qed.
End ListenerClaims.

(** ** Charts *)

Section Charts.
Import JS Eff Chart Net Obs App.
Context `{Host}.

Lemma live_nil_vacant (c : string) (r : registry) :
  vacant c r <-> live c r = [].
Proof.
  unfold vacant, live. split.
  - intros Hv. induction r as [|i r IH]; [reflexivity|].
    simpl. rewrite (Hv 0 i eq_refl). apply IH.
    intros id j Hj. exact (Hv (S id) j Hj).
  - intros Hnil id i Hi.
    destruct (is_live c i) eqn:Hlive; [|reflexivity].
    assert (Hin : In i (List.filter (is_live c) r)).
    { apply filter_In. split; [|exact Hlive].
      apply list_elem_of_In, list_elem_of_lookup. eauto. }
    rewrite Hnil in Hin. destruct Hin.
Qed.

Lemma live_snoc (c : string) (r : registry) (i : instance) :
  live c (r ++ [i]) = live c r ++ (if is_live c i then [i] else []).
Proof. unfold live. rewrite List.filter_app. reflexivity. Qed.

(** Destroying the instance the script refers to empties the canvas. *)
Lemma tracked_disposed_vacant (p : page) :
  tracked p -> vacant "optimizeChart" (disposed_existing p).
Proof.
  intros Htracked id i Hi. unfold disposed_existing, destroy in Hi.
  destruct (is_live "optimizeChart" i) eqn:Hlive; [|reflexivity].
  destruct (optimizeChartInstance p) as [existing|] eqn:Hexisting.
  - destruct (decide (existing = id)) as [->|Hne].
    + rewrite list_lookup_alter_eq in Hi.
      destruct (charts p !! id) as [j|]; [|discriminate].
      simpl in Hi. injection Hi as <-.
      unfold is_live, dispose in Hlive. simpl in Hlive.
      rewrite andb_false_r in Hlive. discriminate.
    + rewrite list_lookup_alter_ne in Hi by exact Hne.
      pose proof (Htracked id i Hi Hlive) as Href. congruence.
  - pose proof (Htracked id i Hi Hlive) as Href. congruence.
Qed.

Lemma length_disposed_existing (p : page) :
  length (disposed_existing p) = length (charts p).
Proof.
  unfold disposed_existing, destroy.
  destruct (optimizeChartInstance p); [apply length_alter | reflexivity].
Qed.

(** On a vacant canvas the constructor goes through, guarded or not. *)
Lemma construct_vacant (c : string) (k : config) (r : registry) :
  vacant c r ->
  construct c k r = Done (length r, r ++ [Instance c k false]).
Proof.
  intros Hv. apply live_nil_vacant in Hv. unfold construct.
  rewrite Hv, andb_false_r. reflexivity.
Qed.

Lemma tracked_vacant_snoc (p : page) (r : registry) (i : instance) :
  vacant "optimizeChart" r ->
  tracked
    (with_optimizeChartInstance (Some (length r))
       (with_charts (r ++ [i]) p)).
Proof.
  intros Hv id c Hc Hlive.
  destruct p; simpl in *.
  destruct (Nat.lt_ge_cases id (length r)) as [Hlt|Hge].
  - rewrite lookup_app_l in Hc by exact Hlt.
    rewrite (Hv id c Hc) in Hlive. discriminate.
  - f_equal. apply lookup_lt_Some in Hc.
    rewrite length_app in Hc. simpl in Hc. lia.
Qed.

Lemma tracked_vacant (p : page) (r : registry) :
  vacant "optimizeChart" r -> tracked (with_charts r p).
Proof.
  intros Hv id c Hc Hlive. destruct p; simpl in *.
  rewrite (Hv id c Hc) in Hlive. discriminate.
Qed.
End Charts.

Section ChartInvariant.
Import JS Eff Chart Net Obs App.
Context `{Host}.
Local Open Scope js_scope.

Lemma renderOptimizeChart_unfold (data : jsval) (p : page) :
  renderOptimizeChart data p
  = draw_bars data (with_charts (disposed_existing p) p).
Proof.
  unfold renderOptimizeChart, disposed_existing, bind at 1, gets.
  destruct p as [? ? ? ? ? ? ? r [id|] ? ?]; reflexivity.
Qed.

Lemma draw_bars_tracked (data : jsval) (p : page) :
  vacant "optimizeChart" (charts p) ->
  ends (draw_bars data p) tracked.
Proof.
  intros Hv. unfold draw_bars, bind, lift, modify, new_Chart.
  assert (Hp : tracked p).
  { replace p with (with_charts (charts p) p) by (destruct p; reflexivity).
    apply tracked_vacant, Hv. }
  destruct (get_prop data "weights") as [weights|e]; simpl; auto.
  destruct (Object_keys weights) as [keys|e]; simpl; auto.
  destruct (Object_values weights) as [values|e]; simpl; auto.
  rewrite construct_vacant by exact Hv. simpl.
  apply tracked_vacant_snoc, Hv.
Qed.

Lemma renderOptimizeChart_tracked (data : jsval) :
  maintains tracked (renderOptimizeChart data).
Proof.
  intros p Hp. rewrite renderOptimizeChart_unfold.
  apply draw_bars_tracked.
  replace (charts (with_charts (disposed_existing p) p))
    with (disposed_existing p) by (destruct p; reflexivity).
  apply tracked_disposed_vacant, Hp.
Qed.

Lemma tracked_chart_state (p p' : page) :
  chart_state p' = chart_state p -> tracked p -> tracked p'.
Proof.
  unfold chart_state, tracked. intros Heq Hp id c.
  injection Heq as -> ->. apply Hp.
Qed.

Lemma new_backtest_chart_tracked (k : config) :
  maintains tracked (new_Chart "backtestChart" k).
Proof.
  intros p Hp. unfold new_Chart, construct.
  destruct (_ && _); simpl; [exact Hp|].
  intros id c Hc Hlive. destruct p; simpl in *.
  destruct (Nat.lt_ge_cases id (length charts0)) as [Hlt|Hge].
  - rewrite lookup_app_l in Hc by exact Hlt. exact (Hp id c Hc Hlive).
  - rewrite lookup_app_r in Hc by exact Hge.
    destruct (id - length charts0) as [|n]; simpl in Hc; [|discriminate].
    injection Hc as <-. discriminate Hlive.
Qed.

Lemma renderBacktestChart_tracked (data : jsval) :
  maintains tracked (renderBacktestChart data).
Proof.
  unfold renderBacktestChart, console_log.
  repeat first
    [ apply new_backtest_chart_tracked
    | apply maintains_bind; [| intros ?]
    | match goal with
      | |- maintains _ (let '(_, _) := ?x in _) => destruct x
      end
    | apply (keeps_maintains chart_state);
        [intros ? ? ?; apply tracked_chart_state; assumption | frame] ].
Qed.

Lemma handle_tracked (e : event) : maintains tracked (handle e).
Proof.
  destruct e; simpl.
  - apply (keeps_maintains chart_state);
      [intros ? ? ?; apply tracked_chart_state; assumption|].
    apply keeps_charts_fundForm.
  - apply (keeps_maintains chart_state);
      [intros ? ? ?; apply tracked_chart_state; assumption|].
    apply keeps_charts_fundInfoForm.
  - unfold optimizeForm_submit, console_error, fetch, response_json.
    repeat first
      [ apply renderOptimizeChart_tracked
      | apply maintains_try_catch; [| intros ?]
      | apply maintains_bind; [| intros ?]
      | apply (keeps_maintains chart_state);
          [intros ? ? ?; apply tracked_chart_state; assumption | frame] ].
  - unfold backtestForm_submit, console_error, fetch, response_json.
    repeat first
      [ apply renderBacktestChart_tracked
      | apply maintains_try_finally
      | apply maintains_try_catch; [| intros ?]
      | apply maintains_bind; [| intros ?]
      | apply (keeps_maintains chart_state);
          [intros ? ? ?; apply tracked_chart_state; assumption | frame] ].
  - apply (keeps_maintains chart_state);
      [intros ? ? ?; apply tracked_chart_state; assumption|].
    apply keeps_charts_user_click_list.
  - apply (keeps_maintains chart_state);
      [intros ? ? ?; apply tracked_chart_state; assumption|].
    apply keeps_charts_click_info.
Qed.

(** On every page reachable from a loaded one the script's reference
    covers the live charts of the optimisation canvas. *)
Lemma reachable_tracked (p : page) : reachable p -> tracked p.
Proof.
  induction 1 as [items label1 content label2|p e p' _ IH Hstep].
  - intros id c Hc. destruct id; discriminate Hc.
  - pose proof (handle_tracked e p IH) as Hends.
    destruct (handle e p) as [[] q|err q]; simpl in *;
      subst p'; exact Hends.
Qed.

(** ... so that canvas never carries more than one live chart. *)
Lemma optimize_canvas_at_most_one (p : page) :
  reachable p -> length (live "optimizeChart" (charts p)) <= 1.
Proof.
  intros Hreach. apply reachable_tracked in Hreach.
  destruct (optimizeChartInstance p) as [existing|] eqn:Hexisting.
  - unfold tracked in Hreach. rewrite Hexisting in Hreach.
    assert (Hone : forall r base,
              (forall id c, r !! id = Some c ->
                 is_live "optimizeChart" c = true ->
                 base + id = existing) ->
              length (live "optimizeChart" r) <= 1).
    { induction r as [|i r IHr]; intros base Hr; [simpl; lia|].
      unfold live in *. simpl.
      destruct (is_live "optimizeChart" i) eqn:Hi.
      - assert (Hrest : List.filter (is_live "optimizeChart") r = []).
        { apply live_nil_vacant. intros id c Hc.
          destruct (is_live "optimizeChart" c) eqn:Hlive; [|reflexivity].
          pose proof (Hr 0 i eq_refl Hi).
          pose proof (Hr (S id) c Hc Hlive). lia. }
        rewrite Hrest. simpl. lia.
      - apply (IHr (S base)). intros id c Hc Hlive.
        pose proof (Hr (S id) c Hc Hlive). lia. }
    apply (Hone (charts p) 0). intros id c Hc Hlive.
    pose proof (Hreach id c Hc Hlive) as Hid. injection Hid as ->.
    reflexivity.
  - assert (Hv : vacant "optimizeChart" (charts p)).
    { intros id c Hc.
      destruct (is_live "optimizeChart" c) eqn:Hlive; [|reflexivity].
      pose proof (Hreach id c Hc Hlive). congruence. }
    apply live_nil_vacant in Hv. rewrite Hv. simpl. lia.
Qed.
End ChartInvariant.

Section BarChart.
Import JS Eff Chart Net Obs App.
Context `{Host}.

(** The page after [renderOptimizeChart] on weights [w]. *)
Lemma renderOptimizeChart_weights props (w : list (string * jsval))
  (p : page) :
  lookup_prop "weights" props = JObj w ->
  tracked p ->
  renderOptimizeChart (JObj props) p
  = Ok tt (with_optimizeChartInstance (Some (length (charts p)))
             (with_charts (disposed_existing p ++ [bar_chart w]) p)).
Proof.
  intros Hw Hp. rewrite renderOptimizeChart_unfold.
  pose proof (tracked_disposed_vacant p Hp) as Hv.
  unfold draw_bars, bind, lift, modify, new_Chart. simpl get_prop.
  rewrite Hw. simpl.
  replace (charts (with_charts (disposed_existing p) p))
    with (disposed_existing p) by (destruct p; reflexivity).
  rewrite construct_vacant by exact Hv.
  rewrite length_disposed_existing.
  destruct p; reflexivity.
Qed.

Lemma destroy_last (r : registry) (i : instance) :
  destroy (length r) (r ++ [i]) = r ++ [dispose i].
Proof.
  unfold destroy. rewrite <- (Nat.add_0_r (length r)).
  rewrite alter_app_r. reflexivity.
Qed.

(** C5.  Two calls of [renderOptimizeChart], on any page the scripts can
    reach: the second destroys the instance the first created and then
    creates its own, so the optimisation canvas carries exactly one live
    chart, the second one. *)
Theorem bar_chart_twice_one_live
  (props1 props2 w1 w2 : list (string * jsval)) (p : page) :
  reachable p ->
  lookup_prop "weights" props1 = JObj w1 ->
  lookup_prop "weights" props2 = JObj w2 ->
  exists p1 p2 id1 id2,
    renderOptimizeChart (JObj props1) p = Ok tt p1
    /\ optimizeChartInstance p1 = Some id1
    /\ charts p1 !! id1 = Some (bar_chart w1)
    /\ renderOptimizeChart (JObj props2) p1 = Ok tt p2
    /\ optimizeChartInstance p2 = Some id2
    /\ charts p2 !! id1 = Some (dispose (bar_chart w1))
    /\ charts p2 !! id2 = Some (bar_chart w2)
    /\ live "optimizeChart" (charts p2) = [bar_chart w2]
    /\ length (live "optimizeChart" (charts p2)) = 1.
Proof.
  intros Hreach Hw1 Hw2.
  pose proof (reachable_tracked p Hreach) as Hp.
  pose proof (tracked_disposed_vacant p Hp) as Hv.
  pose proof (length_disposed_existing p) as Hlen.
  set (gone := disposed_existing p) in *.
  set (p1 := with_optimizeChartInstance (Some (length (charts p)))
               (with_charts (gone ++ [bar_chart w1]) p)).
  assert (Hrun1 : renderOptimizeChart (JObj props1) p = Ok tt p1)
    by (apply renderOptimizeChart_weights; assumption).
  assert (Hp1 : tracked p1).
  { pose proof (renderOptimizeChart_tracked (JObj props1) p Hp) as Hends.
    rewrite Hrun1 in Hends. exact Hends. }
  assert (Hcharts1 : charts p1 = gone ++ [bar_chart w1])
    by (destruct p; reflexivity).
  assert (Hgone1 : disposed_existing p1 = gone ++ [dispose (bar_chart w1)]).
  { unfold disposed_existing.
    replace (optimizeChartInstance p1) with (Some (length gone))
      by (rewrite Hlen; destruct p; reflexivity).
    rewrite Hcharts1. apply destroy_last. }
  set (p2 := with_optimizeChartInstance (Some (length (charts p1)))
               (with_charts (disposed_existing p1 ++ [bar_chart w2]) p1)).
  assert (Hcharts2 : charts p2
                     = (gone ++ [dispose (bar_chart w1)]) ++ [bar_chart w2])
    by (rewrite <- Hgone1; destruct p; reflexivity).
  exists p1, p2, (length gone), (S (length gone)).
  split; [exact Hrun1|].
  split; [rewrite Hlen; destruct p; reflexivity|].
  split; [rewrite Hcharts1; apply list_lookup_middle; reflexivity|].
  split; [apply renderOptimizeChart_weights; assumption|].
  split.
  { replace (S (length gone)) with (length (charts p1))
      by (rewrite Hcharts1, length_app; simpl; lia).
    destruct p; reflexivity. }
  split.
  { rewrite Hcharts2, lookup_app_l
      by (rewrite length_app; simpl; lia).
    apply list_lookup_middle; reflexivity. }
  split.
  { rewrite Hcharts2. apply list_lookup_middle.
    rewrite length_app. simpl. lia. }
  assert (Hlive : live "optimizeChart" (charts p2) = [bar_chart w2]).
  { rewrite Hcharts2, !live_snoc.
    apply live_nil_vacant in Hv. rewrite Hv. reflexivity. }
  split; [exact Hlive | rewrite Hlive; reflexivity].
Qed.
End BarChart.

Section LineChart.
Import JS Eff Chart Net Obs App.
Context `{Host}.

Lemma picked_points {A} (g : A -> jsval) (points : list A) (ks : list nat) :
  Forall (fun k => 7 * k < length points) ks ->
  map (fun k => picked (map g points) (7 * k)) ks
  = map g (omap (fun k => points !! (7 * k)) ks).
Proof.
  induction 1 as [|k ks Hk _ IH]; [reflexivity|].
  cbn [map omap list_omap]. rewrite IH.
  destruct (lookup_lt_is_Some_2 points (7 * k) Hk) as [x Hx].
  unfold picked. rewrite list_lookup_fmap, Hx. reflexivity.
Qed.

(** The loop samples the entries of typed points as [every_seventh]. *)
Lemma sample_loop_points {A} (g : A -> jsval) (points : list A) :
  sample_loop (map g points) 0 [] = map g (every_seventh points).
Proof.
  rewrite sample_loop_spec, length_map. cbn [app Nat.add].
  destruct (rounds_ceil (length points)) as (-> & _).
  unfold every_seventh.
  apply picked_points. apply Forall_forall. intros k Hk.
  apply elem_of_seq in Hk.
  pose proof (Nat.div_mod_eq (length points + 6) 7) as Hdiv.
  pose proof (Nat.mod_upper_bound (length points + 6) 7) as Hmod.
  lia.
Qed.

Lemma length_every_seventh {A} (points : list A) :
  length (every_seventh points) = (length points + 6) / 7.
Proof.
  pose proof (sample_loop_points (fun _ => JNull) points) as Hs.
  apply (f_equal length) in Hs. rewrite length_map in Hs. rewrite <- Hs.
  rewrite sample_loop_spec, length_app, !length_map, length_seq.
  destruct (rounds_ceil (length points)) as (-> & _). reflexivity.
Qed.

Lemma map_m_prop (k : string) (project : string * spec_float -> jsval)
  (points : list (string * spec_float)) (p : page) :
  (forall pt, get_prop (sample_point pt) k = Done (project pt)) ->
  map_m (fun entry => lift (get_prop entry k)) (map sample_point points) p
  = Ok (map project points) p.
Proof.
  intros Hk. induction points as [|pt rest IH]; [reflexivity|].
  cbn [map map_m]. unfold bind at 1, lift at 1. rewrite Hk.
  unfold bind at 1. rewrite IH. reflexivity.
Qed.

Lemma get_portfolio_value (points : list (string * spec_float)) :
  get_prop (backtest_data points) "portfolio_value"
  = Done (JArr (map sample_point points)).
Proof. reflexivity. Qed.

(** [renderBacktestChart] on typed samples: the two log lines, then the
    constructor on the sampled series. *)
Lemma renderBacktestChart_points (points : list (string * spec_float))
  (p : page) :
  let logged :=
    with_console (fun c => c ++ sampling_log (length points)) p in
  renderBacktestChart (backtest_data points) p
  = match construct "backtestChart" (cfg (line_chart points)) (charts p) with
    | Done (_, r) => Ok tt (with_charts r logged)
    | Raise e => Thrown e logged
    end.
Proof.
  intros logged. unfold renderBacktestChart.
  unfold bind at 1, lift at 1. rewrite get_portfolio_value.
  unfold bind at 1, lift at 1. cbn [array_view].
  rewrite sample_loop_points.
  unfold bind at 1, console_log at 1, modify at 1.
  unfold bind at 1, console_log at 1, modify at 1.
  unfold bind at 1.
  rewrite (map_m_prop "date" (fun pt => JStr (fst pt)))
    by (intros []; reflexivity).
  unfold bind at 1.
  rewrite (map_m_prop "value" (fun pt => JNum (snd pt)))
    by (intros []; reflexivity).
  unfold bind, new_Chart, ret.
  rewrite !length_map, length_every_seventh.
  replace (charts (with_console _ (with_console _ p))) with (charts p)
    by (destruct p; reflexivity).
  replace (with_console _ (with_console _ p)) with logged
    by (unfold logged, sampling_log, with_console; destruct p;
        cbn [console]; rewrite <- app_assoc; reflexivity).
  unfold line_chart. cbn [cfg].
  destruct (construct _ _ _) as [[id r]|e]; reflexivity.
Qed.

(** Unguarded, a render adds its chart next to those already there. *)
Lemma renderBacktestChart_stacks (points : list (string * spec_float))
  (p : page) :
  Chart_guards_canvas = false ->
  renderBacktestChart (backtest_data points) p
  = Ok tt (with_charts (charts p ++ [line_chart points])
             (with_console (fun c => c ++ sampling_log (length points)) p)).
Proof.
  intros Hguard. rewrite renderBacktestChart_points.
  unfold construct. rewrite Hguard. reflexivity.
Qed.

(** Guarded, a render on a canvas that carries a live chart throws and
    leaves the registry as it was. *)
Lemma renderBacktestChart_blocked (points : list (string * spec_float))
  (p : page) :
  Chart_guards_canvas = true ->
  live "backtestChart" (charts p) <> [] ->
  renderBacktestChart (backtest_data points) p
  = Thrown CanvasInUse
      (with_console (fun c => c ++ sampling_log (length points)) p).
Proof.
  intros Hguard Hlive. rewrite renderBacktestChart_points.
  unfold construct. rewrite Hguard.
  destruct (live "backtestChart" (charts p)); [congruence | reflexivity].
Qed.

(** C1.  [renderBacktestChart] destroys nothing: with a constructor that
    always creates, two renders leave both their charts live on the
    back-test canvas, next to whatever was live there before. *)
Theorem backtest_charts_pile_up
  (points1 points2 : list (string * spec_float)) (p : page) :
  Chart_guards_canvas = false ->
  exists p1 p2,
    renderBacktestChart (backtest_data points1) p = Ok tt p1
    /\ renderBacktestChart (backtest_data points2) p1 = Ok tt p2
    /\ charts p2 = charts p ++ [line_chart points1; line_chart points2]
    /\ live "backtestChart" (charts p2)
       = live "backtestChart" (charts p)
         ++ [line_chart points1; line_chart points2]
    /\ 2 <= length (live "backtestChart" (charts p2)).
Proof.
  intros Hguard. eexists _, _.
  split; [apply renderBacktestChart_stacks, Hguard|].
  split; [apply renderBacktestChart_stacks, Hguard|].
  assert (Hcharts :
    charts
      (with_charts
         (charts
            (with_charts (charts p ++ [line_chart points1])
               (with_console
                  (fun c => c ++ sampling_log (length points1)) p))
          ++ [line_chart points2])
         (with_console (fun c => c ++ sampling_log (length points2))
            (with_charts (charts p ++ [line_chart points1])
               (with_console
                  (fun c => c ++ sampling_log (length points1)) p))))
    = charts p ++ [line_chart points1; line_chart points2]).
  { destruct p; simpl. rewrite <- app_assoc. reflexivity. }
  rewrite Hcharts. split; [reflexivity|].
  assert (Hlive : live "backtestChart"
                    (charts p ++ [line_chart points1; line_chart points2])
                  = live "backtestChart" (charts p)
                    ++ [line_chart points1; line_chart points2]).
  { unfold live. rewrite List.filter_app. reflexivity. }
  rewrite Hlive. split; [reflexivity|].
  rewrite length_app. simpl. lia.
Qed.

(** With a guarding constructor the second render throws instead: the
    first chart stays, undisposed, and the new series is not drawn. *)
Lemma backtest_second_render_blocked
  (points1 points2 : list (string * spec_float)) (p : page) :
  Chart_guards_canvas = true ->
  live "backtestChart" (charts p) = [] ->
  exists p1 q,
    renderBacktestChart (backtest_data points1) p = Ok tt p1
    /\ renderBacktestChart (backtest_data points2) p1
       = Thrown CanvasInUse q
    /\ charts q = charts p ++ [line_chart points1]
    /\ live "backtestChart" (charts q) = [line_chart points1].
Proof.
  intros Hguard Hvacant.
  assert (Hrun1 :
    renderBacktestChart (backtest_data points1) p
    = Ok tt (with_charts (charts p ++ [line_chart points1])
               (with_console
                  (fun c => c ++ sampling_log (length points1)) p))).
  { rewrite renderBacktestChart_points. unfold construct.
    rewrite Hvacant, andb_false_r. reflexivity. }
  assert (Hlive1 : live "backtestChart" (charts p ++ [line_chart points1])
                   = [line_chart points1])
    by (rewrite live_snoc, Hvacant; reflexivity).
  eexists _, _. split; [exact Hrun1|].
  split.
  - apply renderBacktestChart_blocked; [exact Hguard|].
    replace (charts (with_charts _ _))
      with (charts p ++ [line_chart points1]) by (destruct p; reflexivity).
    rewrite Hlive1. discriminate.
  - replace (charts (with_console _ (with_charts _ _)))
      with (charts p ++ [line_chart points1]) by (destruct p; reflexivity).
    split; [reflexivity | exact Hlive1].
Qed.
End LineChart.

(** ** The table of percentages *)

Section Table.
Import JS Eff Chart Net Obs.
Context `{Host}.

(** 0.6 and 0.4 as binary64: the mantissas and exponents, each within
    half a unit in the last place of the decimal. *)
Lemma tenths_bits :
  Number_of_tenths 6 = S754_finite false 5404319552844595 (-53)
  /\ Number_of_tenths 4 = S754_finite false 7205759403792794 (-54)
  /\ (Z.abs (10 * 5404319552844595 - 6 * 2 ^ 53) <= 5)%Z
  /\ (Z.abs (10 * 7205759403792794 - 4 * 2 ^ 54) <= 5)%Z.
Proof. repeat split; vm_compute; congruence. Qed.

(** The products are the Numbers 60 and 40. *)
Lemma percent_60_40 :
  Number_mul (Number_of_tenths 6) Main.hundred
  = S754_finite false (60 * 2 ^ 47) (-47)
  /\ Number_mul (Number_of_tenths 4) Main.hundred
     = S754_finite false (40 * 2 ^ 47) (-47).
Proof. split; vm_compute; reflexivity. Qed.

(** With Numbers for weights the loop adds one row per entry. *)
Lemma rows_loop_numbers (entries : list (string * spec_float))
  (html : string) (p : Main.page) :
  Main.rows_loop html (map (fun kv => (fst kv, JNum (snd kv))) entries) p
  = Ok (fold_left
          (fun acc kv =>
             acc +:+ "<tr><td>" +:+ fst kv +:+ "</td><td>"
                 +:+ toFixed2 (Number_mul (snd kv) Main.hundred)
                 +:+ "%</td></tr>")
          entries html) p.
Proof.
  revert html. induction entries as [|[code w] rest IH]; intros html.
  - reflexivity.
  - cbn [map Main.rows_loop fst snd fold_left].
    unfold bind at 1, lift, ToNumber. apply IH.
Qed.

(** C8.  For the weights [{A: 0.6, B: 0.4}] [displayResults] sets the
    table to the header row and one row per fund code, in order: A with
    "60.00%" and B with "40.00%". *)
Theorem weights_table_60_40 (p : Main.page) :
  Main.displayResults weights_A_B p
  = Ok tt
      (Main.Page
         ("<h3>优化结果</h3>"
          +:+ "<table class=" +:+ dquote +:+ "table" +:+ dquote +:+ ">"
          +:+ "<tr><th>基金代码</th><th>权重</th></tr>"
          +:+ "<tr><td>A</td><td>60.00%</td></tr>"
          +:+ "<tr><td>B</td><td>40.00%</td></tr>"
          +:+ "</table>")
         (Main.console p) (Main.network p)).
Proof. vm_compute. reflexivity. Qed.
End Table.

(** ** Failures of a request *)

Section Failures.
Import JS Eff Chart Net Obs.
Context `{Host}.

Lemma app_console_error_caught e p : caught (App.console_error e p).
Proof. exact I. Qed.

(** No exception leaves a handler of part_000, whatever it is given. *)
Lemma handle_caught (e : App.event) (p : App.page) :
  caught (App.handle e p).
Proof.
  destruct e; cbn [App.handle].
  - unfold App.fundForm_submit, bind at 1, App.console_log, modify.
    apply try_catch_caught, app_console_error_caught.
  - apply try_catch_caught, app_console_error_caught.
  - apply try_catch_caught, app_console_error_caught.
  - unfold App.backtestForm_submit, bind at 1, modify at 1, try_finally.
    match goal with
    | |- context [try_catch ?body ?handler ?s] =>
        pose proof (try_catch_caught body handler
                      app_console_error_caught s) as Hcaught;
        destruct (try_catch body handler s)
    end; simpl in *; auto.
  - unfold App.user_click_toggleFundList, bind, gets.
    destruct (String.eqb _ _); [exact I|].
    rewrite click_toggleFundList_steps. exact I.
  - rewrite click_toggleFundInfo_steps. exact I.
Qed.

(** When the request fails or the body is not JSON, the handler logs the
    error and ends; what the page renders is as before. *)
Lemma handle_transport_failure (e : App.event) (p : App.page) req net :
  submission e = Some (req, net) ->
  transport_failure net = true ->
  exists p' earlier,
    App.handle e p = Ok tt p'
    /\ rendered p' = rendered p
    /\ App.network p' = App.network p ++ [req]
    /\ App.console p'
       = App.console p ++ earlier ++ [ErrorLog (raised_by net)]
    /\ App.backtestLoading p' = loading_after e p.
Proof.
  intros Hsub Hfail.
  destruct e as [? answer|? answer|? ? ? answer|? ? ? answer| |];
    simpl in Hsub; try discriminate;
    injection Hsub as <- <-;
    destruct answer as [|status [body|]]; try discriminate Hfail;
    destruct p; eexists _, _;
    (split; [reflexivity|]); repeat split;
    try (instantiate (1 := []); reflexivity);
    try (instantiate
           (1 := [Log [JStr "Fund form submit event triggered!"]]);
         cbn; rewrite <- app_assoc; reflexivity).
Qed.

(** The status of the answer is never looked at. *)
Lemma status_ignored (e : App.event) (status : Z) (p : App.page) :
  App.handle (with_answer (with_status status) e) p = App.handle e p.
Proof.
  destruct e as [? net|? net|? ? ? net|? ? ? net| |];
    try reflexivity; destruct net; reflexivity.
Qed.

Lemma main_caught fundCodes startDate endDate net (p : Main.page) :
  caught (Main.optimizeForm_submit fundCodes startDate endDate net p).
Proof. apply try_catch_caught. intros e s. exact I. Qed.

Lemma main_transport_failure fundCodes startDate endDate net
  (p : Main.page) :
  transport_failure net = true ->
  Main.optimizeForm_submit fundCodes startDate endDate net p
  = Ok tt
      (Main.Page (Main.results p)
         (Main.console p ++ [ErrorLog (raised_by net)])
         (Main.network p
            ++ [Main.optimizeForm_request fundCodes startDate endDate])).
Proof.
  intros Hfail. destruct net as [|status [body|]];
    try discriminate Hfail; reflexivity.
Qed.

Lemma main_status_ignored fundCodes startDate endDate net status
  (p : Main.page) :
  Main.optimizeForm_submit fundCodes startDate endDate
    (with_status status net) p
  = Main.optimizeForm_submit fundCodes startDate endDate net p.
Proof. destruct net; reflexivity. Qed.

(** C7, as the code has it.  In every form-submission handler a failed
    request and a body that is not JSON are caught where the request is
    made and logged, and leave what the page renders unchanged (the
    back-test form hides its loading indicator); no exception leaves a
    handler, whatever the answer.  The status of the answer plays no
    part: an answer is handled the same under any status. *)
Theorem transport_failures_caught_and_logged :
  (forall (e : App.event) (p : App.page),
     caught (App.handle e p)
     /\ (forall status,
           App.handle (with_answer (with_status status) e) p
           = App.handle e p)
     /\ (forall req net,
           submission e = Some (req, net) ->
           transport_failure net = true ->
           exists p' earlier,
             App.handle e p = Ok tt p'
             /\ rendered p' = rendered p
             /\ App.network p' = App.network p ++ [req]
             /\ App.console p'
                = App.console p ++ earlier ++ [ErrorLog (raised_by net)]
             /\ App.backtestLoading p' = loading_after e p))
  /\ (forall fundCodes startDate endDate net (p : Main.page),
        caught (Main.optimizeForm_submit fundCodes startDate endDate net p)
        /\ (forall status,
              Main.optimizeForm_submit fundCodes startDate endDate
                (with_status status net) p
              = Main.optimizeForm_submit fundCodes startDate endDate net p)
        /\ (transport_failure net = true ->
            Main.optimizeForm_submit fundCodes startDate endDate net p
            = Ok tt
                (Main.Page (Main.results p)
                   (Main.console p ++ [ErrorLog (raised_by net)])
                   (Main.network p
                      ++ [Main.optimizeForm_request
                            fundCodes startDate endDate])))).
Proof.
  split.
  - intros e p. split; [apply handle_caught|].
    split; [intros status; apply status_ignored|].
    intros req net. apply handle_transport_failure.
  - intros fundCodes startDate endDate net p.
    split; [apply main_caught|].
    split; [intros status; apply main_status_ignored|].
    apply main_transport_failure.
Qed.
End Failures.

(** ** Concrete runs *)

Section Runs.
Import JS Eff Chart Net Obs.

(** The summary of [a_fund] as it is displayed: four lines between the
    braces, the fee left out. *)
Example summary_text :
  exists p,
    @App.displayFundInfo sample_host (JObj a_fund) blank = Ok tt p
    /\ App.fundInfoContent p
       = "{" +:+ newline
         +:+ "  " +:+ quote "基金代码" +:+ ": " +:+ quote "000001" +:+ ","
         +:+ newline
         +:+ "  " +:+ quote "基金名称" +:+ ": " +:+ quote "Alpha" +:+ ","
         +:+ newline
         +:+ "  " +:+ quote "基金类型" +:+ ": " +:+ quote "stock" +:+ ","
         +:+ newline
         +:+ "  " +:+ quote "基金经理" +:+ ": " +:+ quote "Li"
         +:+ newline +:+ "}".
Proof. eexists. split; vm_compute; reflexivity. Qed.

(** A 404 answer with a JSON body is handled like any answer: the list is
    emptied, then reading the absent [data] as an array throws, which is
    logged. *)
Example not_found_run :
  @App.fundForm_submit sample_host "" not_found
    (App.loaded ["000001"] "" "" "")
  = Ok tt
      (App.Page [] (App.Button "" "" []) "" (App.Button "" "" [])
         "" "" "" [] None
         [Log [JStr "Fund form submit event triggered!"];
          ErrorLog TypeError]
         [GET "http://127.0.0.1:8000/funds"]).
Proof. vm_compute. reflexivity. Qed.

(** C7 fails as stated: an answer outside 2xx can change what the page
    renders.  The 404 above empties a list that showed one fund. *)
Lemma non_2xx_answer_empties_fund_list :
  ~ (forall (H : Host) (e : App.event) (p : App.page) req status body,
       @submission H e = Some (req, Responded status body) ->
       ~ (200 <= status < 300)%Z ->
       exists p', @App.handle H e p = Ok tt p' /\ rendered p' = rendered p).
Proof.
  intros Hclaim.
  destruct (Hclaim sample_host (App.SubmitFundForm "" not_found)
              (App.loaded ["000001"] "" "" "") _ 404%Z _ eq_refl)
    as (p' & Hrun & Hsame); [lia|].
  vm_compute in Hrun. injection Hrun as <-. discriminate Hsame.
Qed.

Lemma transport_failures_caught_and_logged_witness :
  @submission sample_host (App.SubmitBacktestForm "" "" "" NetworkFailure)
  = Some (App.backtestForm_request "" "" "", NetworkFailure)
  /\ transport_failure NetworkFailure = true
  /\ exists p' earlier,
       @App.handle sample_host
         (App.SubmitBacktestForm "" "" "" NetworkFailure) blank
       = Ok tt p'
       /\ rendered p' = rendered blank
       /\ App.network p' = [App.backtestForm_request "" "" ""]
       /\ App.console p' = earlier ++ [ErrorLog NetworkError]
       /\ App.backtestLoading p' = "none".
Proof.
  split; [reflexivity|]. split; [reflexivity|].
  destruct (@transport_failures_caught_and_logged sample_host) as (Happ & _).
  destruct (Happ (App.SubmitBacktestForm "" "" "" NetworkFailure) blank)
    as (_ & _ & Hfail).
  exact (Hfail _ _ eq_refl eq_refl).
Defined.

Lemma short_list_hides_toggle_witness :
  length ["000001"; "000002"] <= App.MAX_FUNDS_TO_SHOW
  /\ exists p',
       @App.displayFunds sample_host (fund_ids ["000001"; "000002"]) blank
       = Ok tt p'
       /\ App.display (App.toggleFundList p') = "none"
       /\ App.fundList p' = ["000001"; "000002"]
       /\ App.listeners (App.toggleFundList p')
          = App.listeners (App.toggleFundList blank)
       /\ App.text (App.toggleFundList p')
          = App.text (App.toggleFundList blank)
       /\ @App.user_click_toggleFundList sample_host p' = Ok tt p'.
Proof.
  split; [vm_compute; lia|].
  apply (@short_list_hides_toggle sample_host). vm_compute; lia.
Defined.

Lemma second_render_toggle_dead_witness :
  App.MAX_FUNDS_TO_SHOW < length eleven
  /\ App.MAX_FUNDS_TO_SHOW < length twelve
  /\ App.listeners (App.toggleFundList blank) = []
  /\ exists p1 p2 p3,
       @App.displayFunds sample_host (fund_ids eleven) blank = Ok tt p1
       /\ @App.displayFunds sample_host (fund_ids twelve) p1 = Ok tt p2
       /\ App.fundList p2 = take App.MAX_FUNDS_TO_SHOW twelve
       /\ App.text (App.toggleFundList p2) = App.view_more
       /\ @App.click_toggleFundList sample_host p2 = Ok tt p3
       /\ App.fundList p3 = take App.MAX_FUNDS_TO_SHOW twelve
       /\ App.fundList p3 <> twelve
       /\ App.text (App.toggleFundList p3) = App.view_more.
Proof.
  split; [vm_compute; lia|]. split; [vm_compute; lia|].
  split; [reflexivity|].
  apply (@second_render_toggle_dead sample_host);
    [vm_compute; lia | vm_compute; lia | reflexivity].
Defined.

Lemma listeners_accumulate_witness :
  App.listeners (App.toggleFundInfo blank) = []
  /\ App.listeners (App.toggleFundList blank) = []
  /\ Forall (fun ids => App.MAX_FUNDS_TO_SHOW < length ids)
       [eleven; twelve; eleven]
  /\ exists p',
       for_each (fun ids => @App.displayFunds sample_host (fund_ids ids))
         [eleven; twelve; eleven] blank = Ok tt p'
       /\ length (App.listeners (App.toggleFundList p')) = 3.
Proof.
  assert (Hlong : Forall (fun ids => App.MAX_FUNDS_TO_SHOW < length ids)
                    [eleven; twelve; eleven])
    by (repeat constructor; vm_compute; lia).
  split; [reflexivity|]. split; [reflexivity|]. split; [exact Hlong|].
  destruct (@listeners_accumulate sample_host [a_fund; a_fund]
              [eleven; twelve; eleven] blank eq_refl eq_refl Hlong)
    as (_ & (p' & Hrun & _ & Hlen & _) & _).
  exists p'. split; [exact Hrun | exact Hlen].
Defined.

Lemma bar_chart_twice_one_live_witness :
  @App.reachable sample_host blank
  /\ lookup_prop "weights" [("weights", JObj [("A", JNull)])]
     = JObj [("A", JNull)]
  /\ lookup_prop "weights" [("weights", JObj [("B", JNull)])]
     = JObj [("B", JNull)]
  /\ exists p1 p2,
       @App.renderOptimizeChart sample_host
         (JObj [("weights", JObj [("A", JNull)])]) blank = Ok tt p1
       /\ @App.renderOptimizeChart sample_host
            (JObj [("weights", JObj [("B", JNull)])]) p1 = Ok tt p2
       /\ length (live "optimizeChart" (App.charts p2)) = 1.
Proof.
  assert (Hreach : @App.reachable sample_host blank)
    by apply App.reachable_loaded.
  split; [exact Hreach|]. split; [reflexivity|]. split; [reflexivity|].
  destruct (@bar_chart_twice_one_live sample_host
              [("weights", JObj [("A", JNull)])]
              [("weights", JObj [("B", JNull)])]
              [("A", JNull)] [("B", JNull)] blank Hreach eq_refl eq_refl)
    as (p1 & p2 & id1 & id2 & Hrun1 & _ & _ & Hrun2 & _ & _ & _ & _ & Hone).
  exists p1, p2. split; [exact Hrun1|]. split; [exact Hrun2 | exact Hone].
Defined.

Lemma backtest_charts_pile_up_witness :
  @Chart_guards_canvas sample_host = false
  /\ exists p1 p2,
       @App.renderBacktestChart sample_host
         (backtest_data [("2024-01-01", Number_of_Z 1)]) blank = Ok tt p1
       /\ @App.renderBacktestChart sample_host
            (backtest_data [("2024-01-02", Number_of_Z 2)]) p1 = Ok tt p2
       /\ 2 <= length (live "backtestChart" (App.charts p2)).
Proof.
  split; [reflexivity|].
  destruct (@backtest_charts_pile_up sample_host
              [("2024-01-01", Number_of_Z 1)]
              [("2024-01-02", Number_of_Z 2)] blank eq_refl)
    as (p1 & p2 & Hrun1 & Hrun2 & _ & _ & Htwo).
  exists p1, p2. split; [exact Hrun1|]. split; [exact Hrun2 | exact Htwo].
Defined.

Lemma downsample_every_seventh_witness :
  1 < length (App.sample_loop fifteen 0 [])
  /\ App.sample_loop fifteen 0 [] !! 1 = fifteen !! 7.
Proof.
  destruct (downsample_every_seventh fifteen) as (_ & Hlen & _ & Hat).
  assert (Hone : 1 < length (App.sample_loop fifteen 0 []))
    by (rewrite Hlen; vm_compute; lia).
  split; [exact Hone|].
  destruct (Hat 1 Hone) as (_ & Hlookup). exact Hlookup.
Defined.
End Runs.

(** * Further properties *)

(** ** The pieces of a fund pool *)

Section Pieces.
Import JS Eff Chart Net Obs More.
Context `{Host}.

Lemma count_commas_app (a b : string) :
  count_commas (a +:+ b) = count_commas a + count_commas b.
Proof.
  induction a as [|c a IH]; [reflexivity|].
  rewrite append_cons. cbn [count_commas]. rewrite IH. lia.
Qed.

Lemma split_from_length (cur s : string) :
  length (split_from cur s) = S (count_commas s).
Proof.
  revert cur. induction s as [|c rest IH]; intros cur; [reflexivity|].
  cbn [split_from count_commas].
  destruct (Ascii.eqb c ","); cbn [length]; rewrite IH; lia.
Qed.

Lemma split_from_comma_free (cur s : string) :
  comma_free cur -> Forall comma_free (split_from cur s).
Proof.
  revert cur. induction s as [|c rest IH]; intros cur Hcur.
  - repeat constructor. exact Hcur.
  - cbn [split_from]. destruct (Ascii.eqb c ",") eqn:Hc.
    + constructor; [exact Hcur | apply IH; reflexivity].
    + apply IH. unfold comma_free in *.
      rewrite count_commas_app, Hcur. cbn [count_commas]. rewrite Hc.
      reflexivity.
Qed.

(** Scanning a piece without commas only lengthens the current piece. *)
Lemma split_from_piece (cur piece rest : string) :
  comma_free piece ->
  split_from cur (piece +:+ rest) = split_from (cur +:+ piece) rest.
Proof.
  revert cur. induction piece as [|c piece IH]; intros cur Hfree.
  - rewrite append_empty_r. reflexivity.
  - unfold comma_free in Hfree. cbn [count_commas] in Hfree.
    destruct (Ascii.eqb c ",") eqn:Hc; [discriminate Hfree|].
    rewrite append_cons. cbn [split_from]. rewrite Hc.
    rewrite IH by exact Hfree.
    rewrite append_assoc. reflexivity.
Qed.

Lemma split_join (pieces : list string) :
  pieces <> [] ->
  Forall comma_free pieces ->
  split_comma (join "," pieces) = pieces.
Proof.
  intros Hne Hfree. unfold split_comma.
  induction Hfree as [|piece rest Hpiece Hrest IH]; [congruence|].
  destruct rest as [|next rest].
  - cbn [join]. rewrite <- (append_empty_r piece) at 1.
    rewrite split_from_piece by exact Hpiece. reflexivity.
  - rewrite join_cons by discriminate.
    rewrite split_from_piece by exact Hpiece.
    change (split_from ("" +:+ piece) ("," +:+ join "," (next :: rest)))
      with (piece :: split_from "" (join "," (next :: rest))).
    rewrite IH by discriminate. reflexivity.
Qed.

(** X1.  The fund pool of a request is the input field cut at its commas
    and nothing else.  It has one element more than the field has commas,
    no element holds a comma, and the elements joined by commas are the
    field again, character for character: nothing is trimmed or dropped.
    It is the only such list, so two commas in a row, or a comma at either
    end, give an empty fund code each. *)
Theorem fund_pool_pieces (fundPool method riskAversion : string) :
  let pool := pool_of (App.optimizeForm_request fundPool method riskAversion) in
  pool = map JStr (split_comma fundPool)
  /\ length pool = S (count_commas fundPool)
  /\ Forall comma_free (split_comma fundPool)
  /\ join "," (split_comma fundPool) = fundPool
  /\ (forall pieces,
        pieces <> [] -> Forall comma_free pieces ->
        join "," pieces = fundPool ->
        pool = map JStr pieces).
Proof.
  cbn zeta. split; [reflexivity|]. split; [|split; [|split]].
  - cbn [pool_of App.optimizeForm_request]. rewrite length_map.
    apply split_from_length.
  - apply split_from_comma_free. reflexivity.
  - apply (join_split_from EmptyString).
  - intros pieces Hne Hfree Hjoin.
    cbn [pool_of App.optimizeForm_request].
    rewrite <- Hjoin, split_join by assumption. reflexivity.
Qed.

(** X2.  Fund codes without commas, typed into the back-test form with
    commas between them, arrive in the request as exactly those codes, in
    the order typed. *)
Theorem split_join_round_trip (pieces : list string)
  (startDate endDate : string) :
  pieces <> [] ->
  Forall comma_free pieces ->
  pool_of (App.backtestForm_request (join "," pieces) startDate endDate)
  = map JStr pieces.
Proof.
  intros Hne Hfree. cbn [pool_of App.backtestForm_request].
  rewrite split_join by assumption. reflexivity.
Qed.
End Pieces.

(** ** The table, in general *)

Section TableRows.
Import JS Eff Chart Net Obs More.
Context `{Host}.

Lemma fold_rows (entries : list (string * spec_float)) (html : string) :
  fold_left
    (fun acc kv =>
       acc +:+ "<tr><td>" +:+ fst kv +:+ "</td><td>"
           +:+ toFixed2 (Number_mul (snd kv) Main.hundred)
           +:+ "%</td></tr>")
    entries html
  = html +:+ concat_all (map table_row entries).
Proof.
  revert html. induction entries as [|entry rest IH]; intros html.
  - cbn [fold_left map concat_all]. rewrite append_empty_r. reflexivity.
  - cbn [fold_left map concat_all]. rewrite IH.
    rewrite append_assoc. reflexivity.
Qed.

Lemma displayResults_numbers props (entries : list (string * spec_float))
  (p : Main.page) :
  lookup_prop "weights" props = numeric_weights entries ->
  Main.displayResults (JObj props) p
  = Ok tt
      (Main.Page
         (table_header +:+ concat_all (map table_row entries) +:+ "</table>")
         (Main.console p) (Main.network p)).
Proof.
  intros Hweights. unfold Main.displayResults.
  unfold bind at 1, lift at 1. cbn [get_prop]. rewrite Hweights.
  unfold bind at 1, lift at 1, numeric_weights. cbn [Object_entries].
  unfold bind at 1. rewrite rows_loop_numbers.
  unfold modify. rewrite fold_rows, append_assoc. reflexivity.
Qed.

Lemma displayResults_lacking (result : jsval) (p : Main.page) :
  lacks "weights" result ->
  Main.displayResults result p = Thrown TypeError p.
Proof.
  intros Hlacks. unfold Main.displayResults, bind, lift.
  destruct result as [| | | | | |props]; try contradiction; try reflexivity.
  cbn [get_prop]. destruct Hlacks as [-> | ->]; reflexivity.
Qed.

(** X3.  For an answer whose weights are Numbers [displayResults] writes
    the header row and then one row per fund code, in the order of the
    object, the code put into the markup as it is and the weight as a
    percentage with two decimals; and the handler of the form, given such
    an answer under any status, writes that table, logs nothing and has
    sent one request. *)
Theorem table_one_row_per_fund props (entries : list (string * spec_float))
  fundCodes startDate endDate status (p : Main.page) :
  lookup_prop "weights" props = numeric_weights entries ->
  let table :=
    table_header +:+ concat_all (map table_row entries) +:+ "</table>" in
  Main.displayResults (JObj props) p
  = Ok tt (Main.Page table (Main.console p) (Main.network p))
  /\ Main.optimizeForm_submit fundCodes startDate endDate
       (Responded status (Some (JObj props))) p
     = Ok tt
         (Main.Page table (Main.console p)
            (Main.network p
               ++ [Main.optimizeForm_request fundCodes startDate endDate])).
Proof.
  intros Hweights table. split.
  - apply displayResults_numbers, Hweights.
  - unfold Main.optimizeForm_submit, try_catch, Main.fetch.
    unfold bind at 1, bind at 1, modify at 1, ret.
    unfold bind at 1, response_json, ret.
    rewrite (displayResults_numbers props entries) by exact Hweights.
    reflexivity.
Qed.

(** X4.  When the answer carries no weights (it is null, or an object
    whose [weights] is absent or null, as an error body is)
    [displayResults] throws before it writes: the table stays as it was,
    and the handler logs the TypeError. *)
Theorem table_kept_without_weights (result : jsval)
  fundCodes startDate endDate status (p : Main.page) :
  lacks "weights" result ->
  Main.displayResults result p = Thrown TypeError p
  /\ Main.optimizeForm_submit fundCodes startDate endDate
       (Responded status (Some result)) p
     = Ok tt
         (Main.Page (Main.results p)
            (Main.console p ++ [ErrorLog TypeError])
            (Main.network p
               ++ [Main.optimizeForm_request fundCodes startDate endDate])).
Proof.
  intros Hlacks. split.
  - apply displayResults_lacking, Hlacks.
  - unfold Main.optimizeForm_submit, try_catch, Main.fetch.
    unfold bind at 1, bind at 1, modify at 1, ret.
    unfold bind at 1, response_json, ret.
    rewrite displayResults_lacking by exact Hlacks.
    reflexivity.
Qed.
End TableRows.

(** ** The fund-list toggle after any number of renderings *)

Section ListParity.
Import JS Eff Chart Net Obs More App.
Context `{Host}.

Lemma for_each_app {A} (f : A -> M page unit) (l1 l2 : list A) (p : page) :
  for_each f (l1 ++ l2) p = bind (for_each f l1) (fun _ => for_each f l2) p.
Proof.
  revert p. induction l1 as [|x l1 IH]; intros p; [reflexivity|].
  cbn [app for_each]. unfold bind in *.
  destruct (f x p) as [[] q|e q]; [apply IH | reflexivity].
Qed.

Lemma list_step_frame (funds : list jsval) (q : page) :
  exists label items,
    list_step funds q
    = with_toggleFundList (set_text label) (with_fundList (fun _ => items) q).
Proof.
  unfold list_step.
  destruct (String.eqb (text (toggleFundList q)) view_more);
    [destruct (failure_of (drop MAX_FUNDS_TO_SHOW funds))|].
  - exists (text (toggleFundList q)),
      (fundList q ++ texts_of (drop MAX_FUNDS_TO_SHOW funds)).
    destruct q as [fl [d t ls] ? ? ? ? ? ? ? ? ?]. reflexivity.
  - exists collapse,
      (fundList q ++ texts_of (drop MAX_FUNDS_TO_SHOW funds)).
    destruct q as [fl [d t ls] ? ? ? ? ? ? ? ? ?]. reflexivity.
  - exists view_more, (take MAX_FUNDS_TO_SHOW (fundList q)).
    destruct q as [fl [d t ls] ? ? ? ? ? ? ? ? ?]. reflexivity.
Qed.

Lemma steps_list_frame (registered : list (list jsval)) (q : page) :
  exists label items,
    steps list_step registered q
    = with_toggleFundList (set_text label) (with_fundList (fun _ => items) q).
Proof.
  induction registered as [|funds old IH] using rev_ind.
  - exists (text (toggleFundList q)), (fundList q).
    destruct q as [fl [d t ls] ? ? ? ? ? ? ? ? ?]. reflexivity.
  - destruct IH as (label & items & Hold).
    rewrite steps_snoc, Hold.
    destruct (list_step_frame funds
                (with_toggleFundList (set_text label)
                   (with_fundList (fun _ => items) q)))
      as (label' & items' & ->).
    exists label', items'.
    destruct q as [fl [d t ls] ? ? ? ? ? ? ? ? ?]. reflexivity.
Qed.

Lemma same_list_and_label (q q' : page) (label : string)
  (items : list string) :
  q' = with_toggleFundList (set_text label)
         (with_fundList (fun _ => items) q) ->
  text (toggleFundList q') = text (toggleFundList q) ->
  fundList q' = fundList q ->
  q' = q.
Proof.
  intros ->. destruct q as [fl [d t ls] ? ? ? ? ? ? ? ? ?]. simpl.
  intros -> ->. reflexivity.
Qed.

Lemma steps_list_listeners (registered : list (list jsval)) (q : page) :
  listeners (toggleFundList (steps list_step registered q))
  = listeners (toggleFundList q).
Proof.
  destruct (steps_list_frame registered q) as (label & items & ->).
  destruct q as [fl [d t ls] ? ? ? ? ? ? ? ? ?]. reflexivity.
Qed.

(** From the collapsed state with ten items shown: an even number of steps
    comes back to it, an odd number ends expanded by the last listener. *)
Lemma steps_list_parity (registered : list (list jsval)) :
  Forall (fun funds => failure_of funds = None) registered ->
  forall q,
    text (toggleFundList q) = view_more ->
    length (fundList q) = MAX_FUNDS_TO_SHOW ->
    if Nat.even (length registered)
    then fundList (steps list_step registered q) = fundList q
         /\ text (toggleFundList (steps list_step registered q)) = view_more
    else exists old funds,
           registered = old ++ [funds]
           /\ fundList (steps list_step registered q)
              = fundList q ++ texts_of (drop MAX_FUNDS_TO_SHOW funds)
           /\ text (toggleFundList (steps list_step registered q)) = collapse.
Proof.
  induction registered as [|funds old IH] using rev_ind;
    intros Hall q Hlabel Hten.
  - split; [reflexivity | exact Hlabel].
  - apply Forall_app in Hall as (Hold & Hfunds).
    apply Forall_inv in Hfunds.
    specialize (IH Hold q Hlabel Hten).
    rewrite length_app, Nat.add_1_r, Nat.even_succ, <- Nat.negb_even.
    rewrite steps_snoc.
    destruct (Nat.even (length old)); cbn [negb].
    + destruct IH as (Hitems & Htext).
      destruct (list_step_expand funds _ Htext Hfunds) as (Hf & Ht & _).
      exists old, funds. rewrite Hf, Ht, Hitems. repeat split.
    + destruct IH as (older & previous & _ & Hitems & Htext).
      destruct (list_step_collapse funds _ Htext) as (Hf & Ht & _).
      rewrite Hf, Ht, Hitems. split; [|reflexivity].
      apply take_app_length'. symmetry. exact Hten.
Qed.

Lemma failure_pools (pools : list (list string)) :
  Forall (fun funds => failure_of funds = None) (map (map JStr) pools).
Proof.
  induction pools as [|ids rest IH]; constructor;
    [apply failure_ids | exact IH].
Qed.

(** The page after rendering the long lists [earlier] and then [ids]. *)
Lemma rendered_in_turn (earlier : list (list string)) (ids : list string)
  (p : page) :
  listeners (toggleFundList p) = [] ->
  Forall (fun l => MAX_FUNDS_TO_SHOW < length l) (earlier ++ [ids]) ->
  exists p1,
    for_each (fun l => displayFunds (fund_ids l)) (earlier ++ [ids]) p
    = Ok tt p1
    /\ fundList p1 = take MAX_FUNDS_TO_SHOW ids
    /\ text (toggleFundList p1) = view_more
    /\ display (toggleFundList p1) = "block"
    /\ listeners (toggleFundList p1) = map (map JStr) (earlier ++ [ids]).
Proof.
  intros Hfresh Hlong. apply Forall_app in Hlong as (Hearlier & Hids).
  apply Forall_inv in Hids.
  destruct (displayFunds_all earlier Hearlier p) as (p0 & Hrun & Hls).
  rewrite Hfresh in Hls. cbn [app] in Hls.
  assert (Hitems : MAX_FUNDS_TO_SHOW < length (map JStr ids))
    by (rewrite length_map; exact Hids).
  destruct (shown_long_facts (map JStr ids) p0 Hitems) as (Hf & Hd & Ht & Hl).
  exists (shown (map JStr ids) p0).
  split.
  - rewrite for_each_app. unfold bind at 1. rewrite Hrun.
    cbn [for_each]. unfold bind, fund_ids.
      rewrite displayFunds_array by apply failure_ids.
    reflexivity.
  - rewrite Hf, take_ids, Hl, Hls, map_app. repeat split; assumption.
Qed.

(** X5.  After the [n]-th rendering of a long list on a freshly loaded
    page, one click of the toggle shows all the items of that list when [n]
    is odd and leaves the first ten under the label "view more" when [n]
    is even: every second rendering has a toggle that does nothing. *)
Theorem toggle_works_on_odd_renderings (earlier : list (list string))
  (ids : list string) (p : page) :
  listeners (toggleFundList p) = [] ->
  Forall (fun l => MAX_FUNDS_TO_SHOW < length l) (earlier ++ [ids]) ->
  exists p1 p2,
    for_each (fun l => displayFunds (fund_ids l)) (earlier ++ [ids]) p
    = Ok tt p1
    /\ fundList p1 = take MAX_FUNDS_TO_SHOW ids
    /\ click_toggleFundList p1 = Ok tt p2
    /\ if Nat.even (length earlier)
       then fundList p2 = ids /\ text (toggleFundList p2) = collapse
       else fundList p2 = take MAX_FUNDS_TO_SHOW ids
            /\ text (toggleFundList p2) = view_more.
Proof.
  intros Hfresh Hlong.
  destruct (rendered_in_turn earlier ids p Hfresh Hlong)
    as (p1 & Hrun & Hf1 & Ht1 & _ & Hl1).
  assert (Hten : length (fundList p1) = MAX_FUNDS_TO_SHOW).
  { rewrite Hf1, length_take. apply Forall_app in Hlong as (_ & Hids).
    apply Forall_inv in Hids. lia. }
  exists p1, (steps list_step (listeners (toggleFundList p1)) p1).
  split; [exact Hrun|]. split; [exact Hf1|].
  split; [apply click_toggleFundList_steps|].
  assert (Hall : Forall (fun funds => failure_of funds = None)
                    (listeners (toggleFundList p1)))
    by (rewrite Hl1; apply failure_pools).
  pose proof (steps_list_parity (listeners (toggleFundList p1)) Hall p1
                Ht1 Hten) as Hparity.
  clear Hall. rewrite Hl1 in *. rewrite length_map, length_app, Nat.add_1_r in Hparity.
  rewrite Nat.even_succ, <- Nat.negb_even in Hparity.
  destruct (Nat.even (length earlier)); cbn [negb] in Hparity.
  - destruct Hparity as (old & funds & Hlast & Hf2 & Ht2).
    rewrite map_app in Hlast. apply app_inj_tail in Hlast as (_ & <-).
    rewrite Hf2, Hf1, drop_ids, take_drop. split; [reflexivity | exact Ht2].
  - destruct Hparity as (Hf2 & Ht2). rewrite Hf2. split; assumption.
Qed.

(** X6.  After any number of renderings of long lists on a freshly loaded
    page, two clicks of the toggle give back the very page that was there
    before the first. *)
Theorem list_toggle_two_clicks_back (earlier : list (list string))
  (ids : list string) (p : page) :
  listeners (toggleFundList p) = [] ->
  Forall (fun l => MAX_FUNDS_TO_SHOW < length l) (earlier ++ [ids]) ->
  exists p1 p2,
    for_each (fun l => displayFunds (fund_ids l)) (earlier ++ [ids]) p
    = Ok tt p1
    /\ click_toggleFundList p1 = Ok tt p2
    /\ click_toggleFundList p2 = Ok tt p1.
Proof.
  intros Hfresh Hlong.
  destruct (rendered_in_turn earlier ids p Hfresh Hlong)
    as (p1 & Hrun & Hf1 & Ht1 & _ & Hl1).
  assert (Hten : length (fundList p1) = MAX_FUNDS_TO_SHOW).
  { rewrite Hf1, length_take. apply Forall_app in Hlong as (_ & Hids).
    apply Forall_inv in Hids. lia. }
  set (registered := listeners (toggleFundList p1)) in *.
  exists p1, (steps list_step registered p1).
  split; [exact Hrun|]. split; [apply click_toggleFundList_steps|].
  rewrite click_toggleFundList_steps, steps_list_listeners. f_equal.
  fold registered.
  assert (Htwice : steps list_step registered (steps list_step registered p1)
                   = steps list_step (registered ++ registered) p1)
    by (unfold steps; rewrite fold_left_app; reflexivity).
  rewrite Htwice.
  assert (Hall : Forall (fun funds => failure_of funds = None)
                    (registered ++ registered))
    by (apply Forall_app; split; rewrite Hl1; apply failure_pools).
  pose proof (steps_list_parity (registered ++ registered) Hall p1 Ht1 Hten)
    as Hparity.
  replace (Nat.even (length (registered ++ registered))) with true in Hparity.
  - destruct Hparity as (Hf & Ht).
    destruct (steps_list_frame (registered ++ registered) p1)
      as (label & items & Hframe).
    rewrite <- Ht1 in Ht.
    exact (same_list_and_label p1 _ label items Hframe Ht Hf).
  - symmetry. rewrite length_app. apply Nat.even_spec.
    exists (length registered). lia.
Qed.
End ListParity.

(** ** The fund-info toggle after any number of calls; missing fields *)

Section InfoParity.
Import JS Eff Chart Net Obs More App.
Context `{Host}.

Lemma flip_label_parity (n : nat) :
  Nat.iter n flip_label show_full
  = if Nat.even n then show_full else show_summary.
Proof.
  induction n as [|n IH]; [reflexivity|].
  rewrite Nat.even_succ, <- Nat.negb_even.
  cbn [Nat.iter nat_rect]. fold (Nat.iter n flip_label show_full).
  rewrite IH. destruct (Nat.even n); reflexivity.
Qed.

(** X7.  After the [n]-th call of [displayFundInfo] on a freshly loaded
    page, one click of the toggle shows the full object of that call under
    the label "show summary" when [n] is odd, and leaves its summary under
    "show full" when [n] is even. *)
Theorem info_toggle_works_on_odd_calls
  (earlier : list (list (string * jsval))) (props : list (string * jsval))
  (p : page) :
  listeners (toggleFundInfo p) = [] ->
  exists p1 p2,
    for_each (fun o => displayFundInfo (JObj o)) (earlier ++ [props]) p
    = Ok tt p1
    /\ fundInfoContent p1 = text_of (JSON_stringify (summary_obj props))
    /\ click_toggleFundInfo p1 = Ok tt p2
    /\ if Nat.even (length earlier)
       then fundInfoContent p2 = text_of (JSON_stringify (JObj props))
            /\ text (toggleFundInfo p2) = show_summary
       else fundInfoContent p2 = text_of (JSON_stringify (summary_obj props))
            /\ text (toggleFundInfo p2) = show_full.
Proof.
  intros Hfresh.
  destruct (displayFundInfo_all earlier p) as (p0 & Hrun & Hls).
  rewrite Hfresh in Hls. cbn [app] in Hls.
  destruct (informed_facts props p0) as (Hc1 & Ht1 & Hl1).
  set (p1 := informed props p0) in *. rewrite Hls in Hl1.
  exists p1, (steps info_step (listeners (toggleFundInfo p1)) p1).
  split.
  { rewrite for_each_app. unfold bind at 1. rewrite Hrun.
    cbn [for_each]. unfold bind. rewrite displayFundInfo_object.
    reflexivity. }
  split; [exact Hc1|]. split; [apply click_toggleFundInfo_steps|].
  rewrite Hl1, steps_snoc, info_step_content, info_step_label.
  rewrite steps_info_label, Ht1, length_map, flip_label_parity.
  destruct (Nat.even (length earlier)); split; reflexivity.
Qed.

Lemma serialize_object (indent : string) (props : list (string * jsval)) :
  serialize indent (JObj props)
  = Some (braces indent (object_members (indent +:+ "  ") props)).
Proof.
  cbn [serialize].
  match goal with
  | |- Some (match ?m with _ => _ end) = _ =>
      assert (Hm : m = object_members (indent +:+ "  ") props)
  end.
  { induction props as [|[k v] rest IH]; [reflexivity|].
    cbn [object_members]. rewrite <- IH. reflexivity. }
  rewrite Hm. reflexivity.
Qed.

(** An undefined property is left out of the JSON text of an object. *)
Lemma object_members_present (inner : string)
  (props : list (string * jsval)) :
  object_members inner props
  = object_members inner (List.filter present props).
Proof.
  induction props as [|[k v] rest IH]; [reflexivity|].
  cbn [List.filter]. unfold present at 1. cbn [snd].
  destruct v; cbn [object_members serialize]; rewrite <- ?IH; reflexivity.
Qed.

Lemma JSON_stringify_present (props : list (string * jsval)) :
  JSON_stringify (JObj props)
  = JSON_stringify (JObj (List.filter present props)).
Proof.
  unfold JSON_stringify. rewrite !serialize_object.
  rewrite <- object_members_present. reflexivity.
Qed.

(** X8.  The summary shows the fields the source object has and no
    others: a field that is absent is left out, and the summary of an
    object with none of the four fields is the empty object; the label is
    "show full" all the same. *)
Theorem summary_leaves_out_absent_fields (props : list (string * jsval))
  (p : page) :
  exists p1,
    displayFundInfo (JObj props) p = Ok tt p1
    /\ fundInfoContent p1
       = text_of (JSON_stringify
           (JObj (List.filter present
              [("基金代码", lookup_prop "fund_code" props);
               ("基金名称", lookup_prop "fund_name" props);
               ("基金类型", lookup_prop "fund_type" props);
               ("基金经理", lookup_prop "manager" props)])))
    /\ text (toggleFundInfo p1) = show_full
    /\ (lookup_prop "fund_code" props = JUndefined ->
        lookup_prop "fund_name" props = JUndefined ->
        lookup_prop "fund_type" props = JUndefined ->
        lookup_prop "manager" props = JUndefined ->
        fundInfoContent p1 = "{}").
Proof.
  exists (informed props p).
  destruct (informed_facts props p) as (Hc & Ht & _).
  split; [apply displayFundInfo_object|].
  split; [rewrite Hc; unfold summary_obj;
          rewrite JSON_stringify_present; reflexivity|].
  split; [exact Ht|].
  intros Hcode Hname Htype Hmanager. rewrite Hc. unfold summary_obj.
  rewrite Hcode, Hname, Htype, Hmanager. reflexivity.
Qed.
End InfoParity.

(** ** Answers without the expected data *)

Section MissingData.
Import JS Eff Chart Net Obs More App.
Context `{Host}.

Lemma displayFundInfo_nullish (v : jsval) (p : page) :
  v = JUndefined \/ v = JNull ->
  displayFundInfo v p = Thrown TypeError p.
Proof. intros [-> | ->]; reflexivity. Qed.

Lemma displayFunds_not_array (v : jsval) (p : page) :
  (forall items, v <> JArr items) ->
  displayFunds v p = Thrown TypeError (with_fundList (fun _ => []) p).
Proof.
  intros Hv. destruct v; try reflexivity. exfalso. exact (Hv _ eq_refl).
Qed.

(** X9.  When the answer to the fund-detail request carries no data (it is
    null, or an object whose [data] is absent or null) the handler changes
    nothing of what the page renders and registers no listener: it logs
    the TypeError and ends. *)
Theorem fund_info_kept_without_data (result : jsval) (fundCode : string)
  (status : Z) (p : page) :
  lacks "data" result ->
  fundInfoForm_submit fundCode (Responded status (Some result)) p
  = Ok tt
      (with_console (fun c => c ++ [ErrorLog TypeError])
         (with_network (fun n => n ++ [fundInfoForm_request fundCode]) p))
  /\ rendered
       (with_console (fun c => c ++ [ErrorLog TypeError])
          (with_network (fun n => n ++ [fundInfoForm_request fundCode]) p))
     = rendered p.
Proof.
  intros Hlacks. split; [|destruct p; reflexivity].
  unfold fundInfoForm_submit, try_catch, fetch, response_json.
  unfold bind at 1, bind at 1, modify at 1.
  unfold bind at 1, ret. unfold bind at 1, lift.
  destruct result as [| | | | | |props]; try contradiction; try reflexivity.
  cbn [get_prop]. rewrite displayFundInfo_nullish by exact Hlacks.
  reflexivity.
Qed.

(** X10.  When the answer to the fund-list request is an object whose
    [data] is not an array (absent, as in an error body, or of another
    type) the handler empties the rendered list before it fails; the toggle
    control keeps its display, label and listeners, and the TypeError is
    logged.  When the answer is null the list is kept as well. *)
Theorem fund_list_emptied_without_array props (fundType : string)
  (status : Z) (p : page) :
  (forall items, lookup_prop "data" props <> JArr items) ->
  (exists p',
     fundForm_submit fundType (Responded status (Some (JObj props))) p
     = Ok tt p'
     /\ fundList p' = []
     /\ toggleFundList p' = toggleFundList p
     /\ console p'
        = console p ++ [Log [JStr "Fund form submit event triggered!"];
                        ErrorLog TypeError])
  /\ (exists p',
        fundForm_submit fundType (Responded status (Some JNull)) p = Ok tt p'
        /\ fundList p' = fundList p
        /\ toggleFundList p' = toggleFundList p
        /\ console p'
           = console p ++ [Log [JStr "Fund form submit event triggered!"];
                           ErrorLog TypeError]).
Proof.
  intros Hdata. split.
  - unfold fundForm_submit, try_catch, fetch, response_json, console_log.
    unfold bind at 1, modify at 1.
    unfold bind at 1, bind at 1, modify at 1.
    unfold bind at 1, ret. unfold bind at 1, lift. cbn [get_prop].
    rewrite displayFunds_not_array by exact Hdata.
    eexists. split; [reflexivity|].
    destruct p; cbn. rewrite <- app_assoc. repeat split.
  - eexists. split; [reflexivity|].
    destruct p; cbn. rewrite <- app_assoc. repeat split.
Qed.

(** X11.  A fund-list answer whose [data] is an array of fund identifiers
    is rendered whatever its status: the first ten identifiers are shown,
    the toggle is displayed exactly when there are more than ten, one
    request has been sent and no error is logged. *)
Theorem fund_list_answer_rendered props (ids : list string)
  (fundType : string) (status : Z) (p : page) :
  lookup_prop "data" props = fund_ids ids ->
  exists p',
    fundForm_submit fundType (Responded status (Some (JObj props))) p
    = Ok tt p'
    /\ fundList p' = take MAX_FUNDS_TO_SHOW ids
    /\ display (toggleFundList p')
       = (if (MAX_FUNDS_TO_SHOW <? length ids)%nat then "block" else "none")
    /\ network p' = network p ++ [fundForm_request fundType]
    /\ console p'
       = console p ++ [Log [JStr "Fund form submit event triggered!"]].
Proof.
  intros Hdata.
  unfold fundForm_submit, try_catch, fetch, response_json, console_log.
  unfold bind at 1, modify at 1.
  unfold bind at 1, bind at 1, modify at 1.
  unfold bind at 1, ret. unfold bind at 1, lift. cbn [get_prop].
  rewrite Hdata. unfold fund_ids.
  rewrite displayFunds_array by apply failure_ids.
  eexists. split; [reflexivity|].
  unfold shown. rewrite take_ids, length_map.
  destruct (MAX_FUNDS_TO_SHOW <? length ids)%nat;
    destruct p as [fl [d t ls] ? ? ? ? ? ? ? ? ?]; repeat split.
Qed.

Lemma texts_until_error_stop (ids : list string)
  (o : list (string * jsval)) (rest : list jsval) :
  has_own "toString" o = true ->
  texts_until_error (map JStr ids ++ JObj o :: rest) = (ids, Some TypeError).
Proof.
  intros Hown. induction ids as [|id ids IH].
  - cbn [map app texts_until_error textContent_of ToString].
    rewrite Hown. reflexivity.
  - cbn [map app texts_until_error textContent_of ToString].
    rewrite IH. reflexivity.
Qed.

(** X22.  An item of the fund list that has no text, an object with a
    property of its own named toString, ends the rendering where it
    stands, if it is among the first ten: the identifiers before it are
    shown, the toggle control keeps its display, label and listeners, and
    the TypeError of the assignment is logged. *)
Theorem fund_list_stops_at_item_without_text props (ids : list string)
  (o : list (string * jsval)) (rest : list jsval) (fundType : string)
  (status : Z) (p : page) :
  lookup_prop "data" props = JArr (map JStr ids ++ JObj o :: rest) ->
  length ids < MAX_FUNDS_TO_SHOW ->
  has_own "toString" o = true ->
  exists p',
    fundForm_submit fundType (Responded status (Some (JObj props))) p
    = Ok tt p'
    /\ fundList p' = ids
    /\ toggleFundList p' = toggleFundList p
    /\ console p'
       = console p ++ [Log [JStr "Fund form submit event triggered!"];
                       ErrorLog TypeError].
Proof.
  intros Hdata Hfew Hown.
  assert (Hstop : texts_until_error
                    (take MAX_FUNDS_TO_SHOW
                       (map JStr ids ++ JObj o :: rest))
                  = (ids, Some TypeError)).
  { rewrite take_app, take_ge by (rewrite length_map; lia).
    rewrite length_map.
    destruct (MAX_FUNDS_TO_SHOW - length ids) as [|n] eqn:Hn; [lia|].
    cbn [take]. apply texts_until_error_stop, Hown. }
  unfold fundForm_submit, try_catch, fetch, response_json, console_log.
  unfold bind at 1, modify at 1.
  unfold bind at 1, bind at 1, modify at 1.
  unfold bind at 1, ret. unfold bind at 1, lift. cbn [get_prop].
  rewrite Hdata. unfold displayFunds, bind, modify.
  rewrite for_each_append_item. unfold failure_of, texts_of.
  rewrite Hstop. cbn [fst snd].
  eexists. split; [reflexivity|].
  destruct p as [fl [d t ls] ? ? ? ? ? ? ? ? ?]. split; [reflexivity|].
  split; [reflexivity|]. cbn. rewrite <- app_assoc. reflexivity.
Qed.
End MissingData.

(** ** Charts: the invariant, failed renders, the sampled series *)

Section ChartsMore.
Import JS Eff Chart Net Obs More App.
Context `{Host}.

(** X12.  On every page the scripts can reach, the optimisation canvas
    carries at most one live chart, that chart is the one the script's
    variable refers to, and while the variable is null the canvas carries
    none. *)
Theorem optimize_canvas_invariant (p : page) :
  reachable p ->
  length (live "optimizeChart" (charts p)) <= 1
  /\ (forall id c,
        charts p !! id = Some c -> is_live "optimizeChart" c = true ->
        optimizeChartInstance p = Some id)
  /\ (optimizeChartInstance p = None ->
      live "optimizeChart" (charts p) = []).
Proof.
  intros Hreach. split; [apply optimize_canvas_at_most_one, Hreach|].
  pose proof (reachable_tracked p Hreach) as Htracked.
  split; [exact Htracked|].
  intros Hnone. apply live_nil_vacant. intros id c Hc.
  destruct (is_live "optimizeChart" c) eqn:Hlive; [|reflexivity].
  pose proof (Htracked id c Hc Hlive). congruence.
Qed.

Lemma draw_bars_lacking (data : jsval) (q : page) :
  lacks "weights" data -> draw_bars data q = Thrown TypeError q.
Proof.
  intros Hlacks. unfold draw_bars, bind, lift.
  destruct data as [| | | | | |props]; try contradiction; try reflexivity.
  cbn [get_prop]. destruct Hlacks as [-> | ->]; reflexivity.
Qed.

Lemma renderOptimizeChart_lacking (data : jsval) (q : page) :
  lacks "weights" data ->
  renderOptimizeChart data q
  = Thrown TypeError (with_charts (disposed_existing q) q).
Proof.
  intros Hlacks. rewrite renderOptimizeChart_unfold.
  apply draw_bars_lacking, Hlacks.
Qed.

(** X13.  When the optimisation answer has no weights (its [data] is
    absent or null, or an object without [weights]) the handler still
    overwrites the result text with the JSON text of [data] and destroys
    the chart drawn before, and then fails: the canvas is left without a
    live chart, the script's variable still refers to the destroyed one,
    and the TypeError is logged. *)
Theorem failed_optimize_wipes_chart props
  (fundPool method riskAversion : string) (status : Z) (p : page) :
  reachable p ->
  lacks "weights" (lookup_prop "data" props) ->
  exists p',
    optimizeForm_submit fundPool method riskAversion
      (Responded status (Some (JObj props))) p = Ok tt p'
    /\ optimizeResultContent p'
       = text_of (JSON_stringify (lookup_prop "data" props))
    /\ charts p' = disposed_existing p
    /\ live "optimizeChart" (charts p') = []
    /\ optimizeChartInstance p' = optimizeChartInstance p
    /\ console p' = console p ++ [ErrorLog TypeError].
Proof.
  intros Hreach Hlacks.
  pose proof (tracked_disposed_vacant p (reachable_tracked p Hreach)) as Hv.
  apply live_nil_vacant in Hv.
  unfold optimizeForm_submit, try_catch, fetch, response_json.
  unfold bind at 1, bind at 1, modify at 1.
  unfold bind at 1, ret. unfold bind at 1, lift. cbn [get_prop].
  unfold bind at 1, modify at 1.
  rewrite renderOptimizeChart_lacking by exact Hlacks.
  eexists. split; [reflexivity|].
  assert (Hgone :
    disposed_existing
      (with_optimizeResultContent
         (text_of (JSON_stringify (lookup_prop "data" props)))
         (with_network
            (fun n => n ++ [optimizeForm_request fundPool method riskAversion])
            p))
    = disposed_existing p) by (destruct p; reflexivity).
  rewrite Hgone.
  destruct p; cbn [console_error modify with_console with_charts
    with_optimizeResultContent with_network optimizeResultContent charts
    optimizeChartInstance console]; cbn [charts] in Hv.
  repeat split; try reflexivity. exact Hv.
Qed.

Lemma every_seventh_from {A} (points : list A) (n start : nat) :
  7 * (start + n) < length points + 7 ->
  forall j, j < n ->
    omap (fun k => points !! (7 * k)) (seq start n) !! j
    = points !! (7 * (start + j)).
Proof.
  revert start. induction n as [|n IH]; intros start Hin j Hj; [lia|].
  cbn [seq omap list_omap].
  assert (Hhead : 7 * start < length points) by lia.
  destruct (lookup_lt_is_Some_2 points (7 * start) Hhead) as [x Hx].
  rewrite Hx. destruct j as [|j].
  - cbn. rewrite Nat.add_0_r. symmetry. exact Hx.
  - cbn [lookup list_lookup].
    change (list_lookup j ?l) with (l !! j).
    rewrite (IH (S start)) by lia. f_equal. lia.
Qed.

Lemma every_seventh_lookup {A} (points : list A) (k : nat) :
  k < (length points + 6) / 7 ->
  7 * k < length points
  /\ every_seventh points !! k = points !! (7 * k).
Proof.
  intros Hk.
  pose proof (Nat.div_mod_eq (length points + 6) 7) as Hdiv.
  pose proof (Nat.mod_upper_bound (length points + 6) 7) as Hmod.
  split; [lia|].
  unfold every_seventh. rewrite every_seventh_from by lia.
  reflexivity.
Qed.

(** X14.  The line chart drawn for a series of [L] samples has as many
    labels as values, the ceiling of [L / 7] of each, and its [k]-th label
    and [k]-th value are the date and the value of one and the same sample,
    the one at index [7 k].  A series without samples gives a chart
    without points. *)
Theorem line_chart_pairs_date_with_value
  (points : list (string * spec_float)) (p : page) :
  Chart_guards_canvas = false \/ live "backtestChart" (charts p) = [] ->
  exists p' c,
    renderBacktestChart (backtest_data points) p = Ok tt p'
    /\ charts p' = charts p ++ [c]
    /\ canvas c = "backtestChart" /\ destroyed c = false
    /\ type (cfg c) = line
    /\ length (labels (cfg c)) = (length points + 6) / 7
    /\ length (data (cfg c)) = (length points + 6) / 7
    /\ forall k, k < (length points + 6) / 7 ->
         exists date value,
           points !! (7 * k) = Some (date, value)
           /\ labels (cfg c) !! k = Some (JStr date)
           /\ data (cfg c) !! k = Some (JNum value).
Proof.
  intros Hfree.
  assert (Hrun :
    renderBacktestChart (backtest_data points) p
    = Ok tt (with_charts (charts p ++ [line_chart points])
               (with_console
                  (fun c => c ++ sampling_log (length points)) p))).
  { rewrite renderBacktestChart_points. unfold construct.
    destruct Hfree as [-> | ->]; [reflexivity|].
    rewrite andb_false_r. reflexivity. }
  eexists _, (line_chart points). split; [exact Hrun|].
  split; [destruct p; reflexivity|].
  do 3 (split; [reflexivity|]).
  cbn [line_chart cfg labels data]. rewrite !length_map, length_every_seventh.
  do 2 (split; [reflexivity|]).
  intros k Hk. destruct (every_seventh_lookup points k Hk) as (Hin & Hat).
  destruct (lookup_lt_is_Some_2 points (7 * k) Hin) as [[date value] Hpt].
  exists date, value. split; [exact Hpt|].
  rewrite !list_lookup_fmap, Hat, Hpt. split; reflexivity.
Qed.
End ChartsMore.

(** ** The back-test form *)

Section BacktestForm.
Import JS Eff Chart Net Obs More App.
Context `{Host}.

Lemma renderBacktestChart_lacking (data : jsval) (q : page) :
  lacks "portfolio_value" data ->
  renderBacktestChart data q = Thrown TypeError q.
Proof.
  intros Hlacks. unfold renderBacktestChart, bind, lift.
  destruct data as [| | | | | |props]; try contradiction; try reflexivity.
  cbn [get_prop]. destruct Hlacks as [-> | ->]; reflexivity.
Qed.

(** The handler on an answer with typed samples. *)
Lemma backtestForm_submit_points props
  (points : list (string * spec_float)) fundPool startDate endDate status
  (p : page) :
  lookup_prop "data" props = backtest_data points ->
  let logged :=
    with_console (fun c => c ++ sampling_log (length points))
      (with_backtestResultContent
         (text_of (JSON_stringify (backtest_data points)))
         (with_network
            (fun n => n ++ [backtestForm_request fundPool startDate endDate])
            (with_backtestLoading "block" p))) in
  backtestForm_submit fundPool startDate endDate
    (Responded status (Some (JObj props))) p
  = Ok tt
      (with_backtestLoading "none"
         (if Chart_guards_canvas
             && negb (Nat.eqb (length (live "backtestChart" (charts p))) 0)
          then with_console (fun c => c ++ [ErrorLog CanvasInUse]) logged
          else with_charts (charts p ++ [line_chart points]) logged)).
Proof.
  intros Hdata logged.
  unfold backtestForm_submit. unfold bind at 1, modify at 1.
  unfold try_finally, try_catch, fetch, response_json.
  unfold bind at 1, bind at 1, modify at 1.
  unfold bind at 1, ret. unfold bind at 1, lift. cbn [get_prop].
  rewrite Hdata. unfold bind at 1, modify at 1.
  rewrite renderBacktestChart_points. unfold construct.
  replace (charts (with_backtestResultContent _ (with_network _
             (with_backtestLoading "block" p))))
    with (charts p) by (destruct p; reflexivity).
  fold logged.
  destruct (Chart_guards_canvas
            && negb (Nat.eqb (length (live "backtestChart" (charts p))) 0));
    reflexivity.
Qed.

(** X15.  With a Chart constructor that refuses a canvas in use, of two
    back-test answers in a row only the first is drawn: handling the second
    updates the result text, but the constructor throws, the error is
    logged, and the canvas keeps the chart of the first answer. *)
Theorem second_backtest_keeps_first_chart props1 props2
  (points1 points2 : list (string * spec_float))
  fundPool startDate endDate status1 status2 (p : page) :
  Chart_guards_canvas = true ->
  live "backtestChart" (charts p) = [] ->
  lookup_prop "data" props1 = backtest_data points1 ->
  lookup_prop "data" props2 = backtest_data points2 ->
  exists p1 p2,
    backtestForm_submit fundPool startDate endDate
      (Responded status1 (Some (JObj props1))) p = Ok tt p1
    /\ backtestForm_submit fundPool startDate endDate
         (Responded status2 (Some (JObj props2))) p1 = Ok tt p2
    /\ charts p2 = charts p ++ [line_chart points1]
    /\ live "backtestChart" (charts p2) = [line_chart points1]
    /\ backtestResultContent p2
       = text_of (JSON_stringify (backtest_data points2))
    /\ console p2
       = console p1 ++ sampling_log (length points2) ++ [ErrorLog CanvasInUse]
    /\ backtestLoading p2 = "none".
Proof.
  intros Hguard Hvacant Hdata1 Hdata2.
  pose proof (backtestForm_submit_points props1 points1 fundPool startDate
                endDate status1 p Hdata1) as Hrun1.
  cbn zeta in Hrun1. rewrite Hguard, Hvacant in Hrun1. cbn [length] in Hrun1.
  change (true && negb (Nat.eqb 0 0)) with false in Hrun1. cbv iota in Hrun1.
  match type of Hrun1 with _ = Ok tt ?q => set (p1 := q) in * end.
  assert (Hcharts1 : charts p1 = charts p ++ [line_chart points1])
    by (subst p1; destruct p; reflexivity).
  assert (Hlive1 : live "backtestChart" (charts p1) = [line_chart points1])
    by (rewrite Hcharts1, live_snoc, Hvacant; reflexivity).
  clearbody p1.
  pose proof (backtestForm_submit_points props2 points2 fundPool startDate
                endDate status2 p1 Hdata2) as Hrun2.
  cbn zeta in Hrun2. rewrite Hguard, Hlive1 in Hrun2. cbn [length] in Hrun2.
  change (true && negb (Nat.eqb 1 0)) with true in Hrun2. cbv iota in Hrun2.
  exists p1. eexists. split; [exact Hrun1|]. split; [exact Hrun2|].
  split; [rewrite <- Hcharts1; destruct p1; reflexivity|].
  split; [rewrite <- Hlive1; destruct p1; reflexivity|].
  destruct p1; cbn. rewrite <- app_assoc. repeat split.
Qed.

(** X16.  When the back-test answer has no series (its [data] is absent
    or null, or an object without [portfolio_value]) the handler
    overwrites the result text with the JSON text of [data], draws
    nothing and leaves the charts as they were, logs the TypeError, and
    hides the loading indicator. *)
Theorem failed_backtest_draws_nothing props fundPool startDate endDate
  (status : Z) (p : page) :
  lacks "portfolio_value" (lookup_prop "data" props) ->
  exists p',
    backtestForm_submit fundPool startDate endDate
      (Responded status (Some (JObj props))) p = Ok tt p'
    /\ backtestResultContent p'
       = text_of (JSON_stringify (lookup_prop "data" props))
    /\ charts p' = charts p
    /\ console p' = console p ++ [ErrorLog TypeError]
    /\ backtestLoading p' = "none".
Proof.
  intros Hlacks.
  unfold backtestForm_submit. unfold bind at 1, modify at 1.
  unfold try_finally, try_catch, fetch, response_json.
  unfold bind at 1, bind at 1, modify at 1.
  unfold bind at 1, ret. unfold bind at 1, lift. cbn [get_prop].
  unfold bind at 1, modify at 1.
  rewrite renderBacktestChart_lacking by exact Hlacks.
  eexists. split; [reflexivity|]. destruct p; repeat split.
Qed.

(** X17.  However the back-test handler ends (drawn, failed request, body
    that is not JSON, error while rendering) the loading indicator that it
    showed at the start is hidden at the end, and no exception leaves the
    handler. *)
Theorem loading_indicator_always_hidden fundPool startDate endDate
  (net : fetch_outcome) (p : page) :
  ends (backtestForm_submit fundPool startDate endDate net p)
    (fun p' => backtestLoading p' = "none")
  /\ caught (backtestForm_submit fundPool startDate endDate net p).
Proof.
  split;
    [|exact (handle_caught
               (SubmitBacktestForm fundPool startDate endDate net) p)].
  unfold backtestForm_submit, bind at 1, modify at 1, try_finally.
  match goal with
  | |- context [try_catch ?body ?handler ?s] =>
      pose proof (try_catch_caught body handler
                    app_console_error_caught s) as Hcaught
  end.
  destruct (try_catch _ _ _) as [[] q|e q]; cbn in *.
  - destruct q; reflexivity.
  - contradiction.
Qed.
End BacktestForm.

(** ** What every event keeps *)

Section Relations.
Import JS Eff Obs More.
Context {S : Type} (R : S -> S -> Prop).
Hypothesis R_refl : forall s, R s s.
Hypothesis R_trans : forall s1 s2 s3, R s1 s2 -> R s2 s3 -> R s1 s3.

Lemma relates_keeps {A X} (f : S -> X) (m : M S A) :
  (forall s s', f s' = f s -> R s s') -> keeps f m -> relates R m.
Proof.
  intros Hf Hm s. specialize (Hm s).
  destruct (m s); simpl in *; auto.
Qed.

Lemma relates_bind {A B} (m : M S A) (k : A -> M S B) :
  relates R m -> (forall a, relates R (k a)) -> relates R (bind m k).
Proof.
  intros Hm Hk s. specialize (Hm s). unfold bind.
  destruct (m s) as [a s'|e s']; simpl in *; [|assumption].
  specialize (Hk a s'). destruct (k a s'); simpl in *; eauto.
Qed.

Lemma relates_try_catch {A} (body : M S A) (handler : js_error -> M S A) :
  relates R body -> (forall e, relates R (handler e)) ->
  relates R (try_catch body handler).
Proof.
  intros Hb Hh s. specialize (Hb s). unfold try_catch.
  destruct (body s) as [a s'|e s']; simpl in *; [assumption|].
  specialize (Hh e s'). destruct (handler e s'); simpl in *; eauto.
Qed.

Lemma relates_try_finally {A} (body : M S A) (cleanup : M S unit) :
  relates R body -> relates R cleanup ->
  relates R (try_finally body cleanup).
Proof.
  intros Hb Hc s. specialize (Hb s). unfold try_finally.
  destruct (body s) as [a s'|e s']; simpl in *;
    specialize (Hc s'); destruct (cleanup s'); simpl in *; eauto.
Qed.
End Relations.

Section EveryEvent.
Import JS Eff Chart Net Obs More App.
Context `{Host}.

Lemma listeners_kept_refl (p : page) : listeners_kept p p.
Proof. split; exists []; rewrite app_nil_r; reflexivity. Qed.

Lemma listeners_kept_trans (p1 p2 p3 : page) :
  listeners_kept p1 p2 -> listeners_kept p2 p3 -> listeners_kept p1 p3.
Proof.
  intros ((a & Ha) & (b & Hb)) ((c & Hc) & (d & Hd)). split.
  - exists (a ++ c). rewrite Hc, Ha, app_assoc. reflexivity.
  - exists (b ++ d). rewrite Hd, Hb, app_assoc. reflexivity.
Qed.

Lemma listeners_kept_same (p p' : page) :
  all_listeners p' = all_listeners p -> listeners_kept p p'.
Proof.
  unfold all_listeners. intros Heq. injection Heq as Hlist Hinfo.
  split; exists []; rewrite app_nil_r; assumption.
Qed.

Lemma displayFunds_listeners_kept (v : jsval) :
  relates listeners_kept (displayFunds v).
Proof.
  intros p. destruct v;
    try (apply listeners_kept_same; destruct p; reflexivity).
  unfold displayFunds, bind, modify. rewrite for_each_append_item.
  destruct (failure_of (take MAX_FUNDS_TO_SHOW items)) as [e|].
  - apply listeners_kept_same.
    destruct p as [fl [d t ls] ? ? ? ? ? ? ? ? ?]. reflexivity.
  - destruct (MAX_FUNDS_TO_SHOW <? length items)%nat.
    + split; [exists [items] | exists []; rewrite app_nil_r];
        destruct p as [fl [d t ls] ? ? ? ? ? ? ? ? ?]; reflexivity.
    + apply listeners_kept_same.
      destruct p as [fl [d t ls] ? ? ? ? ? ? ? ? ?]. reflexivity.
Qed.

Lemma displayFundInfo_listeners_kept (v : jsval) :
  relates listeners_kept (displayFundInfo v).
Proof.
  intros p.
  destruct v; try (apply listeners_kept_same; destruct p; reflexivity);
    (split; [exists []; rewrite app_nil_r | eexists];
     destruct p as [? ? ? [d t ls] ? ? ? ? ? ? ?]; reflexivity).
Qed.

Ltac kept_step :=
  first
    [ apply displayFunds_listeners_kept
    | apply displayFundInfo_listeners_kept
    | apply (relates_try_catch listeners_kept listeners_kept_trans);
        [| intros ?]
    | apply (relates_try_finally listeners_kept listeners_kept_trans)
    | apply (relates_keeps listeners_kept all_listeners
               _ listeners_kept_same); frame; fail
    | apply (relates_bind listeners_kept listeners_kept_trans); [| intros ?] ].

(** X19.  No event removes or reorders a click listener: after any form
    submission or click, whatever the answer, each toggle carries the
    listeners it carried before, in the same order, followed by those the
    event added. *)
Theorem listeners_never_removed (e : event) (p : page) :
  ends (handle e p) (listeners_kept p).
Proof.
  revert p. change (relates listeners_kept (handle e)).
  destruct e; cbn [handle];
    unfold fundForm_submit, fundInfoForm_submit, optimizeForm_submit,
      backtestForm_submit, user_click_toggleFundList, click_toggleFundList,
      click_toggleFundInfo, toggleFundList_onclick, toggleFundInfo_onclick,
      renderOptimizeChart, renderBacktestChart, console_log, console_error,
      fetch, response_json, append_item;
    repeat kept_step.
Qed.

(** X18.  A form submission sends exactly one request, whatever the
    answer and however the handler ends (no retry, no second attempt), and
    a click sends none. *)
Theorem one_request_per_submission (e : event) (p : page) :
  ends (handle e p) (fun p' => network p' = network p ++ sent_by e).
Proof.
  destruct e as [fundType net|fundCode net|fundPool method riskAversion net
                 |fundPool startDate endDate net| |];
    cbn [handle sent_by submission].
  - unfold fundForm_submit, console_log. unfold bind at 1, modify at 1.
    pose proof (app_fetch_first (fundForm_request fundType)
                  (bind (response_json net) (fun result =>
                     bind (lift (get_prop result "data")) displayFunds))
                  net
                  (with_console
                     (fun c =>
                        c ++ [Log [JStr "Fund form submit event triggered!"]])
                     p)) as Hsent.
    match type of Hsent with
    | ?P -> _ =>
        assert (Hk : P) by (unfold response_json, displayFunds, append_item;
                            frame)
    end.
    specialize (Hsent Hk).
    replace (network (with_console _ p)) with (network p) in Hsent
      by (destruct p; reflexivity).
    exact Hsent.
  - apply app_fetch_first.
    unfold response_json, displayFundInfo, summary_of. frame.
  - apply app_optimize_sends.
  - apply app_backtest_sends.
  - rewrite app_nil_r.
    assert (Hkeeps : keeps network user_click_toggleFundList)
      by (unfold user_click_toggleFundList, click_toggleFundList,
            toggleFundList_onclick, append_item; frame).
    exact (Hkeeps p).
  - rewrite app_nil_r.
    assert (Hkeeps : keeps network click_toggleFundInfo)
      by (unfold click_toggleFundInfo, toggleFundInfo_onclick; frame).
    exact (Hkeeps p).
Qed.

(** X20.  Each handler writes its own part of the page only.  The fund
    form changes nothing but the fund list, its toggle, the console and
    the request log; the fund-detail form nothing but the detail text and
    its toggle (and the two logs); the optimisation form nothing but its
    result text, the charts and the script's chart variable; the back-test
    form nothing but its result text, the loading indicator and the
    charts; a click nothing but the text it toggles and the label of its
    control. *)
Theorem handlers_keep_to_their_part (e : event) :
  keeps (outside e) (handle e).
Proof.
  destruct e; cbn [handle];
    unfold fundForm_submit, fundInfoForm_submit, optimizeForm_submit,
      backtestForm_submit, user_click_toggleFundList, click_toggleFundList,
      click_toggleFundInfo, toggleFundList_onclick, toggleFundInfo_onclick,
      displayFunds, displayFundInfo, summary_of,
      renderOptimizeChart, renderBacktestChart, console_log, console_error,
      fetch, response_json, append_item;
    frame.
Qed.
End EveryEvent.

(** ** Sequences of events *)

Section Sequences.
Import JS Eff Chart Net Obs More App.
Context `{Host}.

Lemma ends_final {S A} (r : outcome S A) (Q : S -> Prop) :
  ends r Q -> Q (final r).
Proof. destruct r; intros HQ; exact HQ. Qed.

(** Every event has a next page, and it is reachable. *)
Lemma reachable_after (events : list event) (p : page) :
  reachable p -> reachable (after events p).
Proof.
  revert p. induction events as [|e rest IH]; intros p Hreach; [exact Hreach|].
  apply IH. exact (reachable_step p e _ Hreach eq_refl).
Qed.
End Sequences.

(** ** Concrete runs of the further properties *)

Section MoreRuns.
Import JS Eff Chart Net Obs More.

Lemma fund_pool_pieces_witness :
  [""; "a"; ""; "b "; ""] <> []
  /\ Forall comma_free [""; "a"; ""; "b "; ""]
  /\ join "," [""; "a"; ""; "b "; ""] = ",a,,b ,"
  /\ pool_of (@App.optimizeForm_request sample_host ",a,,b ,"
                "mean_variance" "1")
     = map JStr [""; "a"; ""; "b "; ""].
Proof.
  assert (Hne : [""; "a"; ""; "b "; ""] <> []) by discriminate.
  assert (Hfree : Forall comma_free [""; "a"; ""; "b "; ""])
    by (repeat constructor).
  assert (Hjoin : join "," [""; "a"; ""; "b "; ""] = ",a,,b ,")
    by reflexivity.
  split; [exact Hne|]. split; [exact Hfree|]. split; [exact Hjoin|].
  destruct (@fund_pool_pieces sample_host ",a,,b ," "mean_variance" "1")
    as (_ & _ & _ & _ & Honly).
  exact (Honly _ Hne Hfree Hjoin).
Defined.

Lemma split_join_round_trip_witness :
  ["000001"; "110011"] <> []
  /\ Forall comma_free ["000001"; "110011"]
  /\ pool_of (App.backtestForm_request (join "," ["000001"; "110011"])
               "2024-01-01" "2024-12-31")
     = map JStr ["000001"; "110011"].
Proof.
  assert (Hne : ["000001"; "110011"] <> []) by discriminate.
  assert (Hfree : Forall comma_free ["000001"; "110011"])
    by (repeat constructor).
  split; [exact Hne|]. split; [exact Hfree|].
  exact (split_join_round_trip ["000001"; "110011"] "2024-01-01"
           "2024-12-31" Hne Hfree).
Defined.

Lemma summary_leaves_out_absent_fields_witness :
  lookup_prop "fund_code" error_body = JUndefined
  /\ lookup_prop "fund_name" error_body = JUndefined
  /\ lookup_prop "fund_type" error_body = JUndefined
  /\ lookup_prop "manager" error_body = JUndefined
  /\ exists p1,
       @App.displayFundInfo sample_host (JObj error_body) blank = Ok tt p1
       /\ App.fundInfoContent p1 = "{}".
Proof.
  do 4 (split; [reflexivity|]).
  destruct (@summary_leaves_out_absent_fields sample_host error_body blank)
    as (p1 & Hrun & _ & _ & Hempty).
  exists p1. split; [exact Hrun|].
  exact (Hempty eq_refl eq_refl eq_refl eq_refl).
Defined.

Lemma table_one_row_per_fund_witness :
  lookup_prop "weights" weights_body
  = numeric_weights [("A", Number_of_tenths 6)]
  /\ @Main.displayResults sample_host (JObj weights_body)
       (Main.Page "" [] [])
     = Ok tt
         (Main.Page
            (table_header
             +:+ concat_all
                   (map (@table_row sample_host) [("A", Number_of_tenths 6)])
             +:+ "</table>") [] []).
Proof.
  split; [reflexivity|].
  destruct (@table_one_row_per_fund sample_host weights_body
              [("A", Number_of_tenths 6)] "" "" "" 200%Z
              (Main.Page "" [] []) eq_refl) as (Hshown & _).
  exact Hshown.
Defined.

Lemma table_kept_without_weights_witness :
  lacks "weights" (JObj error_body)
  /\ @Main.displayResults sample_host (JObj error_body)
       (Main.Page "old table" [] [])
     = Thrown TypeError (Main.Page "old table" [] []).
Proof.
  assert (Hlacks : lacks "weights" (JObj error_body)) by (left; reflexivity).
  split; [exact Hlacks|].
  destruct (@table_kept_without_weights sample_host (JObj error_body)
              "" "" "" 404%Z (Main.Page "old table" [] []) Hlacks)
    as (Hthrown & _).
  exact Hthrown.
Defined.

Lemma toggle_works_on_odd_renderings_witness :
  App.listeners (App.toggleFundList blank) = []
  /\ Forall (fun l => App.MAX_FUNDS_TO_SHOW < length l) ([eleven] ++ [twelve])
  /\ exists p1 p2,
       for_each (fun l => @App.displayFunds sample_host (fund_ids l))
         ([eleven] ++ [twelve]) blank = Ok tt p1
       /\ @App.click_toggleFundList sample_host p1 = Ok tt p2
       /\ App.fundList p2 = take App.MAX_FUNDS_TO_SHOW twelve.
Proof.
  assert (Hlong : Forall (fun l => App.MAX_FUNDS_TO_SHOW < length l)
                    ([eleven] ++ [twelve]))
    by (repeat constructor; vm_compute; lia).
  split; [reflexivity|]. split; [exact Hlong|].
  destruct (@toggle_works_on_odd_renderings sample_host [eleven] twelve blank
              eq_refl Hlong) as (p1 & p2 & Hrun & _ & Hclick & Hshown).
  exists p1, p2. split; [exact Hrun|]. split; [exact Hclick|].
  exact (proj1 Hshown).
Defined.

Lemma list_toggle_two_clicks_back_witness :
  App.listeners (App.toggleFundList blank) = []
  /\ Forall (fun l => App.MAX_FUNDS_TO_SHOW < length l) ([eleven] ++ [twelve])
  /\ exists p1 p2,
       for_each (fun l => @App.displayFunds sample_host (fund_ids l))
         ([eleven] ++ [twelve]) blank = Ok tt p1
       /\ @App.click_toggleFundList sample_host p1 = Ok tt p2
       /\ @App.click_toggleFundList sample_host p2 = Ok tt p1.
Proof.
  assert (Hlong : Forall (fun l => App.MAX_FUNDS_TO_SHOW < length l)
                    ([eleven] ++ [twelve]))
    by (repeat constructor; vm_compute; lia).
  split; [reflexivity|]. split; [exact Hlong|].
  exact (@list_toggle_two_clicks_back sample_host [eleven] twelve blank
           eq_refl Hlong).
Defined.

Lemma info_toggle_works_on_odd_calls_witness :
  App.listeners (App.toggleFundInfo blank) = []
  /\ exists p1 p2,
       for_each (fun o => @App.displayFundInfo sample_host (JObj o))
         ([] ++ [a_fund]) blank = Ok tt p1
       /\ @App.click_toggleFundInfo sample_host p1 = Ok tt p2
       /\ App.text (App.toggleFundInfo p2) = App.show_summary.
Proof.
  split; [reflexivity|].
  destruct (@info_toggle_works_on_odd_calls sample_host [] a_fund blank
              eq_refl) as (p1 & p2 & Hrun & _ & Hclick & Hshown).
  exists p1, p2. split; [exact Hrun|]. split; [exact Hclick|].
  exact (proj2 Hshown).
Defined.

Lemma fund_info_kept_without_data_witness :
  lacks "data" (JObj error_body)
  /\ @App.fundInfoForm_submit sample_host "000001"
       (Responded 404 (Some (JObj error_body))) blank
     = Ok tt
         (App.with_console (fun c => c ++ [ErrorLog TypeError])
            (App.with_network
               (fun n => n ++ [App.fundInfoForm_request "000001"]) blank)).
Proof.
  assert (Hlacks : lacks "data" (JObj error_body)) by (left; reflexivity).
  split; [exact Hlacks|].
  exact (proj1 (@fund_info_kept_without_data sample_host (JObj error_body)
                  "000001" 404%Z blank Hlacks)).
Defined.

Lemma fund_list_emptied_without_array_witness :
  (forall items, lookup_prop "data" error_body <> JArr items)
  /\ exists p',
       @App.fundForm_submit sample_host ""
         (Responded 404 (Some (JObj error_body)))
         (App.loaded ["000001"] "" "" "") = Ok tt p'
       /\ App.fundList p' = [].
Proof.
  assert (Hdata : forall items, lookup_prop "data" error_body <> JArr items)
    by (intros items; discriminate).
  split; [exact Hdata|].
  destruct (@fund_list_emptied_without_array sample_host error_body "" 404%Z
              (App.loaded ["000001"] "" "" "") Hdata)
    as ((p' & Hrun & Hempty & _) & _).
  exists p'. split; [exact Hrun | exact Hempty].
Defined.

Lemma fund_list_answer_rendered_witness :
  lookup_prop "data" funds_body = fund_ids eleven
  /\ exists p',
       @App.fundForm_submit sample_host "stock"
         (Responded 200 (Some (JObj funds_body))) blank = Ok tt p'
       /\ App.fundList p' = take App.MAX_FUNDS_TO_SHOW eleven
       /\ App.display (App.toggleFundList p') = "block".
Proof.
  split; [reflexivity|].
  destruct (@fund_list_answer_rendered sample_host funds_body eleven "stock"
              200%Z blank eq_refl) as (p' & Hrun & Hshown & Hdisplay & _).
  exists p'. split; [exact Hrun|]. split; [exact Hshown | exact Hdisplay].
Defined.

Lemma fund_list_stops_at_item_without_text_witness :
  lookup_prop "data"
    [("data", JArr (map JStr ["000001"] ++ JObj [("toString", JNull)]
                      :: [JStr "000003"]))]
  = JArr (map JStr ["000001"] ++ JObj [("toString", JNull)]
            :: [JStr "000003"])
  /\ length ["000001"] < App.MAX_FUNDS_TO_SHOW
  /\ has_own "toString" [("toString", JNull)] = true
  /\ exists p',
       @App.fundForm_submit sample_host ""
         (Responded 200
            (Some (JObj [("data",
                          JArr [JStr "000001"; JObj [("toString", JNull)];
                                JStr "000003"])])))
         blank = Ok tt p'
       /\ App.fundList p' = ["000001"]
       /\ App.console p'
          = [Log [JStr "Fund form submit event triggered!"];
             ErrorLog TypeError].
Proof.
  assert (Hfew : length ["000001"] < App.MAX_FUNDS_TO_SHOW)
    by (vm_compute; lia).
  split; [reflexivity|]. split; [exact Hfew|]. split; [reflexivity|].
  destruct (@fund_list_stops_at_item_without_text sample_host
              [("data", JArr (map JStr ["000001"]
                                ++ JObj [("toString", JNull)]
                                :: [JStr "000003"]))]
              ["000001"] [("toString", JNull)] [JStr "000003"] "" 200%Z
              blank eq_refl Hfew eq_refl)
    as (p' & Hrun & Hlist & _ & Hlog).
  exists p'. split; [exact Hrun|]. split; [exact Hlist | exact Hlog].
Defined.

Lemma optimize_canvas_invariant_witness :
  @App.reachable sample_host
    (@after sample_host [optimize_ok; optimize_ok] blank)
  /\ length (App.charts (@after sample_host [optimize_ok; optimize_ok] blank))
     = 2
  /\ length
       (live "optimizeChart"
          (App.charts (@after sample_host [optimize_ok; optimize_ok] blank)))
     <= 1
  /\ App.optimizeChartInstance
       (@after sample_host [optimize_ok; optimize_ok] blank)
     = Some 1.
Proof.
  assert (Hreach : @App.reachable sample_host
                     (@after sample_host [optimize_ok; optimize_ok] blank))
    by (apply reachable_after, App.reachable_loaded).
  split; [exact Hreach|]. split; [reflexivity|].
  destruct (@optimize_canvas_invariant sample_host _ Hreach)
    as (Hone & Htracked & _).
  split; [exact Hone|].
  exact (Htracked 1 (Instance "optimizeChart"
                       (Config bar [JStr "A"] "权重"
                          [JNum (Number_of_tenths 6)]) false)
           eq_refl eq_refl).
Defined.

Lemma failed_optimize_wipes_chart_witness :
  @App.reachable sample_host (@after sample_host [optimize_ok] blank)
  /\ lacks "weights" (lookup_prop "data" infeasible_body)
  /\ length
       (live "optimizeChart"
          (App.charts (@after sample_host [optimize_ok] blank))) = 1
  /\ exists p',
       @App.optimizeForm_submit sample_host "000001" "mean_variance" "1"
         (Responded 422 (Some (JObj infeasible_body)))
         (@after sample_host [optimize_ok] blank) = Ok tt p'
       /\ length (App.charts p') = 1
       /\ live "optimizeChart" (App.charts p') = []
       /\ App.optimizeChartInstance p' = Some 0
       /\ App.console p' = [ErrorLog TypeError].
Proof.
  assert (Hreach : @App.reachable sample_host
                     (@after sample_host [optimize_ok] blank))
    by (apply reachable_after, App.reachable_loaded).
  assert (Hlacks : lacks "weights" (lookup_prop "data" infeasible_body))
    by (left; reflexivity).
  split; [exact Hreach|]. split; [exact Hlacks|]. split; [reflexivity|].
  destruct (@failed_optimize_wipes_chart sample_host infeasible_body "000001"
              "mean_variance" "1" 422%Z _ Hreach Hlacks)
    as (p' & Hrun & _ & Hcharts & Hlive & Hvar & Hlog).
  exists p'. split; [exact Hrun|].
  split; [rewrite Hcharts; reflexivity|].
  split; [exact Hlive|]. split; [exact Hvar | exact Hlog].
Defined.

Lemma line_chart_pairs_date_with_value_witness :
  (@Chart_guards_canvas sample_host = false
   \/ live "backtestChart" (App.charts blank) = [])
  /\ exists p' c,
       @App.renderBacktestChart sample_host (backtest_data one_sample) blank
       = Ok tt p'
       /\ App.charts p' = [c]
       /\ length (labels (cfg c)) = 1.
Proof.
  assert (Hfree : @Chart_guards_canvas sample_host = false
                  \/ live "backtestChart" (App.charts blank) = [])
    by (left; reflexivity).
  split; [exact Hfree|].
  destruct (@line_chart_pairs_date_with_value sample_host one_sample blank
              Hfree) as (p' & c & Hrun & Hcharts & _ & _ & _ & Hlen & _).
  exists p', c. split; [exact Hrun|]. split; [exact Hcharts | exact Hlen].
Defined.

Lemma second_backtest_keeps_first_chart_witness :
  @Chart_guards_canvas guarding_host = true
  /\ live "backtestChart" (App.charts blank) = []
  /\ lookup_prop "data" backtest_body = backtest_data one_sample
  /\ exists p1 p2,
       @App.backtestForm_submit guarding_host "000001" "2024-01-01"
         "2024-12-31" (Responded 200 (Some (JObj backtest_body))) blank
       = Ok tt p1
       /\ @App.backtestForm_submit guarding_host "000001" "2024-01-01"
            "2024-12-31" (Responded 200 (Some (JObj backtest_body))) p1
          = Ok tt p2
       /\ length (App.charts p2) = 1.
Proof.
  split; [reflexivity|]. split; [reflexivity|]. split; [reflexivity|].
  destruct (@second_backtest_keeps_first_chart guarding_host backtest_body
              backtest_body one_sample one_sample "000001" "2024-01-01"
              "2024-12-31" 200%Z 200%Z blank eq_refl eq_refl eq_refl eq_refl)
    as (p1 & p2 & Hrun1 & Hrun2 & Hcharts & _).
  exists p1, p2. split; [exact Hrun1|]. split; [exact Hrun2|].
  rewrite Hcharts. reflexivity.
Defined.

Lemma failed_backtest_draws_nothing_witness :
  lacks "portfolio_value" (lookup_prop "data" error_body)
  /\ exists p',
       @App.backtestForm_submit sample_host "000001" "2024-01-01"
         "2024-12-31" (Responded 500 (Some (JObj error_body))) blank
       = Ok tt p'
       /\ App.charts p' = []
       /\ App.backtestLoading p' = "none".
Proof.
  assert (Hlacks : lacks "portfolio_value" (lookup_prop "data" error_body))
    by exact I.
  split; [exact Hlacks|].
  destruct (@failed_backtest_draws_nothing sample_host error_body "000001"
              "2024-01-01" "2024-12-31" 500%Z blank Hlacks)
    as (p' & Hrun & _ & Hcharts & _ & Hloading).
  exists p'. split; [exact Hrun|]. split; [exact Hcharts | exact Hloading].
Defined.
End MoreRuns.

(** ** Back-test charts are never disposed *)

Section Advances.
Import JS Eff Obs More.
Context {S : Type} (I : S -> Prop) (R : S -> S -> Prop).
Hypothesis R_trans : forall s1 s2 s3, R s1 s2 -> R s2 s3 -> R s1 s3.

Lemma advances_keeps {A X} (f : S -> X) (m : M S A) :
  (forall s s', f s' = f s -> I s -> I s' /\ R s s') ->
  keeps f m -> advances I R m.
Proof.
  intros Hf Hm s Hs. specialize (Hm s).
  destruct (m s); simpl in *; auto.
Qed.

Lemma advances_bind {A B} (m : M S A) (k : A -> M S B) :
  advances I R m -> (forall a, advances I R (k a)) ->
  advances I R (bind m k).
Proof.
  intros Hm Hk s Hs. specialize (Hm s Hs). unfold bind.
  destruct (m s) as [a s'|e s']; simpl in *; [|assumption].
  destruct Hm as (Hs' & Hr). specialize (Hk a s' Hs').
  destruct (k a s'); simpl in *;
    destruct Hk as (Hs'' & Hr'); split; eauto.
Qed.

Lemma advances_try_catch {A} (body : M S A) (handler : js_error -> M S A) :
  advances I R body -> (forall e, advances I R (handler e)) ->
  advances I R (try_catch body handler).
Proof.
  intros Hb Hh s Hs. specialize (Hb s Hs). unfold try_catch.
  destruct (body s) as [a s'|e s']; simpl in *;
    [assumption|].
  destruct Hb as (Hs' & Hr). specialize (Hh e s' Hs').
  destruct (handler e s'); simpl in *;
    destruct Hh as (Hs'' & Hr'); split; eauto.
Qed.

Lemma advances_try_finally {A} (body : M S A) (cleanup : M S unit) :
  advances I R body -> advances I R cleanup ->
  advances I R (try_finally body cleanup).
Proof.
  intros Hb Hc s Hs. specialize (Hb s Hs). unfold try_finally.
  destruct (body s) as [a s'|e s']; simpl in *;
    destruct Hb as (Hs' & Hr); specialize (Hc s' Hs');
    destruct (cleanup s'); simpl in *;
    destruct Hc as (Hs'' & Hr'); split; eauto.
Qed.
End Advances.

Section BacktestChartsKept.
Import JS Eff Chart Net Obs More App.
Context `{Host}.

Lemma backtest_charts_kept_trans (p1 p2 p3 : page) :
  backtest_charts_kept p1 p2 -> backtest_charts_kept p2 p3 ->
  backtest_charts_kept p1 p3.
Proof.
  intros (a & Ha) (b & Hb). exists (a ++ b).
  rewrite Hb, Ha, app_assoc. reflexivity.
Qed.

Lemma chart_state_kept (p p' : page) :
  chart_state p' = chart_state p ->
  refers_to_bar_chart p ->
  refers_to_bar_chart p' /\ backtest_charts_kept p p'.
Proof.
  unfold chart_state. intros Heq Hp. injection Heq as Hcharts Hvar. split.
  - intros id Hid. rewrite Hcharts. apply Hp. congruence.
  - exists []. rewrite Hcharts, app_nil_r. reflexivity.
Qed.

(** Destroying an instance of another canvas, or none, leaves the live
    charts of a canvas as they are. *)
Lemma live_destroy_other (c : string) (r : registry) (id : nat) :
  (forall i, r !! id = Some i -> on_canvas c i = false) ->
  live c (destroy id r) = live c r.
Proof.
  revert id. induction r as [|i r IH]; intros id Hother; [reflexivity|].
  destruct id as [|id].
  - cbn [destroy alter list_alter live List.filter].
    assert (Hi : on_canvas c i = false) by (apply Hother; reflexivity).
    unfold is_live, dispose, on_canvas in *. cbn [canvas destroyed].
    rewrite Hi. reflexivity.
  - cbn [destroy alter list_alter live List.filter].
    specialize (IH id (fun j Hj => Hother j Hj)).
    unfold live, destroy in IH. rewrite IH. reflexivity.
Qed.

Lemma disposed_existing_backtest (p : page) :
  refers_to_bar_chart p ->
  live "backtestChart" (disposed_existing p) = live "backtestChart" (charts p).
Proof.
  intros Hp. unfold disposed_existing.
  destruct (optimizeChartInstance p) as [id|] eqn:Hid; [|reflexivity].
  apply live_destroy_other. intros i Hi.
  destruct (Hp id Hid) as (c & Hc & Hcanvas).
  rewrite Hi in Hc. injection Hc as <-.
  unfold on_canvas. rewrite Hcanvas. reflexivity.
Qed.

Lemma disposed_existing_refers (p : page) :
  refers_to_bar_chart p ->
  refers_to_bar_chart (with_charts (disposed_existing p) p).
Proof.
  intros Hp id Hid.
  replace (optimizeChartInstance (with_charts (disposed_existing p) p))
    with (optimizeChartInstance p) in Hid by (destruct p; reflexivity).
  destruct (Hp id Hid) as (c & Hc & Hcanvas).
  replace (charts (with_charts (disposed_existing p) p))
    with (disposed_existing p) by (destruct p; reflexivity).
  unfold disposed_existing. rewrite Hid. unfold destroy.
  rewrite list_lookup_alter_eq, Hc. exists (dispose c).
  split; [reflexivity | exact Hcanvas].
Qed.

Lemma draw_bars_advances (data : jsval) :
  advances refers_to_bar_chart backtest_charts_kept (draw_bars data).
Proof.
  intros p Hp.
  assert (Hsame : refers_to_bar_chart p /\ backtest_charts_kept p p)
    by (split; [exact Hp | exists []; rewrite app_nil_r; reflexivity]).
  unfold draw_bars, bind, lift, modify, new_Chart, construct.
  destruct (get_prop data "weights") as [weights|e]; simpl; auto.
  destruct (Object_keys weights) as [keys|e]; simpl; auto.
  destruct (Object_values weights) as [values|e]; simpl; auto.
  destruct (_ && _); simpl; [exact Hsame|].
  split.
  - intros id Hid. destruct p; simpl in *. injection Hid as <-.
    eexists. split; [apply list_lookup_middle; reflexivity | reflexivity].
  - exists []. destruct p; simpl. rewrite app_nil_r.
    unfold live. rewrite List.filter_app. simpl. rewrite app_nil_r.
    reflexivity.
Qed.

Lemma renderOptimizeChart_advances (data : jsval) :
  advances refers_to_bar_chart backtest_charts_kept
    (renderOptimizeChart data).
Proof.
  intros p Hp. rewrite renderOptimizeChart_unfold.
  pose proof (draw_bars_advances data _ (disposed_existing_refers p Hp))
    as Hdraw.
  assert (Hfirst : backtest_charts_kept p
                     (with_charts (disposed_existing p) p)).
  { exists []. rewrite app_nil_r.
    replace (charts (with_charts (disposed_existing p) p))
      with (disposed_existing p) by (destruct p; reflexivity).
    apply disposed_existing_backtest, Hp. }
  destruct (draw_bars data _) as [[] q|e q]; simpl in *;
    destruct Hdraw as (Hq & Hkept); split; try exact Hq;
    exact (backtest_charts_kept_trans _ _ _ Hfirst Hkept).
Qed.

Lemma new_backtest_chart_advances (k : config) :
  advances refers_to_bar_chart backtest_charts_kept
    (new_Chart "backtestChart" k).
Proof.
  intros p Hp. unfold new_Chart, construct.
  destruct (_ && _); simpl.
  - split; [exact Hp | exists []; rewrite app_nil_r; reflexivity].
  - split.
    + intros id Hid. destruct p; simpl in *.
      destruct (Hp id Hid) as (c & Hc & Hcanvas).
      exists c. split; [|exact Hcanvas].
      rewrite lookup_app_l; [exact Hc|]. apply lookup_lt_Some in Hc. exact Hc.
    + eexists. destruct p; simpl. apply live_snoc.
Qed.

Ltac advance_step :=
  first
    [ apply renderOptimizeChart_advances
    | apply new_backtest_chart_advances
    | apply (advances_try_catch _ _ backtest_charts_kept_trans); [| intros ?]
    | apply (advances_try_finally _ _ backtest_charts_kept_trans)
    | apply (advances_keeps _ _ chart_state);
        [intros ? ? ?; apply chart_state_kept; assumption | frame; fail]
    | apply (advances_bind _ _ backtest_charts_kept_trans); [| intros ?]
    | match goal with
      | |- advances _ _ (let '(_, _) := ?x in _) => destruct x
      end ].

Lemma handle_advances (e : event) :
  advances refers_to_bar_chart backtest_charts_kept (handle e).
Proof.
  destruct e; cbn [handle];
    unfold fundForm_submit, fundInfoForm_submit, optimizeForm_submit,
      backtestForm_submit, user_click_toggleFundList, click_toggleFundList,
      click_toggleFundInfo, toggleFundList_onclick, toggleFundInfo_onclick,
      displayFunds, displayFundInfo, summary_of,
      renderBacktestChart, console_log, console_error,
      fetch, response_json, append_item;
    repeat advance_step.
Qed.

Lemma reachable_refers (p : page) : reachable p -> refers_to_bar_chart p.
Proof.
  induction 1 as [items label1 content label2|p e p' _ IH Hstep].
  - intros id Hid. discriminate Hid.
  - pose proof (handle_advances e p IH) as Hends.
    destruct (handle e p) as [[] q|err q]; simpl in *;
      subst p'; exact (proj1 Hends).
Qed.

(** X21.  Nothing the page does disposes a chart of the back-test canvas:
    after any event on a reachable page, whatever the answer, the live
    charts of that canvas are those that were live before, followed by the
    one the event may have drawn. *)
Theorem backtest_charts_never_disposed (e : event) (p : page) :
  reachable p ->
  ends (handle e p) (backtest_charts_kept p).
Proof.
  intros Hreach.
  pose proof (handle_advances e p (reachable_refers p Hreach)) as Hends.
  destruct (handle e p) as [[] q|err q]; simpl in *;
    [exact (proj2 Hends) | exact (proj2 Hends)].
Qed.
End BacktestChartsKept.

Section ChartRuns.
Import JS Eff Chart Net Obs More.

Lemma backtest_charts_never_disposed_witness :
  @App.reachable sample_host
    (@after sample_host [backtest_ok; optimize_ok] blank)
  /\ length
       (live "backtestChart"
          (App.charts (@after sample_host [backtest_ok; optimize_ok] blank)))
     = 1
  /\ length
       (live "optimizeChart"
          (App.charts (@after sample_host [backtest_ok; optimize_ok] blank)))
     = 1
  /\ backtest_charts_kept
       (@after sample_host [backtest_ok; optimize_ok] blank)
       (@after sample_host [backtest_ok; optimize_ok; optimize_ok] blank).
Proof.
  assert (Hreach : @App.reachable sample_host
                     (@after sample_host [backtest_ok; optimize_ok] blank))
    by (apply reachable_after, App.reachable_loaded).
  split; [exact Hreach|]. split; [reflexivity|]. split; [reflexivity|].
  exact (ends_final _ _
           (@backtest_charts_never_disposed sample_host optimize_ok _
              Hreach)).
Defined.
End ChartRuns.
